(** * contract_playground: strategies, risk manager and trading engine

    A shallow embedding of the Go package [trading] (strategy variants,
    [RiskManager], [Engine]) and of [validateConfig] of package [config],
    with the properties of the specification and further properties of the
    code.

    Conventions of the embedding.
    - [float64] is modelled by the exact rationals [Q]: the comparisons and
      branches of the code are kept, IEEE rounding, infinities and NaN are
      not represented.  A quotient whose divisor is zero has no counterpart
      in the model ([Q] gives 0 where Go gives an infinity or NaN), so every
      statement that depends on such a quotient carries the hypothesis that
      keeps the divisor away from zero.
      Rounding can move a computed value across a threshold it is compared
      with.  A statement about such a comparison is therefore made only
      where rounding cannot change its outcome: it carries the hypothesis
      that the value is computed exactly ([is_float64] of the exact
      result), or it keeps a margin from the threshold and stays in the
      range where float64 neither overflows nor underflows ([ordinary]),
      or it only uses that rounding is monotone and keeps signs.
    - [int] is modelled by [Z]; the configured periods and grid counts are
      tiny compared with 2^63 and 64-bit wrap-around is not represented,
      except where it is written out ([EngineOps.tickerPeriod]).  The
      conversion [int(x)] of a float64 outside the range of [int] is
      implementation-specific in Go and not represented.
    - A run-time panic (slice bounds out of range, [make] with a negative
      length, [time.NewTicker] with an interval that is not positive) is the
      result [None].
    - Go maps are [gmap]s; a missing key reads as the zero value, as in Go.
    - Methods with a pointer receiver take the receiver as an argument and
      return the updated receiver. *)

From Stdlib Require Import ZArith QArith Qabs Qminmax Lqa Lia.
From stdpp Require Import gmap strings list sorting.

(** ** Numbers *)

Module F64.
Local Open Scope Q_scope.

(** [a < b], [a <= b], [a > b], [a >= b], [a == b] on float64. *)
Definition ltb (a b : Q) : bool := negb (Qle_bool b a).
Definition leb (a b : Q) : bool := Qle_bool a b.
Definition gtb (a b : Q) : bool := ltb b a.
Definition geb (a b : Q) : bool := leb b a.
Definition eqb (a b : Q) : bool := Qeq_bool a b.

(** [math.Min]. *)
Definition Min (a b : Q) : Q := Qmin a b.

(** The conversions [int(x)] (truncation toward zero) and [float64(n)]. *)
Definition to_int (x : Q) : Z := Z.quot (Qnum x) (Zpos (Qden x)).
Definition of_int (n : Z) : Q := inject_Z n.

(** Sum of a slice in index order, as the loops [sum += xs[i]] compute it. *)
Definition sum (xs : list Q) : Q := fold_left Qplus xs 0.
End F64.

(** [len(xs)] as an [int]. *)
Definition len {A} (xs : list A) : Z := Z.of_nat (length xs).

(** ** Values of [map[string]interface{}] and errors *)

Inductive Value :=
| VFloat (f : Q)
| VInt (n : Z)
| VString (s : string)
| VBool (b : bool).

(** The type assertion [val.(float64)]. *)
Definition asFloat64 (v : Value) : option Q :=
  match v with VFloat f => Some f | _ => None end.

(** [if val, ok := config[key]; ok { if x, ok := val.(float64); ok {...} }] *)
Definition floatParam (config : gmap string Value) (key : string) : option Q :=
  config !! key ≫= asFloat64.

(** A Go [error]: [None] is [nil]. *)
Definition error := option string.

(** ** Signals, market data, positions *)

Inductive FmtArg := ArgFloat (x : Q) | ArgInt (n : Z).

(** The diagnostic text of a signal: a literal or the arguments of
    [fmt.Sprintf] (the rendering of the numbers is not modelled). *)
Inductive Diagnostic :=
| Text (s : string)
| Sprintf (format : string) (args : list FmtArg).

Module Signal.
Record t := mk {
  Action : string;        (* BUY, SELL, HOLD *)
  Quantity : Q;
  Price : Q;
  StopLoss : Q;
  TakeProfit : Q;
  Confidence : Q;         (* 0.0 to 1.0 *)
  Reason : Diagnostic;
  PositionSide : string   (* LONG, SHORT *)
}.

(** [&Signal{Action: "HOLD", Reason: r}]: the other fields are zero. *)
Definition hold (r : Diagnostic) : t :=
  mk "HOLD" 0 0 0 0 0 r "".
End Signal.

Module MarketData.
Record t := mk {
  Symbol : string;
  Price : Q;
  Volume : Q;
  Change : Q
}.
End MarketData.

Module Position.
(** [models.Position], with the fields the engine and strategies read. *)
Record t := mk {
  ID : N;
  Symbol : string;
  PositionSide : string;  (* LONG, SHORT *)
  Size : Q;
  EntryPrice : Q;
  Status : string         (* OPEN, CLOSED *)
}.
End Position.

(** ** SMAStrategy *)

Module SMAStrategy.
Local Open Scope Q_scope.

Record t := mk {
  name : string;
  shortPeriod : Z;
  longPeriod : Z;
  minConfidence : Q;
  priceHistory : gmap string (list Q)
}.

Definition NewSMAStrategy : t :=
  mk "Simple Moving Average" 10 20 (7 # 10) ∅.

Definition Name (s : t) : string := name s.

Definition Initialize (config : gmap string Value) (s : t) : t * error :=
  let s1 :=
    match floatParam config "short_period" with
    | Some period =>
        mk (name s) (F64.to_int period) (longPeriod s) (minConfidence s) (priceHistory s)
    | None => s
    end in
  let s2 :=
    match floatParam config "long_period" with
    | Some period =>
        mk (name s1) (shortPeriod s1) (F64.to_int period) (minConfidence s1) (priceHistory s1)
    | None => s1
    end in
  let s3 :=
    match floatParam config "min_confidence" with
    | Some conf =>
        mk (name s2) (shortPeriod s2) (longPeriod s2) conf (priceHistory s2)
    | None => s2
    end in
  if (shortPeriod s3 >=? longPeriod s3)%Z
  then (s3, Some "short period must be less than long period")
  else (s3, None).

(** [s.priceHistory[symbol]]: a missing key reads as the nil slice. *)
Definition history (s : t) (symbol : string) : list Q :=
  default [] (priceHistory s !! symbol).

Definition setHistory (s : t) (symbol : string) (h : list Q) : t :=
  mk (name s) (shortPeriod s) (longPeriod s) (minConfidence s)
     (<[symbol := h]> (priceHistory s)).

Definition maxLength (s : t) : Z := (longPeriod s + 10)%Z.

(** Appends the price and keeps the last [maxLength] entries.  The slice
    expression [h[len(h)-maxLength:]] panics when its low bound exceeds
    [len(h)], that is when [maxLength] is negative. *)
Definition updatePriceHistory (symbol : string) (price : Q) (s : t) : option t :=
  let h := history s symbol ++ [price] in
  if (len h >? maxLength s)%Z then
    if (maxLength s <? 0)%Z then None
    else Some (setHistory s symbol (drop (Z.to_nat (len h - maxLength s)) h))
  else Some (setHistory s symbol h).

(** The loop runs over [prices[len-period:]]; it is empty when
    [period <= 0]. *)
Definition calculateSMA (prices : list Q) (period : Z) : Q :=
  if (len prices <? period)%Z then 0
  else F64.sum (drop (Z.to_nat (len prices - period)) prices) / F64.of_int period.

Definition calculateQuantity (price positionValue : Q) : Q :=
  positionValue / price.

Definition ShouldBuy (symbol : string) (data : MarketData.t) (s : t)
  : option (t * Signal.t) :=
  s' ← updatePriceHistory symbol (MarketData.Price data) s;
  let prices := history s' symbol in
  if (len prices <? longPeriod s')%Z then
    Some (s', Signal.hold (Text "Insufficient data"))
  else
    let shortSMA := calculateSMA prices (shortPeriod s') in
    let longSMA := calculateSMA prices (longPeriod s') in
    (* Buy signal: short SMA crosses above long SMA *)
    if F64.gtb shortSMA longSMA then
      (* Calculate crossover strength for confidence *)
      let crossoverStrength := (shortSMA - longSMA) / longSMA in
      let confidence := F64.Min (crossoverStrength * 10) 1 in
      if F64.geb confidence (minConfidence s') then
        let quantity := calculateQuantity (MarketData.Price data) 1000 in
        Some (s', Signal.mk "BUY" quantity (MarketData.Price data) 0 0 confidence
                    (Sprintf "SMA crossover: short=%.2f, long=%.2f"
                             [ArgFloat shortSMA; ArgFloat longSMA])
                    "LONG")
      else Some (s', Signal.hold (Text "No buy signal"))
    else Some (s', Signal.hold (Text "No buy signal")).

Definition ShouldSell (symbol : string) (data : MarketData.t)
    (position : Position.t) (s : t) : option (t * Signal.t) :=
  s' ← updatePriceHistory symbol (MarketData.Price data) s;
  let prices := history s' symbol in
  if (len prices <? longPeriod s')%Z then
    Some (s', Signal.hold (Text "Insufficient data"))
  else
    let shortSMA := calculateSMA prices (shortPeriod s') in
    let longSMA := calculateSMA prices (longPeriod s') in
    let crossover :=
      if F64.ltb shortSMA longSMA then
        let crossoverStrength := (longSMA - shortSMA) / longSMA in
        let confidence := F64.Min (crossoverStrength * 10) 1 in
        if F64.geb confidence (minConfidence s') then
          Some (Signal.mk "SELL" (Position.Size position) (MarketData.Price data)
                  0 0 confidence
                  (Sprintf "SMA crossover: short=%.2f, long=%.2f"
                           [ArgFloat shortSMA; ArgFloat longSMA])
                  "")
        else None
      else None in
    match crossover with
    | Some sig => Some (s', sig)
    | None =>
        (* Also check for stop loss or take profit *)
        let pnlPercent :=
          (MarketData.Price data - Position.EntryPrice position)
            / Position.EntryPrice position * 100 in
        if F64.leb pnlPercent (-2) then
          Some (s', Signal.mk "SELL" (Position.Size position) (MarketData.Price data)
                      0 0 1
                      (Sprintf "Stop loss triggered: %.2f%%" [ArgFloat pnlPercent]) "")
        else if F64.geb pnlPercent 5 then
          Some (s', Signal.mk "SELL" (Position.Size position) (MarketData.Price data)
                      0 0 1
                      (Sprintf "Take profit triggered: %.2f%%" [ArgFloat pnlPercent]) "")
        else Some (s', Signal.hold (Text "No sell signal"))
    end.
End SMAStrategy.

(** ** RSIStrategy *)

Module RSIStrategy.
Local Open Scope Q_scope.

Record t := mk {
  name : string;
  period : Z;
  oversold : Q;
  overbought : Q;
  minConfidence : Q;
  priceHistory : gmap string (list Q)
}.

Definition NewRSIStrategy : t :=
  mk "RSI Strategy" 14 30 70 (6 # 10) ∅.

Definition Name (r : t) : string := name r.

Definition Initialize (config : gmap string Value) (r : t) : t * error :=
  let r1 :=
    match floatParam config "period" with
    | Some p => mk (name r) (F64.to_int p) (oversold r) (overbought r)
                   (minConfidence r) (priceHistory r)
    | None => r
    end in
  let r2 :=
    match floatParam config "oversold" with
    | Some x => mk (name r1) (period r1) x (overbought r1)
                   (minConfidence r1) (priceHistory r1)
    | None => r1
    end in
  let r3 :=
    match floatParam config "overbought" with
    | Some x => mk (name r2) (period r2) (oversold r2) x
                   (minConfidence r2) (priceHistory r2)
    | None => r2
    end in
  let r4 :=
    match floatParam config "min_confidence" with
    | Some x => mk (name r3) (period r3) (oversold r3) (overbought r3)
                   x (priceHistory r3)
    | None => r3
    end in
  (r4, None).

Definition history (r : t) (symbol : string) : list Q :=
  default [] (priceHistory r !! symbol).

Definition setHistory (r : t) (symbol : string) (h : list Q) : t :=
  mk (name r) (period r) (oversold r) (overbought r) (minConfidence r)
     (<[symbol := h]> (priceHistory r)).

Definition maxLength (r : t) : Z := (period r + 20)%Z.

Definition updatePriceHistory (symbol : string) (price : Q) (r : t) : option t :=
  let h := history r symbol ++ [price] in
  if (len h >? maxLength r)%Z then
    if (maxLength r <? 0)%Z then None
    else Some (setHistory r symbol (drop (Z.to_nat (len h - maxLength r)) h))
  else Some (setHistory r symbol h).

(** [prices[i] - prices[i-1]] for [i = 1 .. len(prices)-1]. *)
Fixpoint changes (prices : list Q) : list Q :=
  match prices with
  | a :: (b :: _) as rest => (b - a) :: changes rest
  | _ => []
  end.

(** The entries appended to [gains] and [losses] for one change. *)
Definition gain (change : Q) : Q := if F64.gtb change 0 then change else 0.
Definition loss (change : Q) : Q := if F64.gtb change 0 then 0 else - change.

(** The average of the last [period] entries: the loop over
    [xs[len(xs)-period+i]], [i < period], then the division. *)
Definition average (xs : list Q) (period : Z) : Q :=
  F64.sum (drop (Z.to_nat (len xs - period)) xs) / F64.of_int period.

Definition avgGain (r : t) (prices : list Q) : Q :=
  average (gain <$> changes prices) (period r).
Definition avgLoss (r : t) (prices : list Q) : Q :=
  average (loss <$> changes prices) (period r).

Definition calculateRSI (r : t) (prices : list Q) : Q :=
  if (len prices <? period r + 1)%Z then 50   (* Neutral RSI *)
  else
    let gains := gain <$> changes prices in
    if (len gains <? period r)%Z then 50
    else
      if F64.eqb (avgLoss r prices) 0 then 100
      else
        let rs := avgGain r prices / avgLoss r prices in
        100 - (100 / (1 + rs)).

Definition calculateQuantity (price positionValue : Q) : Q :=
  positionValue / price.

Definition ShouldBuy (symbol : string) (data : MarketData.t) (r : t)
  : option (t * Signal.t) :=
  r' ← updatePriceHistory symbol (MarketData.Price data) r;
  let prices := history r' symbol in
  if (len prices <? period r' + 1)%Z then
    Some (r', Signal.hold (Text "Insufficient data for RSI"))
  else
    let rsi := calculateRSI r' prices in
    let noSignal := Signal.hold (Sprintf "RSI: %.2f" [ArgFloat rsi]) in
    if F64.ltb rsi (oversold r') then
      let confidence := (oversold r' - rsi) / oversold r' in
      if F64.geb confidence (minConfidence r') then
        let quantity := calculateQuantity (MarketData.Price data) 1000 in
        Some (r', Signal.mk "BUY" quantity (MarketData.Price data) 0 0 confidence
                    (Sprintf "RSI oversold: %.2f" [ArgFloat rsi]) "LONG")
      else Some (r', noSignal)
    else Some (r', noSignal).

Definition ShouldSell (symbol : string) (data : MarketData.t)
    (position : Position.t) (r : t) : option (t * Signal.t) :=
  r' ← updatePriceHistory symbol (MarketData.Price data) r;
  let prices := history r' symbol in
  if (len prices <? period r' + 1)%Z then
    Some (r', Signal.hold (Text "Insufficient data for RSI"))
  else
    let rsi := calculateRSI r' prices in
    let overboughtSignal :=
      if F64.gtb rsi (overbought r') then
        let confidence := (rsi - overbought r') / (100 - overbought r') in
        if F64.geb confidence (minConfidence r') then
          Some (Signal.mk "SELL" (Position.Size position) (MarketData.Price data)
                  0 0 confidence
                  (Sprintf "RSI overbought: %.2f" [ArgFloat rsi]) "")
        else None
      else None in
    match overboughtSignal with
    | Some sig => Some (r', sig)
    | None =>
        (* Check stop loss and take profit *)
        let pnlPercent :=
          (MarketData.Price data - Position.EntryPrice position)
            / Position.EntryPrice position * 100 in
        if F64.leb pnlPercent (-2) then
          Some (r', Signal.mk "SELL" (Position.Size position) (MarketData.Price data)
                      0 0 1 (Sprintf "Stop loss: %.2f%%" [ArgFloat pnlPercent]) "")
        else if F64.geb pnlPercent 5 then
          Some (r', Signal.mk "SELL" (Position.Size position) (MarketData.Price data)
                      0 0 1 (Sprintf "Take profit: %.2f%%" [ArgFloat pnlPercent]) "")
        else Some (r', Signal.hold (Sprintf "RSI: %.2f" [ArgFloat rsi]))
    end.
End RSIStrategy.

(** ** GridStrategy *)

Module GridPosition.
Record t := mk {
  Price : Q;
  Quantity : Q;
  Active : bool
}.
End GridPosition.

Module GridStrategy.
Local Open Scope Q_scope.

Record t := mk {
  name : string;
  gridSize : Q;
  numGrids : Z;
  basePrice : Q;
  positions : gmap string (list GridPosition.t);
  minConfidence : Q
}.

Definition NewGridStrategy : t :=
  mk "Grid Strategy" (1 # 100) 10 0 ∅ (8 # 10).

Definition Name (g : t) : string := name g.

Definition Initialize (config : gmap string Value) (g : t) : t * error :=
  let g1 :=
    match floatParam config "grid_size" with
    | Some size => mk (name g) size (numGrids g) (basePrice g) (positions g)
                      (minConfidence g)
    | None => g
    end in
  let g2 :=
    match floatParam config "num_grids" with
    | Some num => mk (name g1) (gridSize g1) (F64.to_int num) (basePrice g1)
                     (positions g1) (minConfidence g1)
    | None => g1
    end in
  let g3 :=
    match floatParam config "min_confidence" with
    | Some conf => mk (name g2) (gridSize g2) (numGrids g2) (basePrice g2)
                      (positions g2) conf
    | None => g2
    end in
  (g3, None).

(** [g.positions[symbol]]: a missing key reads as the nil slice. *)
Definition levels (g : t) (symbol : string) : list GridPosition.t :=
  default [] (positions g !! symbol).

Definition setBasePrice (g : t) (price : Q) : t :=
  mk (name g) (gridSize g) (numGrids g) price (positions g) (minConfidence g).

(** Level [i] of a grid laid out around [base]. *)
Definition gridLevelAt (g : t) (base : Q) (i : Z) : GridPosition.t :=
  let offset := F64.of_int (i - Z.quot (numGrids g) 2) * gridSize g in
  GridPosition.mk (base * (1 + offset)) 0 false.

(** [make([]GridPosition, g.numGrids)] panics for a negative length. *)
Definition initializeGrid (symbol : string) (base : Q) (g : t) : option t :=
  if (numGrids g <? 0)%Z then None
  else
    Some (mk (name g) (gridSize g) (numGrids g) (basePrice g)
             (<[symbol := gridLevelAt g base <$> seqZ 0 (numGrids g)]> (positions g))
             (minConfidence g)).

Definition findGridLevel (price : Q) (g : t) : Z :=
  if F64.eqb (basePrice g) 0 then (-1)%Z
  else
    let offset := (price - basePrice g) / basePrice g / gridSize g in
    (F64.to_int offset + Z.quot (numGrids g) 2)%Z.

Definition calculateGridQuantity (price : Q) : Q := 100 / price.

Definition ShouldBuy (symbol : string) (data : MarketData.t) (g : t)
  : option (t * Signal.t) :=
  let price := MarketData.Price data in
  g' ← (if F64.eqb (basePrice g) 0
        then initializeGrid symbol price (setBasePrice g price)
        else Some g);
  let gridLevel := findGridLevel price g' in
  if ((gridLevel <? 0) || (gridLevel >=? len (levels g' symbol)))%Z then
    Some (g', Signal.hold (Text "Price outside grid range"))
  else
    (* the index is in range here; an index out of range would panic *)
    level ← levels g' symbol !! Z.to_nat gridLevel;
    if F64.leb price (GridPosition.Price level) && negb (GridPosition.Active level) then
      let quantity := calculateGridQuantity price in
      Some (g', Signal.mk "BUY" quantity price 0 0 (minConfidence g')
                  (Sprintf "Grid buy at level %d" [ArgInt gridLevel]) "LONG")
    else Some (g', Signal.hold (Text "No grid buy signal")).

Definition ShouldSell (symbol : string) (data : MarketData.t)
    (position : Position.t) (g : t) : option (t * Signal.t) :=
  let price := MarketData.Price data in
  if F64.eqb (basePrice g) 0 then
    Some (g, Signal.hold (Text "Grid not initialized"))
  else
    let profitTarget := Position.EntryPrice position * (1 + gridSize g) in
    if F64.geb price profitTarget then
      Some (g, Signal.mk "SELL" (Position.Size position) price 0 0 (minConfidence g)
                 (Sprintf "Grid sell target reached: %.2f" [ArgFloat profitTarget]) "")
    else
      let stopLoss := Position.EntryPrice position * (1 - gridSize g * 2) in
      if F64.leb price stopLoss then
        Some (g, Signal.mk "SELL" (Position.Size position) price 0 0 1
                   (Sprintf "Grid stop loss: %.2f" [ArgFloat stopLoss]) "")
      else Some (g, Signal.hold (Text "No grid sell signal")).
End GridStrategy.

(** ** AIStrategy *)

Module AIStrategy.
Record t := mk { name : string }.

Definition NewAIStrategy : t := mk "AIStrategy".

Definition Name (a : t) : string := name a.

Definition Initialize (config : gmap string Value) (a : t) : t * error :=
  (a, None).

(** [&Signal{Action: "BUY"}]: every other field is zero. *)
Definition ShouldBuy (symbol : string) (data : MarketData.t) (a : t)
  : option (t * Signal.t) :=
  Some (a, Signal.mk "BUY" 0 0 0 0 0 (Text "") "").

Definition ShouldSell (symbol : string) (data : MarketData.t)
    (position : Position.t) (a : t) : option (t * Signal.t) :=
  Some (a, Signal.mk "SELL" 0 0 0 0 0 (Text "") "").
End AIStrategy.

(** ** The Strategy interface

    Every implementation returns a nil error from [ShouldBuy] and
    [ShouldSell], so the interface of the model returns the signal alone;
    [None] is a panic. *)

Class Strategy (S : Type) := {
  Name : S → string;
  ShouldBuy : string → MarketData.t → S → option (S * Signal.t);
  ShouldSell : string → MarketData.t → Position.t → S → option (S * Signal.t);
  Initialize : gmap string Value → S → S * error
}.

#[export] Instance SMA_Strategy : Strategy SMAStrategy.t := {
  Name := SMAStrategy.Name;
  ShouldBuy := SMAStrategy.ShouldBuy;
  ShouldSell := SMAStrategy.ShouldSell;
  Initialize := SMAStrategy.Initialize
}.

#[export] Instance RSI_Strategy : Strategy RSIStrategy.t := {
  Name := RSIStrategy.Name;
  ShouldBuy := RSIStrategy.ShouldBuy;
  ShouldSell := RSIStrategy.ShouldSell;
  Initialize := RSIStrategy.Initialize
}.

#[export] Instance Grid_Strategy : Strategy GridStrategy.t := {
  Name := GridStrategy.Name;
  ShouldBuy := GridStrategy.ShouldBuy;
  ShouldSell := GridStrategy.ShouldSell;
  Initialize := GridStrategy.Initialize
}.

#[export] Instance AI_Strategy : Strategy AIStrategy.t := {
  Name := AIStrategy.Name;
  ShouldBuy := AIStrategy.ShouldBuy;
  ShouldSell := AIStrategy.ShouldSell;
  Initialize := AIStrategy.Initialize
}.

(** A value of interface type [Strategy]: one of the four implementations. *)
Inductive StrategyVariant :=
| SMA (s : SMAStrategy.t)
| RSI (r : RSIStrategy.t)
| Grid (g : GridStrategy.t)
| AI (a : AIStrategy.t).

(** Lifts a method result of an implementation to the interface value. *)
Definition lift {S A} (wrap : S → StrategyVariant) (r : option (S * A))
  : option (StrategyVariant * A) :=
  prod_map wrap id <$> r.

#[export] Instance Variant_Strategy : Strategy StrategyVariant := {
  Name v :=
    match v with
    | SMA s => Name s | RSI r => Name r | Grid g => Name g | AI a => Name a
    end;
  ShouldBuy symbol data v :=
    match v with
    | SMA s => lift SMA (ShouldBuy symbol data s)
    | RSI r => lift RSI (ShouldBuy symbol data r)
    | Grid g => lift Grid (ShouldBuy symbol data g)
    | AI a => lift AI (ShouldBuy symbol data a)
    end;
  ShouldSell symbol data position v :=
    match v with
    | SMA s => lift SMA (ShouldSell symbol data position s)
    | RSI r => lift RSI (ShouldSell symbol data position r)
    | Grid g => lift Grid (ShouldSell symbol data position g)
    | AI a => lift AI (ShouldSell symbol data position a)
    end;
  Initialize config v :=
    match v with
    | SMA s => prod_map SMA id (Initialize config s)
    | RSI r => prod_map RSI id (Initialize config r)
    | Grid g => prod_map Grid id (Initialize config g)
    | AI a => prod_map AI id (Initialize config a)
    end
}.

(** ** Time

    A reading of [time.Now()]: the calendar date in the local zone, which is
    all [resetDailyCountersIfNeeded] looks at, the time of day, and the Unix
    time used in client order ids. *)

Module Time.
Record t := mk {
  Year : Z;
  Month : Z;
  Day : Z;
  SecondOfDay : Z;
  Unix : Z
}.
End Time.

Module Duration.
(** [time.Duration]: an int64 count of nanoseconds. *)
Definition wrap (d : Z) : Z := ((d + 2 ^ 63) mod 2 ^ 64 - 2 ^ 63)%Z.

Definition Second : Z := 1000000000.
Definition Minute : Z := 60 * Second.

(** [time.NewTicker(d)]: the period of the ticker; it panics with
    "non-positive interval for NewTicker" when [d <= 0]. *)
Definition NewTicker (d : Z) : option Z :=
  if (d <=? 0)%Z then None else Some d.
End Duration.

(** ** RiskManager *)

Module RiskConfig.
Record t := mk {
  MaxPositionSize : Q;
  StopLossPercent : Q;
  TakeProfitPercent : Q;
  MaxDailyLoss : Q;
  MaxLeverage : Z;
  RiskPerTrade : Q;
  MaxDrawdown : Q;
  MaxOpenPositions : Z;
  MinOrderValue : Q;
  MaxOrderValue : Q;
  VaRLimit : Q;
  CorrelationLimit : Q
}.
End RiskConfig.

Module OrderInfo.
(** Order information for risk validation. *)
Record t := mk {
  Symbol : string;
  Side : string;
  Quantity : Q;
  Price : Q
}.
End OrderInfo.

Module RiskMetrics.
Record t := mk {
  DailyLoss : Q;
  DailyTrades : Z;
  TotalExposure : Q;
  MaxExposure : Q;
  ExposureRatio : Q;
  RemainingRisk : Q;
  TradingAllowed : bool;
  LastResetDate : Time.t
}.
End RiskMetrics.

Module RiskManager.
Local Open Scope Q_scope.
Import RiskConfig.

Record t := mk {
  config : RiskConfig.t;
  (* Track daily metrics *)
  dailyLoss : Q;
  dailyTrades : Z;
  lastResetDate : Time.t;
  (* Position tracking *)
  totalExposure : Q;
  maxExposure : Q
}.

Definition NewRiskManager (now : Time.t) (config : RiskConfig.t) : t :=
  mk config 0 0 now 0 (MaxPositionSize config * 10).

Definition orderValue (order : OrderInfo.t) : Q :=
  OrderInfo.Quantity order * OrderInfo.Price order.

Definition validateOrderSize (rm : t) (order : OrderInfo.t) : bool :=
  if F64.ltb (orderValue order) (MinOrderValue (config rm)) then false
  else if F64.gtb (MaxOrderValue (config rm)) 0
          && F64.gtb (orderValue order) (MaxOrderValue (config rm)) then false
  else true.

Definition validatePositionSize (rm : t) (order : OrderInfo.t) : bool :=
  if F64.gtb (orderValue order) (MaxPositionSize (config rm)) then false else true.

Definition validateDailyLossLimit (rm : t) (order : OrderInfo.t) : bool :=
  if F64.geb (dailyLoss rm) (MaxDailyLoss (config rm)) then false else true.

Definition validateExposureLimit (rm : t) (order : OrderInfo.t) : bool :=
  let newExposure := totalExposure rm + orderValue order in
  if F64.gtb newExposure (maxExposure rm) then false else true.

Definition validateRiskPerTrade (rm : t) (order : OrderInfo.t) : bool :=
  let riskAmount := orderValue order * (RiskPerTrade (config rm) / 100) in
  let maxRiskPerTrade :=
    MaxPositionSize (config rm) * (RiskPerTrade (config rm) / 100) in
  if F64.gtb riskAmount maxRiskPerTrade then false else true.

Definition isTradingAllowed (rm : t) : bool :=
  if (MaxOpenPositions (config rm) >? 0)%Z
     && (dailyTrades rm >=? MaxOpenPositions (config rm))%Z then false
  else if F64.geb (dailyLoss rm) (MaxDailyLoss (config rm)) then false
  else true.

(** [a.Day() != b.Day() || a.Month() != b.Month() || a.Year() != b.Year()] *)
Definition dateDiffers (a b : Time.t) : bool :=
  negb (Time.Day a =? Time.Day b)%Z
  || negb (Time.Month a =? Time.Month b)%Z
  || negb (Time.Year a =? Time.Year b)%Z.

Definition resetDailyCountersIfNeeded (now : Time.t) (rm : t) : t :=
  if dateDiffers now (lastResetDate rm) then
    mk (config rm) 0 0 now (totalExposure rm) (maxExposure rm)
  else rm.

Definition ValidateOrder (now : Time.t) (order : OrderInfo.t) (rm : t) : t * bool :=
  let rm := resetDailyCountersIfNeeded now rm in
  if negb (isTradingAllowed rm) then (rm, false)
  else if negb (validateOrderSize rm order) then (rm, false)
  else if negb (validatePositionSize rm order) then (rm, false)
  else if negb (validateDailyLossLimit rm order) then (rm, false)
  else if negb (validateExposureLimit rm order) then (rm, false)
  else if negb (validateRiskPerTrade rm order) then (rm, false)
  else (rm, true).

Definition UpdateDailyLoss (now : Time.t) (loss : Q) (rm : t) : t :=
  let rm := resetDailyCountersIfNeeded now rm in
  mk (config rm) (dailyLoss rm + loss) (dailyTrades rm) (lastResetDate rm)
     (totalExposure rm) (maxExposure rm).

Definition UpdateDailyTrades (now : Time.t) (rm : t) : t :=
  let rm := resetDailyCountersIfNeeded now rm in
  mk (config rm) (dailyLoss rm) (dailyTrades rm + 1) (lastResetDate rm)
     (totalExposure rm) (maxExposure rm).

Definition UpdateExposure (exposure : Q) (rm : t) : t :=
  mk (config rm) (dailyLoss rm) (dailyTrades rm) (lastResetDate rm)
     exposure (maxExposure rm).

Definition GetRiskMetrics (now : Time.t) (rm : t) : t * RiskMetrics.t :=
  let rm := resetDailyCountersIfNeeded now rm in
  (rm, RiskMetrics.mk (dailyLoss rm) (dailyTrades rm) (totalExposure rm)
         (maxExposure rm) (totalExposure rm / maxExposure rm)
         (Qmax 0 (MaxDailyLoss (config rm) - dailyLoss rm))
         (isTradingAllowed rm) (lastResetDate rm)).

Definition EmergencyStop (reason : string) (rm : t) : t :=
  (* Set daily loss to maximum to prevent further trading *)
  mk (config rm) (MaxDailyLoss (config rm)) (dailyTrades rm) (lastResetDate rm)
     (totalExposure rm) (maxExposure rm).

(** The operations a caller can apply to a risk manager, each with the
    clock reading it observes. *)
Inductive Op :=
| OpValidateOrder (now : Time.t) (order : OrderInfo.t)
| OpUpdateDailyLoss (now : Time.t) (loss : Q)
| OpUpdateDailyTrades (now : Time.t)
| OpUpdateExposure (exposure : Q)
| OpGetRiskMetrics (now : Time.t)
| OpEmergencyStop (reason : string).

(** Applies one operation; the result of a [ValidateOrder] is returned. *)
Definition step (op : Op) (rm : t) : t * option bool :=
  match op with
  | OpValidateOrder now order =>
      let '(rm', ok) := ValidateOrder now order rm in (rm', Some ok)
  | OpUpdateDailyLoss now loss => (UpdateDailyLoss now loss rm, None)
  | OpUpdateDailyTrades now => (UpdateDailyTrades now rm, None)
  | OpUpdateExposure exposure => (UpdateExposure exposure rm, None)
  | OpGetRiskMetrics now => (fst (GetRiskMetrics now rm), None)
  | OpEmergencyStop reason => (EmergencyStop reason rm, None)
  end.

(** Applies a sequence of operations and collects the validation results. *)
Fixpoint run (ops : list Op) (rm : t) : t * list bool :=
  match ops with
  | [] => (rm, [])
  | op :: ops' =>
      let '(rm1, res) := step op rm in
      let '(rm2, results) := run ops' rm1 in
      (rm2, match res with Some ok => ok :: results | None => results end)
  end.
End RiskManager.

(** ** Collaborators of the engine

    The venue client and the database are external.  Their answers are
    oracles ([GetPosition], [PlaceOrder]); the calls the engine makes to
    them, and to [RiskManager.ValidateOrder], are recorded in a trace. *)

Module KlineData.
Record t := mk {
  Open : Q;
  High : Q;
  Low : Q;
  Close : Q;
  Volume : Q;
  CloseTime : Z
}.
End KlineData.

Module OrderRequest.
Record t := mk {
  Symbol : string;
  Side : string;
  OrderType : string;     (* Type *)
  Quantity : Q;
  PositionSide : string;
  ClosePosition : bool;
  (* fmt.Sprintf("buy_%s_%d", symbol, now.Unix()): prefix and Unix time *)
  NewClientOrderID : string * Z
}.
End OrderRequest.

Module OrderResponse.
Record t := mk {
  OrderID : Z;
  Symbol : string;
  Status : string;
  ClientOrderID : string;
  Price : Q;
  AvgPrice : Q;
  OrigQty : Q;
  ExecutedQty : Q;
  OrderType : string;     (* Type *)
  Side : string;
  PositionSide : string
}.
End OrderResponse.

Module Order.
(** [models.Order] as the engine fills it. *)
Record t := mk {
  ExchangeOrderID : Z;
  Symbol : string;
  Side : string;
  OrderType : string;     (* Type *)
  Status : string;
  Quantity : Q;
  Price : Q;
  ExecutedQty : Q;
  PositionSide : string;
  Strategy : string;
  Notes : Diagnostic
}.
End Order.

(** The answer of [repository.GetPosition]: the first OPEN position of the
    symbol and side, [gorm.ErrRecordNotFound], or another error. *)
Inductive PositionResult :=
| PositionFound (p : Position.t)
| RecordNotFound
| PositionError (msg : string).

Inductive Event :=
| EvValidateOrder (order : OrderInfo.t) (approved : bool)
| EvPlaceOrder (request : OrderRequest.t)
| EvCreateOrder (order : Order.t)
| EvCreatePosition (symbol : string) (size entryPrice : Q)
| EvClosePosition (id : N) (closePrice closedPnL : Q).

Module TradingConfig.
Record t := mk {
  Symbols : list string;
  MaxPositionSize : Q;
  StopLossPercent : Q;
  TakeProfitPercent : Q;
  MaxDailyLoss : Q;
  TradingInterval : Z;
  MinOrderValue : Q;
  MaxLeverage : Z;
  RiskPerTrade : Q;
  EnablePaperTrading : bool;
  StrategyType : string;                      (* Strategy.Type *)
  StrategyParameters : gmap string Value      (* Strategy.Parameters *)
}.
End TradingConfig.

(** ** Engine *)

Module Engine.
Local Open Scope Q_scope.

Record t := mk {
  config : TradingConfig.t;
  isRunning : bool;
  (* Strategy and risk management *)
  strategy : StrategyVariant;
  riskManager : RiskManager.t;
  (* Market data *)
  marketData : gmap string KlineData.t;
  (* Performance tracking *)
  dailyPnL : Q;
  totalTrades : Z;
  winningTrades : Z;
  losingTrades : Z
}.

(** The [switch cfg.Config.Strategy.Type] of [NewEngine]. *)
Definition selectStrategy (type : string) : StrategyVariant :=
  if String.eqb type "simple_moving_average" then SMA SMAStrategy.NewSMAStrategy
  else if String.eqb type "rsi" then RSI RSIStrategy.NewRSIStrategy
  else if String.eqb type "ai" then AI AIStrategy.NewAIStrategy
  else SMA SMAStrategy.NewSMAStrategy. (* Default strategy *)

(** [NewEngine]; a failure of [strategy.Initialize] is logged and the
    strategy is used as [Initialize] left it. *)
Definition NewEngine (now : Time.t) (cfg : TradingConfig.t) : t :=
  let strategy := selectStrategy (TradingConfig.StrategyType cfg) in
  let '(strategy, _) := Initialize (TradingConfig.StrategyParameters cfg) strategy in
  let riskManager :=
    RiskManager.NewRiskManager now
      (RiskConfig.mk (TradingConfig.MaxPositionSize cfg)
         (TradingConfig.StopLossPercent cfg) (TradingConfig.TakeProfitPercent cfg)
         (TradingConfig.MaxDailyLoss cfg) (TradingConfig.MaxLeverage cfg)
         (TradingConfig.RiskPerTrade cfg) 0 0 0 0 0 0) in
  mk cfg false strategy riskManager ∅ 0 0 0 0.

Definition setStrategy (e : t) (s : StrategyVariant) : t :=
  mk (config e) (isRunning e) s (riskManager e) (marketData e)
     (dailyPnL e) (totalTrades e) (winningTrades e) (losingTrades e).

Definition setRiskManager (e : t) (rm : RiskManager.t) : t :=
  mk (config e) (isRunning e) (strategy e) rm (marketData e)
     (dailyPnL e) (totalTrades e) (winningTrades e) (losingTrades e).

Definition getMarketData (e : t) (symbol : string) : option MarketData.t :=
  kline ← marketData e !! symbol;
  Some (MarketData.mk symbol (KlineData.Close kline) (KlineData.Volume kline) 0).

Section WithCollaborators.
Variable now : Time.t.
Variable GetPosition : string → string → PositionResult.
Variable PlaceOrder : OrderRequest.t → OrderResponse.t + string.

Definition orderOf (e : t) (response : OrderResponse.t) (signal : Signal.t)
  : Order.t :=
  Order.mk (OrderResponse.OrderID response) (OrderResponse.Symbol response)
    (OrderResponse.Side response) (OrderResponse.OrderType response)
    (OrderResponse.Status response) (OrderResponse.OrigQty response)
    (OrderResponse.Price response) (OrderResponse.ExecutedQty response)
    (OrderResponse.PositionSide response) (Name (strategy e))
    (Signal.Reason signal).

Definition executeBuyOrder (symbol : string) (signal : Signal.t) (e : t)
  : t * list Event * error :=
  let orderRequest :=
    OrderRequest.mk symbol "BUY" "MARKET" (Signal.Quantity signal) "BOTH" false
      ("buy_", Time.Unix now) in
  match PlaceOrder orderRequest with
  | inr _ => (e, [EvPlaceOrder orderRequest], Some "failed to place buy order")
  | inl response =>
      let created :=
        if String.eqb (OrderResponse.Status response) "FILLED"
        then [EvCreatePosition symbol (OrderResponse.ExecutedQty response)
                (OrderResponse.AvgPrice response)]
        else [] in
      (mk (config e) (isRunning e) (strategy e) (riskManager e) (marketData e)
          (dailyPnL e) (totalTrades e + 1) (winningTrades e) (losingTrades e),
       EvPlaceOrder orderRequest :: EvCreateOrder (orderOf e response signal) :: created,
       None)
  end.

Definition executeSellOrder (symbol : string) (signal : Signal.t)
    (position : Position.t) (e : t) : t * list Event * error :=
  let orderRequest :=
    OrderRequest.mk symbol "SELL" "MARKET" (Position.Size position) "BOTH" false
      ("sell_", Time.Unix now) in
  match PlaceOrder orderRequest with
  | inr _ => (e, [EvPlaceOrder orderRequest], Some "failed to place sell order")
  | inl response =>
      let placed := [EvPlaceOrder orderRequest;
                     EvCreateOrder (orderOf e response signal)] in
      if String.eqb (OrderResponse.Status response) "FILLED" then
        let pnl := (OrderResponse.AvgPrice response - Position.EntryPrice position)
                   * Position.Size position in
        (mk (config e) (isRunning e) (strategy e) (riskManager e) (marketData e)
            (dailyPnL e + pnl) (totalTrades e)
            (if F64.gtb pnl 0 then winningTrades e + 1 else winningTrades e)%Z
            (if F64.gtb pnl 0 then losingTrades e else losingTrades e + 1)%Z,
         placed ++ [EvClosePosition (Position.ID position)
                      (OrderResponse.AvgPrice response) pnl],
         None)
      else (e, placed, None)
  end.

(** [position != nil && position.Status == "OPEN"] *)
Definition isOpen (position : option Position.t) : bool :=
  match position with
  | Some p => String.eqb (Position.Status p) "OPEN"
  | None => false
  end.

(** [None] is a panic of the strategy; otherwise the engine, the calls
    made, and the error returned to [processTradingSignals]. *)
Definition processSymbolSignals (symbol : string) (e : t)
  : option (t * list Event * error) :=
  match getMarketData e symbol with
  | None => Some (e, [], Some "failed to get market data")
  | Some marketData =>
      match GetPosition symbol "LONG" with
      | PositionError _ => Some (e, [], Some "failed to get position")
      | result =>
          let position :=
            match result with PositionFound p => Some p | _ => None end in
          (* Check for sell signals if we have a position *)
          '(e1, sold) ←
            match position with
            | Some p =>
                if isOpen position then
                  '(strategy', sellSignal) ←
                    ShouldSell symbol marketData p (strategy e);
                  let e' := setStrategy e strategy' in
                  if String.eqb (Signal.Action sellSignal) "SELL" then
                    let '(e'', events, _) :=
                      executeSellOrder symbol sellSignal p e' in
                    Some (e'', events)
                  else Some (e', [])
                else Some (e, [])
            | None => Some (e, [])
            end;
          (* Check for buy signals if we don't have a position *)
          if negb (isOpen position) then
            '(strategy', buySignal) ← ShouldBuy symbol marketData (strategy e1);
            let e2 := setStrategy e1 strategy' in
            if String.eqb (Signal.Action buySignal) "BUY" then
              (* Validate with risk manager *)
              let order :=
                OrderInfo.mk symbol "BUY" (Signal.Quantity buySignal)
                  (Signal.Price buySignal) in
              let '(rm, approved) :=
                RiskManager.ValidateOrder now order (riskManager e2) in
              let e3 := setRiskManager e2 rm in
              if negb approved then
                Some (e3, sold ++ [EvValidateOrder order false], None)
              else
                let '(e4, events, _) := executeBuyOrder symbol buySignal e3 in
                Some (e4, sold ++ EvValidateOrder order true :: events, None)
            else Some (e2, sold, None)
          else Some (e1, sold, None)
      end
  end.

(** One iteration of the decision task over the configured symbols; an
    error of [processSymbolSignals] is logged and the loop continues. *)
Fixpoint processSymbols (symbols : list string) (e : t)
  : option (t * list Event) :=
  match symbols with
  | [] => Some (e, [])
  | symbol :: rest =>
      '(e1, events, _) ← processSymbolSignals symbol e;
      '(e2, events') ← processSymbols rest e1;
      Some (e2, events ++ events')
  end.

Definition processTradingSignals (e : t) : option (t * list Event) :=
  if TradingConfig.EnablePaperTrading (config e) then Some (e, [])
  else processSymbols (TradingConfig.Symbols (config e)) e.
End WithCollaborators.
End Engine.

(** ** RiskManager: sizing, exits and the portfolio check *)

Module PortfolioPosition.
(** A position in the portfolio. *)
Record t := mk {
  Symbol : string;
  Side : string;
  Size : Q;
  EntryPrice : Q;
  CurrentPrice : Q;
  Value : Q;
  UnrealizedPnL : Q;
  Leverage : Z
}.
End PortfolioPosition.

Module PortfolioRisk.
(** The portfolio risk assessment. *)
Record t := mk {
  TotalValue : Q;
  TotalPnL : Q;
  TotalExposure : Q;
  PortfolioReturn : Q;
  VaR95 : Q;
  CorrelationRisk : Q;
  IsValid : bool;
  Violations : list string
}.
End PortfolioRisk.

Module RiskTools.
(** The methods of [RiskManager] that size, close and assess positions. *)
Local Open Scope Q_scope.
Import RiskConfig.

(** [math.Abs]. *)
Definition Abs (a : Q) : Q := Qabs a.

(** [side == "BUY" || side == "LONG"] *)
Definition isLongSide (side : string) : bool :=
  String.eqb side "BUY" || String.eqb side "LONG".

Definition CalculatePositionSize (rm : RiskManager.t)
    (accountBalance entryPrice stopLoss : Q) : Q :=
  (* Calculate risk amount per trade *)
  let riskAmount := accountBalance * (RiskPerTrade (RiskManager.config rm) / 100) in
  (* Calculate stop loss distance as percentage *)
  let stopLossDistance := Abs (entryPrice - stopLoss) / entryPrice in
  (* Calculate position size *)
  let positionValue := riskAmount / stopLossDistance in
  let quantity := positionValue / entryPrice in
  (* Ensure position doesn't exceed maximum *)
  let maxQuantity := MaxPositionSize (RiskManager.config rm) / entryPrice in
  if F64.gtb quantity maxQuantity then maxQuantity else quantity.

Definition CalculateStopLoss (rm : RiskManager.t) (entryPrice : Q) (side : string) : Q :=
  let stopLossPercent := StopLossPercent (RiskManager.config rm) / 100 in
  if isLongSide side then entryPrice * (1 - stopLossPercent)
  else entryPrice * (1 + stopLossPercent).

Definition CalculateTakeProfit (rm : RiskManager.t) (entryPrice : Q) (side : string) : Q :=
  let takeProfitPercent := TakeProfitPercent (RiskManager.config rm) / 100 in
  if isLongSide side then entryPrice * (1 + takeProfitPercent)
  else entryPrice * (1 - takeProfitPercent).

(** [if returns[i] > returns[j] { returns[i], returns[j] = returns[j], returns[i] }] *)
Definition swapIfGreater (i j : nat) (returns : list Q) : list Q :=
  match returns !! i, returns !! j with
  | Some a, Some b => if F64.gtb a b then <[j := a]> (<[i := b]> returns) else returns
  | _, _ => returns
  end.

(** The inner loop [for j := ...; j < len(returns); j++], with [count]
    iterations left. *)
Fixpoint sortInner (i j count : nat) (returns : list Q) : list Q :=
  match count with
  | O => returns
  | S count' => sortInner i (S j) count' (swapIfGreater i j returns)
  end.

(** The outer loop [for i := ...; i < len(returns); i++], with [count]
    iterations left; the inner loop starts at [j = i + 1]. *)
Fixpoint sortOuter (i count : nat) (returns : list Q) : list Q :=
  match count with
  | O => returns
  | S count' =>
      sortOuter (S i) count' (sortInner i (S i) (length returns - S i) returns)
  end.

(** The in-place sort of [calculateVaR95]. *)
Definition sortReturns (returns : list Q) : list Q :=
  sortOuter 0 (length returns) returns.

(** [None] would be an index out of range. *)
Definition calculateVaR95 (returns : list Q) : option Q :=
  if (len returns =? 0)%Z then Some 0
  else
    let sorted := sortReturns returns in
    (* Get 5th percentile (95% VaR) *)
    let index := F64.to_int (F64.of_int (len sorted) * (5 # 100)) in
    let index := if (index >=? len sorted)%Z then (len sorted - 1)%Z else index in
    if (index <? 0)%Z then None
    else Abs <$> sorted !! Z.to_nat index.

(** The three accumulators of the first loop of [ValidatePortfolio]. *)
Definition totals (positions : list PortfolioPosition.t) : Q * Q * Q :=
  fold_left
    (λ '(totalValue, totalPnL, totalExposure) pos,
       (totalValue + PortfolioPosition.Value pos,
        totalPnL + PortfolioPosition.UnrealizedPnL pos,
        totalExposure + Abs (PortfolioPosition.Value pos)))
    positions (0, 0, 0).

(** The per-position returns collected by the second loop. *)
Definition positionReturns (positions : list PortfolioPosition.t) : list Q :=
  (λ pos, PortfolioPosition.UnrealizedPnL pos / PortfolioPosition.Value pos)
    <$> filter (λ pos, F64.gtb (PortfolioPosition.Value pos) 0 = true) positions.

Definition ValidatePortfolio (rm : RiskManager.t)
    (positions : list PortfolioPosition.t) : option PortfolioRisk.t :=
  let '(totalValue, totalPnL, totalExposure) := totals positions in
  (* Calculate portfolio metrics *)
  let portfolioReturn :=
    if F64.gtb totalValue 0 then totalPnL / totalValue * 100 else 0 in
  (* Simple VaR calculation (95% confidence) *)
  var95 ← calculateVaR95 (positionReturns positions);
  (* Check risk limits *)
  let '(isValid, violations) := (true, []) in
  let '(isValid, violations) :=
    if F64.gtb totalExposure (RiskManager.maxExposure rm)
    then (false, violations ++ ["Total exposure exceeds limit"])
    else (isValid, violations) in
  let '(isValid, violations) :=
    if F64.gtb var95 (VaRLimit (RiskManager.config rm))
    then (false, violations ++ ["VaR exceeds limit"])
    else (isValid, violations) in
  let '(isValid, violations) :=
    if F64.gtb (Abs portfolioReturn) (MaxDrawdown (RiskManager.config rm))
    then (false, violations ++ ["Drawdown exceeds limit"])
    else (isValid, violations) in
  Some (PortfolioRisk.mk totalValue totalPnL totalExposure portfolioReturn var95 0
          isValid violations).

Definition ShouldClosePosition (rm : RiskManager.t) (position : PortfolioPosition.t)
  : bool * string :=
  let side := PortfolioPosition.Side position in
  let current := PortfolioPosition.CurrentPrice position in
  let entry := PortfolioPosition.EntryPrice position in
  (* Check stop loss *)
  if String.eqb side "LONG" && F64.leb current (CalculateStopLoss rm entry "BUY") then
    (true, "Stop loss triggered")
  else if String.eqb side "SHORT" && F64.geb current (CalculateStopLoss rm entry "SELL") then
    (true, "Stop loss triggered")
  (* Check take profit *)
  else if String.eqb side "LONG" && F64.geb current (CalculateTakeProfit rm entry "BUY") then
    (true, "Take profit triggered")
  else if String.eqb side "SHORT" && F64.leb current (CalculateTakeProfit rm entry "SELL") then
    (true, "Take profit triggered")
  else
    (* Check maximum loss per position *)
    let maxLossPercent := StopLossPercent (RiskManager.config rm) * 2 in
    let currentLossPercent :=
      Abs (PortfolioPosition.UnrealizedPnL position / PortfolioPosition.Value position)
      * 100 in
    if F64.gtb currentLossPercent maxLossPercent then (true, "Maximum loss exceeded")
    else (false, "").
End RiskTools.

(** ** Engine: start, stop, market data and metrics *)

(** The set-up calls [initializeSymbols] makes on the venue. *)
Inductive VenueCall :=
| CallSetLeverage (symbol : string) (leverage : Z)
| CallChangeMarginType (symbol marginType : string).

Module MarketRecord.
(** [models.MarketData] as [updateMarketData] fills it. *)
Record t := mk {
  Symbol : string;
  Price : Q;
  Volume : Q;
  High : Q;
  Low : Q;
  Open : Q;
  Close : Q;
  Timestamp : Z
}.
End MarketRecord.

Module RiskMetric.
(** [models.RiskMetric] as [updateRiskMetrics] fills it. *)
Record t := mk {
  Date : Time.t;
  DailyPnL : Q;
  TotalTrades : Z;
  WinningTrades : Z;
  LosingTrades : Z;
  WinRate : Q
}.
End RiskMetric.

(** The four periodic tasks [Start] launches with a [go] statement:
    [collectMarketData], [tradingLoop], [monitorRisk] and [monitorAccount]. *)
Inductive Task :=
| TaskCollectMarketData
| TaskTradingLoop
| TaskMonitorRisk
| TaskMonitorAccount.

Module EngineOps.
(** The methods of [Engine] around the decision task.  Of the four periodic
    tasks [Start] launches, the model has the launch and the first
    statement, which creates the ticker; the loop that follows calls one of
    the methods below at every tick. *)
Local Open Scope Q_scope.
Import Engine.

Definition setIsRunning (e : t) (running : bool) : t :=
  mk (config e) running (strategy e) (riskManager e) (marketData e)
     (dailyPnL e) (totalTrades e) (winningTrades e) (losingTrades e).

Definition setMarketData (e : t) (data : gmap string KlineData.t) : t :=
  mk (config e) (isRunning e) (strategy e) (riskManager e) data
     (dailyPnL e) (totalTrades e) (winningTrades e) (losingTrades e).

(** [time.Duration(e.config.TradingInterval) * time.Second]: a product of
    int64 values, which wraps around. *)
Definition tickerPeriod (e : t) : Z :=
  Duration.wrap (TradingConfig.TradingInterval (config e) * Duration.Second).

(** The first statement of a periodic task, [ticker := time.NewTicker(...)]:
    the period of its ticker.  [None] is the panic of [time.NewTicker]; a
    panic in a task ends the process. *)
Definition taskTicker (task : Task) (e : t) : option Z :=
  match task with
  | TaskCollectMarketData => Duration.NewTicker (tickerPeriod e)
  | TaskTradingLoop => Duration.NewTicker (tickerPeriod e)
  | TaskMonitorRisk => Duration.NewTicker (5 * Duration.Minute)
  | TaskMonitorAccount => Duration.NewTicker (1 * Duration.Minute)
  end.

Section WithVenue.
Variable now : Time.t.
Variable SetLeverage : string → Z → error.
Variable ChangeMarginType : string → string → error.
Variable GetAllPositions : list Position.t + string.
Variable PlaceOrder : OrderRequest.t → OrderResponse.t + string.
Variable GetSymbolPrice : string → Q + string.
Variable GetKlines : string → string → Z → list KlineData.t + string.

(** The loop of [initializeSymbols]: a failed call is logged only. *)
Fixpoint initializeSymbolsLoop (symbols : list string) (leverage : Z)
  : list VenueCall :=
  match symbols with
  | [] => []
  | symbol :: rest =>
      let setLeverage :=
        match SetLeverage symbol leverage with
        | Some _ => [CallSetLeverage symbol leverage]
        | None => [CallSetLeverage symbol leverage]
        end in
      let setMargin :=
        match ChangeMarginType symbol "CROSSED" with
        | Some _ => [CallChangeMarginType symbol "CROSSED"]
        | None => [CallChangeMarginType symbol "CROSSED"]
        end in
      setLeverage ++ setMargin ++ initializeSymbolsLoop rest leverage
  end.

Definition initializeSymbols (e : t) : list VenueCall * error :=
  (initializeSymbolsLoop (TradingConfig.Symbols (config e))
     (TradingConfig.MaxLeverage (config e)), None).

(** [Start]: the engine, the calls on the venue, the tasks launched, in
    order, and the error. *)
Definition Start (e : t) : t * list VenueCall * list Task * error :=
  if isRunning e then (e, [], [], Some "trading engine is already running")
  else
    let e := setIsRunning e true in
    (* Initialize symbols and leverage *)
    match initializeSymbols e with
    | (calls, Some _) => (e, calls, [], Some "failed to initialize symbols")
    | (calls, None) =>
        (e, calls,
         [ (* Start market data collection *) TaskCollectMarketData;
           (* Start trading loop *) TaskTradingLoop;
           (* Start risk monitoring *) TaskMonitorRisk;
           (* Start account monitoring *) TaskMonitorAccount ],
         None)
    end.

Definition closeRequest (position : Position.t) : OrderRequest.t :=
  OrderRequest.mk (Position.Symbol position) "SELL" "MARKET" (Position.Size position)
    "BOTH" true ("", 0%Z).

(** The loop of [closeAllPositions]: after a failed order it continues
    with the next position. *)
Fixpoint closeLoop (positions : list Position.t) : list Event :=
  match positions with
  | [] => []
  | position :: rest =>
      let orderRequest := closeRequest position in
      match PlaceOrder orderRequest with
      | inr _ => EvPlaceOrder orderRequest :: closeLoop rest
      | inl _ => EvPlaceOrder orderRequest :: closeLoop rest
      end
  end.

Definition closeAllPositions (e : t) : list Event * error :=
  match GetAllPositions with
  | inr _ => ([], Some "failed to get positions")
  | inl positions => (closeLoop positions, None)
  end.

(** [Stop]; cancelling the engine's context, which ends the periodic
    tasks, is outside the model. *)
Definition Stop (e : t) : t * list Event * error :=
  if negb (isRunning e) then (e, [], None)
  else
    (* Close all positions if needed (optional) *)
    let '(events, _) := closeAllPositions e in
    (setIsRunning e false, events, None).

(** [updateMarketData]: the engine, the record handed to
    [repository.SaveMarketData] if any, and the error.  [last klines] is
    [klines[len(klines)-1]], read when [len(klines) > 0]; a failure to save
    is logged only. *)
Definition updateMarketData (symbol : string) (e : t)
  : t * option MarketRecord.t * error :=
  (* Get current price *)
  match GetSymbolPrice symbol with
  | inr _ => (e, None, Some "failed to get price")
  | inl price =>
      (* Get kline data for strategy analysis *)
      match GetKlines symbol "1m" 100 with
      | inr _ => (e, None, Some "failed to get klines")
      | inl klines =>
          match last klines with
          | Some latest =>
              (setMarketData e (<[symbol := latest]> (marketData e)),
               Some (MarketRecord.mk symbol price (KlineData.Volume latest)
                       (KlineData.High latest) (KlineData.Low latest)
                       (KlineData.Open latest) (KlineData.Close latest)
                       (Time.Unix now)),
               None)
          | None => (e, None, None)
          end
      end
  end.

(** One tick of [collectMarketData]: every configured symbol is updated,
    a failure is logged only. *)
Fixpoint collectSymbols (symbols : list string) (e : t)
  : t * list MarketRecord.t :=
  match symbols with
  | [] => (e, [])
  | symbol :: rest =>
      let '(e1, saved, _) := updateMarketData symbol e in
      let '(e2, saved') := collectSymbols rest e1 in
      (e2, match saved with Some r => r :: saved' | None => saved' end)
  end.

Definition collectMarketDataTick (e : t) : t * list MarketRecord.t :=
  collectSymbols (TradingConfig.Symbols (config e)) e.

(** [updateRiskMetrics]: the record handed to [repository.SaveRiskMetric]. *)
Definition updateRiskMetrics (e : t) : RiskMetric.t :=
  (* Calculate win rate *)
  let winRate :=
    if (totalTrades e >? 0)%Z
    then F64.of_int (winningTrades e) / F64.of_int (totalTrades e) * 100
    else 0 in
  RiskMetric.mk now (dailyPnL e) (totalTrades e) (winningTrades e)
    (losingTrades e) winRate.
End WithVenue.
End EngineOps.

(** ** Package config *)

Module Config.
Local Open Scope Q_scope.

Record ExchangeConfig := mkExchange {
  Name : string;
  APIKey : string;
  SecretKey : string;
  Testnet : bool;
  BaseURL : string
}.

Record MySQLConfig := mkMySQL {
  DSN : string;
  MaxOpenConns : Z;
  MaxIdleConns : Z;
  ConnMaxLifetime : Z
}.

Record RedisConfig := mkRedis {
  Addr : string;
  Password : string;
  DB : Z;
  PoolSize : Z
}.

Record DatabaseConfig := mkDatabase {
  MySQL : MySQLConfig;
  Redis : RedisConfig
}.

Record LoggerConfig := mkLogger {
  Level : string;
  Format : string;
  Output : string
}.

Record t := mk {
  Exchange : ExchangeConfig;
  Trading : TradingConfig.t;
  Database : DatabaseConfig;
  Logger : LoggerConfig
}.

Definition validateConfig (config : t) : error :=
  (* Validate exchange configuration *)
  if String.eqb (APIKey (Exchange config)) "" then
    Some "exchange API key is required"
  else if String.eqb (SecretKey (Exchange config)) "" then
    Some "exchange secret key is required"
  (* Validate trading configuration *)
  else if (len (TradingConfig.Symbols (Trading config)) =? 0)%Z then
    Some "at least one trading symbol is required"
  else if F64.leb (TradingConfig.MaxPositionSize (Trading config)) 0 then
    Some "max position size must be positive"
  else if F64.leb (TradingConfig.StopLossPercent (Trading config)) 0
          || F64.gtb (TradingConfig.StopLossPercent (Trading config)) 50 then
    Some "stop loss percent must be between 0 and 50"
  else if F64.leb (TradingConfig.TakeProfitPercent (Trading config)) 0
          || F64.gtb (TradingConfig.TakeProfitPercent (Trading config)) 100 then
    Some "take profit percent must be between 0 and 100"
  else if (TradingConfig.MaxLeverage (Trading config) <? 1)%Z
          || (TradingConfig.MaxLeverage (Trading config) >? 125)%Z then
    Some "max leverage must be between 1 and 125"
  else if F64.ltb (TradingConfig.RiskPerTrade (Trading config)) (1 # 10)
          || F64.gtb (TradingConfig.RiskPerTrade (Trading config)) 10 then
    Some "risk per trade percent must be between 0.1 and 10"
  (* Validate database configuration *)
  else if String.eqb (DSN (MySQL (Database config))) "" then
    Some "MySQL DSN is required"
  else if String.eqb (Addr (Redis (Database config))) "" then
    Some "Redis address is required"
  else None.
End Config.

(** * Notions used by the statements *)

(** ** float64 values *)


(** A positive value far from the ends of the range of float64: sums,
    products and quotients of a few such values neither overflow nor
    underflow. *)
Definition ordinary (x : Q) : Prop :=
  (/ inject_Z (2 ^ 200) <= x ∧ x <= inject_Z (2 ^ 200))%Q.

(** The distance kept from a threshold, absolute for a confidence and
    relative to the threshold elsewhere: 10^-9, many orders of magnitude
    above the rounding error of the operations that compute the value
    compared with the threshold, which stays below 10^-12 for a few dozen
    operations and below 2 x 10^-10 for a sum of a million terms. *)
Definition decisionMargin : Q := 1 # 1000000000.



(** ** Histories and series *)

(** [kept] consists of the newest entries of [all]: what was removed is a
    prefix, the oldest entries. *)
Definition newest_of {A} (kept all : list A) : Prop :=
  ∃ evicted, all = evicted ++ kept.

(** The most recent [period] price changes of a series, the window averaged
    by [calculateRSI]. *)
Definition recentChanges (r : RSIStrategy.t) (prices : list Q) : list Q :=
  drop (Z.to_nat (len (RSIStrategy.changes prices) - RSIStrategy.period r))
       (RSIStrategy.changes prices).

(** The decision [SMAStrategy.ShouldBuy] takes on the [prices] retained for
    the symbol once the new price is recorded (see [SMA_ShouldBuy_decision]). *)
Definition buySignal (s : SMAStrategy.t) (prices : list Q) (data : MarketData.t)
  : Signal.t :=
  if (len prices <? SMAStrategy.longPeriod s)%Z then
    Signal.hold (Text "Insufficient data")
  else
    let shortSMA := SMAStrategy.calculateSMA prices (SMAStrategy.shortPeriod s) in
    let longSMA := SMAStrategy.calculateSMA prices (SMAStrategy.longPeriod s) in
    if F64.gtb shortSMA longSMA then
      let confidence := F64.Min ((shortSMA - longSMA) / longSMA * 10) 1 in
      if F64.geb confidence (SMAStrategy.minConfidence s) then
        Signal.mk "BUY" (SMAStrategy.calculateQuantity (MarketData.Price data) 1000)
          (MarketData.Price data) 0 0 confidence
          (Sprintf "SMA crossover: short=%.2f, long=%.2f"
                   [ArgFloat shortSMA; ArgFloat longSMA])
          "LONG"
      else Signal.hold (Text "No buy signal")
    else Signal.hold (Text "No buy signal").

(** Feeds a price series to the SMA strategy, one sample per evaluation, and
    collects the signals. *)
Fixpoint feed (symbol : string) (prices : list Q) (s : SMAStrategy.t)
  : option (SMAStrategy.t * list Signal.t) :=
  match prices with
  | [] => Some (s, [])
  | p :: rest =>
      '(s1, sig) ← SMAStrategy.ShouldBuy symbol (MarketData.mk symbol p 0 0) s;
      '(s2, sigs) ← feed symbol rest s1;
      Some (s2, sig :: sigs)
  end.

(** A strictly ascending series. *)
Fixpoint ascending (prices : list Q) : Prop :=
  match prices with
  | a :: (b :: _) as rest => (a < b)%Q ∧ ascending rest
  | _ => True
  end.

(** The two means and the confidence of SMA(10, 20) at sample [k] of a
    series, as [ShouldBuy] computes them from the first [k] samples. *)
Definition shortMean (prices : list Q) (k : nat) : Q :=
  SMAStrategy.calculateSMA (take k prices) 10.

Definition longMean (prices : list Q) (k : nat) : Q :=
  SMAStrategy.calculateSMA (take k prices) 20.

Definition crossoverConfidence (prices : list Q) (k : nat) : Q :=
  F64.Min ((shortMean prices k - longMean prices k) / longMean prices k * 10) 1.

(** The claim of C5 for one series: at sample 20 the short mean exceeds the
    long mean, the confidence is at least 0.7, and the run emits a BUY. *)
Definition buys_by_sample_20 (symbol : string) (prices : list Q) : Prop :=
  (longMean prices 20 < shortMean prices 20)%Q
  ∧ (7 # 10 <= crossoverConfidence prices 20)%Q
  ∧ ∃ s' sigs sig,
      feed symbol prices SMAStrategy.NewSMAStrategy = Some (s', sigs)
      ∧ sig ∈ sigs ∧ Signal.Action sig = "BUY".

(** The series 100, 101, ..., 124 and the series 1, 2, 4, ..., 2^24. *)
Definition unitSteps : list Q := inject_Z <$> seqZ 100 25.
Definition doubling : list Q := (λ n : Z, inject_Z (2 ^ n)) <$> seqZ 0 25.

(** ** Evaluations of the Grid variant *)

(** One evaluation: a call of [ShouldBuy] or of [ShouldSell]. *)
Inductive GridCall :=
| GridBuy (symbol : string) (data : MarketData.t)
| GridSell (symbol : string) (data : MarketData.t) (position : Position.t).

Definition gridCall (c : GridCall) (g : GridStrategy.t)
  : option (GridStrategy.t * Signal.t) :=
  match c with
  | GridBuy symbol data => GridStrategy.ShouldBuy symbol data g
  | GridSell symbol data position => GridStrategy.ShouldSell symbol data position g
  end.

Fixpoint gridCalls (cs : list GridCall) (g : GridStrategy.t)
  : option (GridStrategy.t * list Signal.t) :=
  match cs with
  | [] => Some (g, [])
  | c :: cs' =>
      '(g1, sig) ← gridCall c g;
      '(g2, sigs) ← gridCalls cs' g1;
      Some (g2, sig :: sigs)
  end.

(** The answer to a buy evaluation for a symbol other than [first]. *)
Definition holds_other_symbols (first : string) (c : GridCall) (sig : Signal.t)
  : Prop :=
  match c with
  | GridBuy symbol _ =>
      symbol ≠ first → sig = Signal.hold (Text "Price outside grid range")
  | GridSell _ _ _ => True
  end.

(** A buy evaluation for a symbol other than [first] answers HOLD, for
    whatever reason. *)
Definition answers_hold (first : string) (c : GridCall) (sig : Signal.t) : Prop :=
  match c with
  | GridBuy symbol _ => symbol ≠ first → Signal.Action sig = "HOLD"
  | GridSell _ _ _ => True
  end.

(** C10 as claimed, for a new strategy that first sees [first] with [data]
    and then goes through [calls]: no other symbol ever gets levels, and
    every buy evaluation for another symbol answers HOLD. *)
Definition one_grid_for_first (first : string) (data : MarketData.t)
    (calls : list GridCall) : Prop :=
  ∀ g1 sig g' sigs,
    GridStrategy.ShouldBuy first data GridStrategy.NewGridStrategy = Some (g1, sig) →
    gridCalls calls g1 = Some (g', sigs) →
    (∀ other, other ≠ first → GridStrategy.levels g' other = [])
    ∧ Forall2 (answers_hold first) calls sigs.

(** ** The confidence gate *)

(** The minimum confidence a variant is configured with; the AI variant has
    no such setting. *)
Definition configuredMinConfidence (v : StrategyVariant) : option Q :=
  match v with
  | SMA s => Some (SMAStrategy.minConfidence s)
  | RSI r => Some (RSIStrategy.minConfidence r)
  | Grid g => Some (GridStrategy.minConfidence g)
  | AI _ => None
  end.

(** A signal that respects the minimum confidence [m]. *)
Definition gated_by (m : Q) (sig : Signal.t) : Prop :=
  (0 <= Signal.Confidence sig ∧ Signal.Confidence sig <= 1)%Q
  ∧ (Signal.Action sig ≠ "HOLD" → (m <= Signal.Confidence sig)%Q).

(** The claim of C4 for one signal returned by variant [v]: the confidence
    is in [0,1], and an action other than HOLD comes with a confidence of at
    least the variant's configured minimum. *)
Definition gated (v : StrategyVariant) (sig : Signal.t) : Prop :=
  (0 <= Signal.Confidence sig ∧ Signal.Confidence sig <= 1)%Q
  ∧ (Signal.Action sig ≠ "HOLD" →
     ∃ m, configuredMinConfidence v = Some m ∧ (m <= Signal.Confidence sig)%Q).

(** The price history a variant keeps for a symbol. *)
Definition historyOf (v : StrategyVariant) (symbol : string) : list Q :=
  match v with
  | SMA s => SMAStrategy.history s symbol
  | RSI r => RSIStrategy.history r symbol
  | Grid _ | AI _ => []
  end.

(** A variant with a minimum confidence, configured in range: positive
    periods, a usable grid, and a minimum confidence in [0,1]. *)
Definition well_configured (v : StrategyVariant) : Prop :=
  match v with
  | SMA s =>
      (0 < SMAStrategy.shortPeriod s)%Z ∧ (0 < SMAStrategy.longPeriod s)%Z
      ∧ (0 <= SMAStrategy.minConfidence s ∧ SMAStrategy.minConfidence s <= 1)%Q
  | RSI r =>
      (0 < RSIStrategy.period r)%Z
      ∧ (0 <= RSIStrategy.minConfidence r ∧ RSIStrategy.minConfidence r <= 1)%Q
  | Grid g =>
      (0 ≤ GridStrategy.numGrids g)%Z ∧ ¬ (GridStrategy.gridSize g == 0)%Q
      ∧ (0 <= GridStrategy.minConfidence g ∧ GridStrategy.minConfidence g <= 1)%Q
  | AI _ => False
  end.

(** ** The risk manager over a day *)

(** Two clock readings on the same calendar date. *)
Definition same_date (a b : Time.t) : Prop :=
  Time.Year a = Time.Year b ∧ Time.Month a = Time.Month b ∧ Time.Day a = Time.Day b.


(** An operation observed on the calendar date of the last reset. *)
Definition on_reset_date (last : Time.t) (op : RiskManager.Op) : Prop :=
  match op with
  | RiskManager.OpValidateOrder now _
  | RiskManager.OpUpdateDailyLoss now _
  | RiskManager.OpUpdateDailyTrades now
  | RiskManager.OpGetRiskMetrics now => same_date now last
  | RiskManager.OpUpdateExposure _
  | RiskManager.OpEmergencyStop _ => True
  end.

(** An operation that does not lower [dailyLoss]:
    [UpdateDailyLoss] with a loss that is not negative, or any other one. *)
Definition adds_no_profit (op : RiskManager.Op) : Prop :=
  match op with
  | RiskManager.OpUpdateDailyLoss _ loss => (0 <= loss)%Q
  | _ => True
  end.

(** The claim of C9 for one manager and one sequence of later operations:
    as long as every operation is observed on the date of the last reset (no
    day transition), every [ValidateOrder] among them is rejected. *)
Definition latched_until_reset (reason : string) (rm : RiskManager.t)
    (ops : list RiskManager.Op) : Prop :=
  RiskManager.dailyLoss (RiskManager.EmergencyStop reason rm)
  = RiskConfig.MaxDailyLoss (RiskManager.config rm)
  ∧ (Forall (on_reset_date (RiskManager.lastResetDate rm)) ops →
     Forall (eq false) (snd (RiskManager.run ops (RiskManager.EmergencyStop reason rm)))).

(** The state of a stopped manager: the configuration and the date of the
    last reset are fixed and dailyLoss has reached the maximum. *)
Definition stopped (last : Time.t) (cfg : RiskConfig.t) (rm : RiskManager.t)
  : Prop :=
  RiskManager.config rm = cfg ∧ RiskManager.lastResetDate rm = last
  ∧ (RiskConfig.MaxDailyLoss cfg <= RiskManager.dailyLoss rm)%Q.

(** ** Traces of the engine *)

(** An approval of [order] covers the submitted [request]. *)
Definition approves (order : OrderInfo.t) (request : OrderRequest.t) : Prop :=
  OrderInfo.Symbol order = OrderRequest.Symbol request
  ∧ OrderInfo.Side order = OrderRequest.Side request
  ∧ OrderInfo.Quantity order = OrderRequest.Quantity request.

(** In a trace, every order submitted to the venue that satisfies [needs]
    comes after an approval by [ValidateOrder] that covers it. *)
Definition orders_approved (needs : OrderRequest.t → Prop) (events : list Event)
  : Prop :=
  ∀ i request,
    events !! i = Some (EvPlaceOrder request) → needs request →
    ∃ j order,
      (j < i)%nat ∧ events !! j = Some (EvValidateOrder order true)
      ∧ approves order request.

Definition any_order (request : OrderRequest.t) : Prop := True.
Definition buy_order (request : OrderRequest.t) : Prop :=
  OrderRequest.Side request = "BUY".

Definition is_validation (ev : Event) : Prop :=
  match ev with EvValidateOrder _ _ => True | _ => False end.

(** The claim of C1 for one symbol: every order the engine submits, buy or
    sell, comes after an approval by [ValidateOrder]. *)
Definition every_order_approved (now : Time.t)
    (GetPosition : string → string → PositionResult)
    (PlaceOrder : OrderRequest.t → OrderResponse.t + string)
    (symbol : string) (e : Engine.t) : Prop :=
  ∀ e' events err,
    Engine.processSymbolSignals now GetPosition PlaceOrder symbol e
    = Some (e', events, err) →
    orders_approved any_order events.

(** A scenario: an SMA engine that has seen 19 prices of 100 for BTCUSDT,
    holds an OPEN long position of 1/2 entered at 100, and whose risk manager
    has reached the maximum daily loss; the last close is 97 (3% below the
    entry, the fixed stop loss); the venue fills every order at 97. *)
Module Scenario.
Definition today : Time.t := Time.mk 2026 3 3 61200 1772557200.

Definition position : Position.t :=
  Position.mk 7 "BTCUSDT" "LONG" (1 # 2) 100 "OPEN".

Definition GetPosition (symbol side : string) : PositionResult :=
  if String.eqb symbol "BTCUSDT" then PositionFound position else RecordNotFound.

Definition PlaceOrder (request : OrderRequest.t) : OrderResponse.t + string :=
  inl (OrderResponse.mk 1 (OrderRequest.Symbol request) "FILLED" "" 0 97
         (OrderRequest.Quantity request) (OrderRequest.Quantity request)
         (OrderRequest.OrderType request) (OrderRequest.Side request)
         (OrderRequest.PositionSide request)).

Definition config : TradingConfig.t :=
  TradingConfig.mk ["BTCUSDT"] 1000 2 5 500 60 10 5 1 false
    "simple_moving_average" ∅.

Definition riskManager : RiskManager.t :=
  RiskManager.mk (RiskConfig.mk 1000 2 5 500 5 1 0 0 0 0 0 0)
    500 3 today 0 10000.

Definition strategy : StrategyVariant :=
  SMA (SMAStrategy.mk "Simple Moving Average" 10 20 (7 # 10)
         {[ "BTCUSDT" := replicate 19 100%Q ]}).

Definition engine : Engine.t :=
  Engine.mk config true strategy riskManager
    {[ "BTCUSDT" := KlineData.mk 100 100 97 97 12 1772557199000 ]} 0 0 0 0.

Definition sellRequest : OrderRequest.t :=
  OrderRequest.mk "BTCUSDT" "SELL" "MARKET" (1 # 2) "BOTH" false
    ("sell_", 1772557200%Z).
End Scenario.

(** ** Further notions on the risk manager *)

(** The daily loss has reached a limit that is not positive. *)
Definition exhausted (cfg : RiskConfig.t) (rm : RiskManager.t) : Prop :=
  RiskManager.config rm = cfg
  ∧ (RiskConfig.MaxDailyLoss cfg <= RiskManager.dailyLoss rm)%Q.

(** [n] trades recorded one after the other at the clock reading [now]. *)
Definition recordTrades (n : nat) (now : Time.t) (rm : RiskManager.t)
  : RiskManager.t :=
  Nat.iter n (RiskManager.UpdateDailyTrades now) rm.

(** ** Further notions on the portfolio check *)

(** One pass of the inner loop of the sort, seen on the values: the
    smallest value met so far is carried along and the others are left in
    its place. *)
Fixpoint carryMin (x : Q) (todo : list Q) : Q * list Q :=
  match todo with
  | [] => (x, [])
  | y :: rest =>
      if F64.gtb x y
      then let '(m, rest') := carryMin y rest in (m, x :: rest')
      else let '(m, rest') := carryMin x rest in (m, y :: rest')
  end.

(** ** Further notions on the traces of the engine *)

(** The orders submitted to the venue, in order. *)
Definition placedOrders (events : list Event) : list OrderRequest.t :=
  omap (λ ev, match ev with EvPlaceOrder request => Some request | _ => None end)
    events.

(** The realised profit of each position closed in the repository. *)
Definition closedPnLs (events : list Event) : list Q :=
  omap (λ ev, match ev with EvClosePosition _ _ pnl => Some pnl | _ => None end)
    events.

(** The orders approved by [ValidateOrder]. *)
Definition approvals (events : list Event) : list OrderInfo.t :=
  omap (λ ev, match ev with EvValidateOrder order true => Some order | _ => None end)
    events.

(** The counters of the risk manager that only its update methods move. *)
Definition untouched (rm : RiskManager.t) : Prop :=
  RiskManager.dailyLoss rm = 0%Q ∧ RiskManager.dailyTrades rm = 0%Z
  ∧ RiskManager.totalExposure rm = 0%Q.

(** What one pass of the decision task over [symbols] may change, from the
    engine [e] to [e'] with the calls [events]. *)
Definition tick_effect (now : Time.t) (symbols : list string)
    (e e' : Engine.t) (events : list Event) : Prop :=
  Engine.config e' = Engine.config e
  ∧ Engine.isRunning e' = Engine.isRunning e
  ∧ Engine.marketData e' = Engine.marketData e
  ∧ (Engine.riskManager e' = Engine.riskManager e
     ∨ Engine.riskManager e'
       = RiskManager.resetDailyCountersIfNeeded now (Engine.riskManager e))
  ∧ (length (placedOrders events) ≤ length symbols)%nat
  ∧ Forall (λ request,
              OrderRequest.Symbol request ∈ symbols
              ∧ OrderRequest.OrderType request = "MARKET"
              ∧ OrderRequest.ClosePosition request = false
              ∧ (OrderRequest.Side request = "BUY"
                 ∨ OrderRequest.Side request = "SELL"))
      (placedOrders events)
  ∧ (Engine.winningTrades e' + Engine.losingTrades e'
     = Engine.winningTrades e + Engine.losingTrades e + len (closedPnLs events))%Z
  ∧ (Engine.winningTrades e ≤ Engine.winningTrades e')%Z
  ∧ (Engine.losingTrades e ≤ Engine.losingTrades e')%Z
  ∧ (Engine.dailyPnL e' == Engine.dailyPnL e + F64.sum (closedPnLs events))%Q
  ∧ (Engine.totalTrades e ≤ Engine.totalTrades e'
     ≤ Engine.totalTrades e + len (approvals events))%Z.

(** The position the decision task works with: the one
    [repository.GetPosition] found, if any. *)
Definition foundPosition (GetPosition : string → string → PositionResult)
    (symbol : string) : option Position.t :=
  match GetPosition symbol "LONG" with PositionFound p => Some p | _ => None end.

(** ** Further notions on the cache of market data *)

(** The kline an update of [symbol] stores: the last one returned by the
    venue, when both the price and the klines could be fetched and there is
    one. *)
Definition fetched (GetSymbolPrice : string → Q + string)
    (GetKlines : string → string → Z → list KlineData.t + string)
    (symbol : string) : option KlineData.t :=
  match GetSymbolPrice symbol, GetKlines symbol "1m" 100%Z with
  | inl _, inl klines => last klines
  | _, _ => None
  end.

(** ** Further notions on the strategies *)

(** The most recent [period] prices, the window [calculateSMA] averages. *)
Definition recentPrices (prices : list Q) (period : Z) : list Q :=
  drop (Z.to_nat (len prices - period)) prices.

(** No level of any symbol is marked active or carries a quantity. *)
Definition all_inactive (g : GridStrategy.t) : Prop :=
  ∀ symbol,
    Forall (λ level, GridPosition.Active level = false
                     ∧ GridPosition.Quantity level = 0%Q)
      (GridStrategy.levels g symbol).

(** A parameter map without any float64 value. *)
Definition no_float (config : gmap string Value) : Prop :=
  ∀ key f, config !! key ≠ Some (VFloat f).

(** ** Exits of a position *)

(** The last test of [ShouldClosePosition], away from its threshold: the
    position is closed for "Maximum loss exceeded" when |UnrealizedPnL/Value|
    x 100 is at least twice the stop-loss percentage, increased by the
    margin, and left open when it is at most that limit, decreased by the
    margin. *)
Definition decidedByLossTest (rm : RiskManager.t) (position : PortfolioPosition.t)
    (result : bool * string) : Prop :=
  let limit := (RiskConfig.StopLossPercent (RiskManager.config rm) * 2)%Q in
  let loss :=
    (RiskTools.Abs (PortfolioPosition.UnrealizedPnL position
                    / PortfolioPosition.Value position) * 100)%Q in
  ((limit * (1 + decisionMargin) <= loss)%Q →
   result = (true, "Maximum loss exceeded"))
  ∧ ((loss <= limit * (1 - decisionMargin))%Q → result = (false, "")).

(** ** Sell evaluations of the Grid variant *)

(** The signal sells the whole position at the observed price, with the
    given confidence and a reason of the given format. *)
Definition sellsPosition (format : string) (confidence : Q) (data : MarketData.t)
    (position : Position.t) (sig : Signal.t) : Prop :=
  Signal.Action sig = "SELL"
  ∧ Signal.Quantity sig = Position.Size position
  ∧ Signal.Price sig = MarketData.Price data
  ∧ Signal.Confidence sig = confidence
  ∧ ∃ args, Signal.Reason sig = Sprintf format args.

(** * Properties *)

(** ** Comparisons of the numeric model *)

Section Comparisons.
Local Open Scope Q_scope.

Lemma ltb_lt a b : F64.ltb a b = true ↔ a < b.
Proof.
  unfold F64.ltb. rewrite negb_true_iff, <- not_true_iff_false, Qle_bool_iff.
  split; [apply Qnot_le_lt | apply Qlt_not_le].
Qed.

Lemma ltb_ge a b : F64.ltb a b = false ↔ b <= a.
Proof. unfold F64.ltb. rewrite negb_false_iff. apply Qle_bool_iff. Qed.

Lemma leb_le a b : F64.leb a b = true ↔ a <= b.
Proof. apply Qle_bool_iff. Qed.

Lemma leb_gt a b : F64.leb a b = false ↔ b < a.
Proof.
  unfold F64.leb. rewrite <- not_true_iff_false, Qle_bool_iff.
  split; [apply Qnot_le_lt | apply Qlt_not_le].
Qed.

Lemma gtb_gt a b : F64.gtb a b = true ↔ b < a.
Proof. apply ltb_lt. Qed.

Lemma gtb_le a b : F64.gtb a b = false ↔ a <= b.
Proof. apply ltb_ge. Qed.

Lemma geb_ge a b : F64.geb a b = true ↔ b <= a.
Proof. apply leb_le. Qed.

Lemma geb_lt a b : F64.geb a b = false ↔ a < b.
Proof. apply leb_gt. Qed.

Lemma eqb_eq a b : F64.eqb a b = true ↔ a == b.
Proof. apply Qeq_bool_iff. Qed.

Lemma eqb_neq a b : F64.eqb a b = false ↔ ¬ a == b.
Proof.
  unfold F64.eqb. rewrite <- not_true_iff_false. by rewrite Qeq_bool_iff.
Qed.
End Comparisons.

(** Case analysis on the comparisons of the code, naming the fact. *)
Ltac case_cmp H :=
  match goal with
  | |- context [F64.ltb ?a ?b] =>
      destruct (F64.ltb a b) eqn:H; [apply ltb_lt in H | apply ltb_ge in H]
  | |- context [F64.gtb ?a ?b] =>
      destruct (F64.gtb a b) eqn:H; [apply gtb_gt in H | apply gtb_le in H]
  | |- context [F64.leb ?a ?b] =>
      destruct (F64.leb a b) eqn:H; [apply leb_le in H | apply leb_gt in H]
  | |- context [F64.geb ?a ?b] =>
      destruct (F64.geb a b) eqn:H; [apply geb_ge in H | apply geb_lt in H]
  | |- context [F64.eqb ?a ?b] =>
      destruct (F64.eqb a b) eqn:H; [apply eqb_eq in H | apply eqb_neq in H]
  end.

(** Case analysis on every conditional of the goal, and the facts the
    comparisons stand for. *)
Ltac split_ifs :=
  repeat match goal with
         | |- context [if ?b then _ else _] => destruct b eqn:?; simpl
         end.

Ltac cmp_facts :=
  repeat match goal with
         | H : F64.ltb _ _ = true |- _ => apply ltb_lt in H
         | H : F64.ltb _ _ = false |- _ => apply ltb_ge in H
         | H : F64.gtb _ _ = true |- _ => apply gtb_gt in H
         | H : F64.gtb _ _ = false |- _ => apply gtb_le in H
         | H : F64.leb _ _ = true |- _ => apply leb_le in H
         | H : F64.leb _ _ = false |- _ => apply leb_gt in H
         | H : F64.geb _ _ = true |- _ => apply geb_ge in H
         | H : F64.geb _ _ = false |- _ => apply geb_lt in H
         | H : F64.eqb _ _ = true |- _ => apply eqb_eq in H
         | H : F64.eqb _ _ = false |- _ => apply eqb_neq in H
         end.

(** ** Sums and averages *)

Section Sums.
Local Open Scope Q_scope.

Lemma sum_from (xs : list Q) (a : Q) : fold_left Qplus xs a == a + F64.sum xs.
Proof.
  unfold F64.sum. revert a. induction xs as [|x xs IH]; intros a; simpl.
  - lra.
  - rewrite (IH (a + x)), (IH (0 + x)). lra.
Qed.

Lemma sum_nil : F64.sum [] == 0.
Proof. reflexivity. Qed.

Lemma sum_cons (x : Q) (xs : list Q) : F64.sum (x :: xs) == x + F64.sum xs.
Proof. unfold F64.sum at 1. simpl. rewrite sum_from. lra. Qed.

Lemma sum_nonneg (xs : list Q) : Forall (λ x, 0 <= x) xs → 0 <= F64.sum xs.
Proof.
  induction 1 as [|x xs Hx _ IH]; [by rewrite sum_nil|].
  rewrite sum_cons. lra.
Qed.

Lemma sum_zero (xs : list Q) : Forall (λ x, x == 0) xs → F64.sum xs == 0.
Proof.
  induction 1 as [|x xs Hx _ IH]; [by rewrite sum_nil|].
  rewrite sum_cons. lra.
Qed.

Lemma of_int_pos (n : Z) : (0 < n)%Z → 0 < F64.of_int n.
Proof. intros H. unfold F64.of_int, Qlt. simpl. lia. Qed.

Lemma div_nonneg (a b : Q) : 0 <= a → 0 < b → 0 <= a / b.
Proof. intros Ha Hb. apply Qle_shift_div_l; [done|]. lra. Qed.

Lemma gain_nonneg (c : Q) : 0 <= RSIStrategy.gain c.
Proof. unfold RSIStrategy.gain. case_cmp H; lra. Qed.

Lemma loss_nonneg (c : Q) : 0 <= RSIStrategy.loss c.
Proof. unfold RSIStrategy.loss. case_cmp H; lra. Qed.

Lemma loss_zero (change : Q) : 0 <= change → RSIStrategy.loss change == 0.
Proof. intros H. unfold RSIStrategy.loss. case_cmp Hc; lra. Qed.

Lemma average_nonneg (f : Q → Q) (cs : list Q) (period : Z) :
  (∀ c, 0 <= f c) → (0 < period)%Z → 0 <= RSIStrategy.average (f <$> cs) period.
Proof.
  intros Hf Hp. unfold RSIStrategy.average.
  apply div_nonneg; [|by apply of_int_pos].
  apply sum_nonneg, Forall_drop, Forall_fmap, Forall_forall. intros; apply Hf.
Qed.

(** The RSI stays between 0 and 100. *)
Lemma calculateRSI_range r prices :
  (0 < RSIStrategy.period r)%Z →
  0 <= RSIStrategy.calculateRSI r prices ∧ RSIStrategy.calculateRSI r prices <= 100.
Proof.
  intros Hp. unfold RSIStrategy.calculateRSI.
  destruct (_ <? _)%Z; [lra|]. destruct (_ <? _)%Z; [lra|].
  case_cmp Hloss; [lra|].
  pose proof (average_nonneg _ (RSIStrategy.changes prices) _ gain_nonneg Hp) as Hg.
  pose proof (average_nonneg _ (RSIStrategy.changes prices) _ loss_nonneg Hp) as Hl.
  fold (RSIStrategy.avgGain r prices) in Hg.
  fold (RSIStrategy.avgLoss r prices) in Hl.
  set (g := RSIStrategy.avgGain r prices) in *.
  set (l := RSIStrategy.avgLoss r prices) in *.
  assert (Hlpos : 0 < l) by (destruct (Qlt_le_dec 0 l); [done|]; exfalso; apply Hloss; lra).
  assert (Hrs : 0 <= g / l) by (by apply div_nonneg).
  assert (Hq : 0 <= 100 / (1 + g / l) ∧ 100 / (1 + g / l) <= 100).
  { split; [apply div_nonneg; lra|]. apply Qle_shift_div_r; lra. }
  lra.
Qed.
End Sums.

(** ** Rolling price history *)

Lemma len_app {A} (xs ys : list A) : len (xs ++ ys) = (len xs + len ys)%Z.
Proof. unfold len. rewrite length_app. lia. Qed.

Lemma len_nonneg {A} (xs : list A) : (0 ≤ len xs)%Z.
Proof. unfold len. lia. Qed.

Lemma drop_newest {A} (n : nat) (h : list A) : newest_of (drop n h) h.
Proof. exists (take n h). by rewrite take_drop. Qed.

Lemma SMA_history_set s symbol h :
  SMAStrategy.history (SMAStrategy.setHistory s symbol h) symbol = h.
Proof. unfold SMAStrategy.history. simpl. by rewrite lookup_insert_eq. Qed.

Lemma SMA_history_set_other s symbol other h :
  other ≠ symbol →
  SMAStrategy.history (SMAStrategy.setHistory s symbol h) other
  = SMAStrategy.history s other.
Proof. intros ?. unfold SMAStrategy.history. simpl. by rewrite lookup_insert_ne. Qed.

Lemma RSI_history_set r symbol h :
  RSIStrategy.history (RSIStrategy.setHistory r symbol h) symbol = h.
Proof. unfold RSIStrategy.history. simpl. by rewrite lookup_insert_eq. Qed.

Lemma RSI_history_set_other r symbol other h :
  other ≠ symbol →
  RSIStrategy.history (RSIStrategy.setHistory r symbol h) other
  = RSIStrategy.history r other.
Proof. intros ?. unfold RSIStrategy.history. simpl. by rewrite lookup_insert_ne. Qed.

(** What [SMAStrategy.updatePriceHistory] returns when its cap is not
    negative. *)
Lemma SMA_update_spec symbol price s :
  (0 ≤ SMAStrategy.maxLength s)%Z →
  let h := SMAStrategy.history s symbol ++ [price] in
  SMAStrategy.updatePriceHistory symbol price s
  = Some (SMAStrategy.setHistory s symbol
            (drop (length h - Z.to_nat (SMAStrategy.maxLength s)) h)).
Proof.
  intros Hcap h. unfold SMAStrategy.updatePriceHistory. fold h.
  destruct (Z.gtb_spec (len h) (SMAStrategy.maxLength s)) as [Hgt|Hle].
  - destruct (Z.ltb_spec (SMAStrategy.maxLength s) 0); [lia|].
    do 3 f_equal. unfold len. lia.
  - replace (length h - Z.to_nat (SMAStrategy.maxLength s))%nat with 0%nat
      by (unfold len in Hle; lia).
    done.
Qed.

Lemma RSI_update_spec symbol price r :
  (0 ≤ RSIStrategy.maxLength r)%Z →
  let h := RSIStrategy.history r symbol ++ [price] in
  RSIStrategy.updatePriceHistory symbol price r
  = Some (RSIStrategy.setHistory r symbol
            (drop (length h - Z.to_nat (RSIStrategy.maxLength r)) h)).
Proof.
  intros Hcap h. unfold RSIStrategy.updatePriceHistory. fold h.
  destruct (Z.gtb_spec (len h) (RSIStrategy.maxLength r)) as [Hgt|Hle].
  - destruct (Z.ltb_spec (RSIStrategy.maxLength r) 0); [lia|].
    do 3 f_equal. unfold len. lia.
  - replace (length h - Z.to_nat (RSIStrategy.maxLength r))%nat with 0%nat
      by (unfold len in Hle; lia).
    done.
Qed.

Lemma drop_cap_len {A} (h : list A) (cap : Z) :
  (0 ≤ cap)%Z → (len (drop (length h - Z.to_nat cap) h) ≤ cap)%Z.
Proof. intros ?. unfold len. rewrite length_drop. lia. Qed.

(** Every evaluation records the new price by exactly one update. *)
Lemma SMA_evaluation_updates symbol data position s :
  fst <$> SMAStrategy.ShouldBuy symbol data s
  = SMAStrategy.updatePriceHistory symbol (MarketData.Price data) s
  ∧ fst <$> SMAStrategy.ShouldSell symbol data position s
    = SMAStrategy.updatePriceHistory symbol (MarketData.Price data) s.
Proof.
  unfold SMAStrategy.ShouldBuy, SMAStrategy.ShouldSell.
  destruct (SMAStrategy.updatePriceHistory symbol (MarketData.Price data) s);
    simpl; [|done].
  split; by split_ifs.
Qed.

Lemma RSI_evaluation_updates symbol data position r :
  fst <$> RSIStrategy.ShouldBuy symbol data r
  = RSIStrategy.updatePriceHistory symbol (MarketData.Price data) r
  ∧ fst <$> RSIStrategy.ShouldSell symbol data position r
    = RSIStrategy.updatePriceHistory symbol (MarketData.Price data) r.
Proof.
  unfold RSIStrategy.ShouldBuy, RSIStrategy.ShouldSell.
  destruct (RSIStrategy.updatePriceHistory symbol (MarketData.Price data) r);
    simpl; [|done].
  split; by split_ifs.
Qed.

(** C7. After every update of a symbol's history by the SMA or the RSI
    variant (cap: long period + 10, respectively period + 20, not negative),
    the update returns, the retained history is no longer than the cap, it
    consists of the newest entries of the old history followed by the new
    price (the oldest entries are the ones removed), nothing is removed
    unless the cap is exceeded, and the other symbols and the cap are
    untouched.  Every evaluation, ShouldBuy or ShouldSell, changes the
    strategy by exactly this update. *)
Theorem C7_history_bounded (symbol : string) (price : Q)
    (s : SMAStrategy.t) (r : RSIStrategy.t) :
  (0 ≤ SMAStrategy.maxLength s)%Z →
  (0 ≤ RSIStrategy.maxLength r)%Z →
  (∃ s', SMAStrategy.updatePriceHistory symbol price s = Some s'
     ∧ (len (SMAStrategy.history s' symbol) ≤ SMAStrategy.maxLength s)%Z
     ∧ newest_of (SMAStrategy.history s' symbol) (SMAStrategy.history s symbol ++ [price])
     ∧ len (SMAStrategy.history s' symbol)
       = Z.min (len (SMAStrategy.history s symbol) + 1) (SMAStrategy.maxLength s)
     ∧ SMAStrategy.maxLength s' = SMAStrategy.maxLength s
     ∧ ∀ other, other ≠ symbol →
         SMAStrategy.history s' other = SMAStrategy.history s other)
  ∧ (∃ r', RSIStrategy.updatePriceHistory symbol price r = Some r'
     ∧ (len (RSIStrategy.history r' symbol) ≤ RSIStrategy.maxLength r)%Z
     ∧ newest_of (RSIStrategy.history r' symbol) (RSIStrategy.history r symbol ++ [price])
     ∧ len (RSIStrategy.history r' symbol)
       = Z.min (len (RSIStrategy.history r symbol) + 1) (RSIStrategy.maxLength r)
     ∧ RSIStrategy.maxLength r' = RSIStrategy.maxLength r
     ∧ ∀ other, other ≠ symbol →
         RSIStrategy.history r' other = RSIStrategy.history r other)
  ∧ (∀ data position,
       MarketData.Price data = price →
       fst <$> SMAStrategy.ShouldBuy symbol data s
       = SMAStrategy.updatePriceHistory symbol price s
       ∧ fst <$> SMAStrategy.ShouldSell symbol data position s
         = SMAStrategy.updatePriceHistory symbol price s
       ∧ fst <$> RSIStrategy.ShouldBuy symbol data r
         = RSIStrategy.updatePriceHistory symbol price r
       ∧ fst <$> RSIStrategy.ShouldSell symbol data position r
         = RSIStrategy.updatePriceHistory symbol price r).
Proof.
  intros Hs Hr. split; [|split].
  - eexists. split; [by apply SMA_update_spec|].
    rewrite SMA_history_set. repeat split.
    + by apply drop_cap_len.
    + apply drop_newest.
    + unfold len. rewrite length_drop, length_app. simpl. lia.
    + intros other ?. by apply SMA_history_set_other.
  - eexists. split; [by apply RSI_update_spec|].
    rewrite RSI_history_set. repeat split.
    + by apply drop_cap_len.
    + apply drop_newest.
    + unfold len. rewrite length_drop, length_app. simpl. lia.
    + intros other ?. by apply RSI_history_set_other.
  - intros data position <-.
    destruct (SMA_evaluation_updates symbol data position s) as [? ?].
    destruct (RSI_evaluation_updates symbol data position r) as [? ?].
    done.
Qed.

Lemma C7_history_bounded_witness :
  (0 ≤ SMAStrategy.maxLength SMAStrategy.NewSMAStrategy)%Z
  ∧ (0 ≤ RSIStrategy.maxLength RSIStrategy.NewRSIStrategy)%Z
  ∧ ∃ s' r',
      SMAStrategy.updatePriceHistory "BTCUSDT" 100 SMAStrategy.NewSMAStrategy = Some s'
      ∧ (len (SMAStrategy.history s' "BTCUSDT") ≤ 30)%Z
      ∧ RSIStrategy.updatePriceHistory "BTCUSDT" 100 RSIStrategy.NewRSIStrategy = Some r'
      ∧ (len (RSIStrategy.history r' "BTCUSDT") ≤ 34)%Z.
Proof.
  assert (Hs : (0 ≤ SMAStrategy.maxLength SMAStrategy.NewSMAStrategy)%Z)
    by (vm_compute; discriminate).
  assert (Hr : (0 ≤ RSIStrategy.maxLength RSIStrategy.NewRSIStrategy)%Z)
    by (vm_compute; discriminate).
  split; [exact Hs|]. split; [exact Hr|].
  destruct (C7_history_bounded "BTCUSDT" 100 _ _ Hs Hr)
    as ((s' & Hus & Hls & _) & (r' & Hur & Hlr & _) & _).
  exists s', r'. repeat split; assumption.
Defined.

(** ** RSI *)

Lemma changes_length (prices : list Q) :
  length (RSIStrategy.changes prices) = (length prices - 1)%nat.
Proof.
  induction prices as [|a [|b rest] IH]; [done..|].
  change (RSIStrategy.changes (a :: b :: rest))
    with ((b - a)%Q :: RSIStrategy.changes (b :: rest)).
  simpl in *. lia.
Qed.

(** With [period + 1] samples there are at least [period] changes, so the
    second guard of [calculateRSI] never fires. *)
Lemma calculateRSI_enough r prices :
  (RSIStrategy.period r + 1 ≤ len prices)%Z →
  RSIStrategy.calculateRSI r prices
  = if F64.eqb (RSIStrategy.avgLoss r prices) 0 then 100%Q
    else (100 - 100 / (1 + RSIStrategy.avgGain r prices / RSIStrategy.avgLoss r prices))%Q.
Proof.
  intros H. unfold RSIStrategy.calculateRSI.
  destruct (Z.ltb_spec (len prices) (RSIStrategy.period r + 1)); [lia|].
  destruct (Z.ltb_spec (len (RSIStrategy.gain <$> RSIStrategy.changes prices))
              (RSIStrategy.period r)) as [Hlt|]; [|done].
  unfold len in *. rewrite length_fmap, changes_length in Hlt. lia.
Qed.

(** No drop among the most recent [period] changes: the average loss is
    zero. *)
Lemma avgLoss_no_drop r prices :
  Forall (λ change, 0 <= change)%Q (recentChanges r prices) →
  (RSIStrategy.avgLoss r prices == 0)%Q.
Proof.
  intros Hup. unfold RSIStrategy.avgLoss, RSIStrategy.average.
  assert (Hsum : (F64.sum (drop (Z.to_nat (len (RSIStrategy.loss <$> RSIStrategy.changes prices)
                                          - RSIStrategy.period r))
                             (RSIStrategy.loss <$> RSIStrategy.changes prices)) == 0)%Q).
  { apply sum_zero. unfold len. rewrite length_fmap, <- fmap_drop.
    apply Forall_fmap. eapply Forall_impl; [exact Hup|]. intros c Hc. by apply loss_zero. }
  rewrite Hsum. unfold Qdiv. lra.
Qed.

(** C6. For the RSI variant with a positive period: when enough samples
    exist and the average loss over the most recent [period] changes is
    zero, the computed RSI is 100 (this is the case whenever none of these
    changes is a drop); with fewer than [period + 1] samples the
    computed RSI is 50; and an evaluation (buy or sell) that retains fewer
    than [period + 1] samples of the symbol after recording the new price
    returns HOLD. *)
Theorem C6_rsi_boundaries (r : RSIStrategy.t) (prices : list Q)
    (symbol : string) (data : MarketData.t) (position : Position.t) :
  (0 < RSIStrategy.period r)%Z →
  ((RSIStrategy.period r + 1 ≤ len prices)%Z →
   (RSIStrategy.avgLoss r prices == 0)%Q →
   RSIStrategy.calculateRSI r prices = 100%Q)
  ∧ ((RSIStrategy.period r + 1 ≤ len prices)%Z →
     Forall (λ change, 0 <= change)%Q (recentChanges r prices) →
     (RSIStrategy.avgLoss r prices == 0)%Q
     ∧ RSIStrategy.calculateRSI r prices = 100%Q)
  ∧ ((len prices < RSIStrategy.period r + 1)%Z →
     RSIStrategy.calculateRSI r prices = 50%Q)
  ∧ ∃ r', RSIStrategy.updatePriceHistory symbol (MarketData.Price data) r = Some r'
      ∧ ((len (RSIStrategy.history r' symbol) < RSIStrategy.period r + 1)%Z →
         RSIStrategy.calculateRSI r' (RSIStrategy.history r' symbol) = 50%Q
         ∧ RSIStrategy.ShouldBuy symbol data r
           = Some (r', Signal.hold (Text "Insufficient data for RSI"))
         ∧ RSIStrategy.ShouldSell symbol data position r
           = Some (r', Signal.hold (Text "Insufficient data for RSI"))).
Proof.
  intros Hperiod.
  assert (H100 : (RSIStrategy.period r + 1 ≤ len prices)%Z →
                 (RSIStrategy.avgLoss r prices == 0)%Q →
                 RSIStrategy.calculateRSI r prices = 100%Q).
  { intros Hlen Hloss. rewrite calculateRSI_enough by done.
    apply eqb_eq in Hloss. by rewrite Hloss. }
  split; [exact H100|]. split; [|split].
  - intros Hlen Hup. pose proof (avgLoss_no_drop r prices Hup) as Hloss. auto.
  - intros Hlen. unfold RSIStrategy.calculateRSI.
    by destruct (Z.ltb_spec (len prices) (RSIStrategy.period r + 1)); [|lia].
  - assert (Hcap : (0 ≤ RSIStrategy.maxLength r)%Z)
      by (unfold RSIStrategy.maxLength; lia).
    eexists. split; [by apply RSI_update_spec|].
    remember (RSIStrategy.setHistory r symbol _) as r' eqn:Er'.
    intros Hfew.
    assert (Hperiod' : RSIStrategy.period r' = RSIStrategy.period r) by by subst r'.
    assert (Hguard : (len (RSIStrategy.history r' symbol)
                      <? RSIStrategy.period r' + 1)%Z = true)
      by (rewrite Hperiod'; by apply Z.ltb_lt).
    split; [|split].
    + unfold RSIStrategy.calculateRSI. by rewrite Hguard.
    + unfold RSIStrategy.ShouldBuy. rewrite RSI_update_spec, <- Er' by done.
      simpl. by rewrite Hguard.
    + unfold RSIStrategy.ShouldSell. rewrite RSI_update_spec, <- Er' by done.
      simpl. by rewrite Hguard.
Qed.

Lemma C6_rsi_boundaries_witness :
  let rising := [100; 101; 102; 103; 104; 105; 106; 107; 108; 109; 110; 111;
                 112; 113; 114]%Q in
  let data := MarketData.mk "BTCUSDT" 100 0 0 in
  let position := Position.mk 1 "BTCUSDT" "LONG" 1 100 "OPEN" in
  (0 < RSIStrategy.period RSIStrategy.NewRSIStrategy)%Z
  ∧ (RSIStrategy.avgLoss RSIStrategy.NewRSIStrategy rising == 0)%Q
  ∧ RSIStrategy.calculateRSI RSIStrategy.NewRSIStrategy rising = 100%Q
  ∧ RSIStrategy.calculateRSI RSIStrategy.NewRSIStrategy [100; 101]%Q = 50%Q
  ∧ ∃ r', RSIStrategy.ShouldBuy "BTCUSDT" data RSIStrategy.NewRSIStrategy
          = Some (r', Signal.hold (Text "Insufficient data for RSI")).
Proof.
  intros rising data position.
  assert (Hp : (0 < RSIStrategy.period RSIStrategy.NewRSIStrategy)%Z)
    by (vm_compute; reflexivity).
  assert (Hloss : (RSIStrategy.avgLoss RSIStrategy.NewRSIStrategy rising == 0)%Q)
    by (vm_compute; reflexivity).
  destruct (C6_rsi_boundaries RSIStrategy.NewRSIStrategy rising "BTCUSDT" data
              position Hp) as (H100 & _ & _ & _).
  destruct (C6_rsi_boundaries RSIStrategy.NewRSIStrategy [100; 101]%Q "BTCUSDT" data
              position Hp) as (_ & _ & H50 & r' & Hupd & Hhold).
  split; [exact Hp|]. split; [exact Hloss|].
  split; [apply H100; [vm_compute; discriminate | exact Hloss]|].
  split; [apply H50; vm_compute; reflexivity|].
  exists r'. apply Hhold.
  injection Hupd as <-. vm_compute. reflexivity.
Defined.

(** ** SMA on an ascending series *)

Section AscendingSeries.
Local Open Scope Q_scope.

(** [ShouldBuy] is the history update followed by the decision. *)
Lemma SMA_ShouldBuy_decision symbol data s :
  SMAStrategy.ShouldBuy symbol data s
  = s' ← SMAStrategy.updatePriceHistory symbol (MarketData.Price data) s;
    Some (s', buySignal s' (SMAStrategy.history s' symbol) data).
Proof.
  unfold SMAStrategy.ShouldBuy, buySignal.
  destruct (SMAStrategy.updatePriceHistory symbol (MarketData.Price data) s);
    simpl; [|done].
  by split_ifs.
Qed.

(** While the cap is not reached nothing is evicted: the signal of sample
    [i] is the decision on the samples seen so far. *)
Lemma feed_lookup symbol prices : ∀ s,
  (len (SMAStrategy.history s symbol) + len prices ≤ SMAStrategy.maxLength s)%Z →
  ∃ s' sigs,
    feed symbol prices s = Some (s', sigs)
    ∧ length sigs = length prices
    ∧ ∀ i p, prices !! i = Some p →
        sigs !! i
        = Some (buySignal s
                  (SMAStrategy.history s symbol ++ take (S i) prices)
                  (MarketData.mk symbol p 0 0)).
Proof.
  induction prices as [|p rest IH]; intros s Hcap.
  - exists s, []. by repeat split.
  - simpl. rewrite SMA_ShouldBuy_decision.
    assert (Hlen : len (p :: rest) = (1 + len rest)%Z) by (unfold len; simpl; lia).
    pose proof (len_nonneg rest) as Hrest.
    pose proof (len_nonneg (SMAStrategy.history s symbol)) as Hseen.
    assert (Hcap0 : (0 ≤ SMAStrategy.maxLength s)%Z) by (clear IH; lia).
    assert (Hroom : (length (SMAStrategy.history s symbol ++ [p])
                     - Z.to_nat (SMAStrategy.maxLength s))%nat = 0%nat)
      by (clear IH; rewrite length_app; unfold len in *; simpl; lia).
    assert (Hnext : (len (SMAStrategy.history s symbol ++ [p]) + len rest
                     ≤ SMAStrategy.maxLength s)%Z)
      by (clear IH; rewrite len_app; unfold len in *; simpl in *; lia).
    rewrite SMA_update_spec by done. simpl. rewrite Hroom, drop_0.
    set (s1 := SMAStrategy.setHistory s symbol (SMAStrategy.history s symbol ++ [p])).
    destruct (IH s1) as (s' & sigs & Hfeed & Hsigs & Hat).
    { unfold s1. by rewrite SMA_history_set. }
    rewrite Hfeed. simpl. exists s', (buySignal s1
      (SMAStrategy.history s1 symbol) (MarketData.mk symbol p 0 0) :: sigs).
    split; [done|]. split; [simpl; by rewrite Hsigs|].
    intros [|i] q Hq; simpl in Hq.
    + injection Hq as <-. simpl. unfold s1. by rewrite SMA_history_set.
    + simpl. rewrite (Hat i q Hq). unfold s1. rewrite SMA_history_set.
      by rewrite <- app_assoc.
Qed.

(** The decision once the long window is filled and the short mean is above
    the long mean. *)
Lemma buySignal_crossover s prices data :
  (SMAStrategy.longPeriod s ≤ len prices)%Z →
  SMAStrategy.calculateSMA prices (SMAStrategy.longPeriod s)
  < SMAStrategy.calculateSMA prices (SMAStrategy.shortPeriod s) →
  let shortSMA := SMAStrategy.calculateSMA prices (SMAStrategy.shortPeriod s) in
  let longSMA := SMAStrategy.calculateSMA prices (SMAStrategy.longPeriod s) in
  let confidence := F64.Min ((shortSMA - longSMA) / longSMA * 10) 1 in
  buySignal s prices data
  = if F64.geb confidence (SMAStrategy.minConfidence s)
    then Signal.mk "BUY" (SMAStrategy.calculateQuantity (MarketData.Price data) 1000)
           (MarketData.Price data) 0 0 confidence
           (Sprintf "SMA crossover: short=%.2f, long=%.2f"
                    [ArgFloat shortSMA; ArgFloat longSMA]) "LONG"
    else Signal.hold (Text "No buy signal").
Proof.
  intros Hlen Hcross. simpl. unfold buySignal.
  destruct (Z.ltb_spec (len prices) (SMAStrategy.longPeriod s)); [lia|].
  apply gtb_gt in Hcross. by rewrite Hcross.
Qed.

(** On a strictly ascending series of 25 positive prices, from sample 20 on
    the long mean is positive and the short mean exceeds it: the ten newest
    samples are each above the sample ten places before. *)
Lemma ascending_means prices k :
  length prices = 25%nat → ascending prices → Forall (λ p, 0 < p) prices →
  (20 ≤ k ≤ 25)%nat →
  0 < longMean prices k ∧ longMean prices k < shortMean prices k.
Proof.
  intros Hlen Hasc Hpos Hk.
  do 25 (destruct prices as [|? prices]; [simpl in Hlen; lia|]).
  destruct prices; [|simpl in Hlen; lia].
  simpl in Hasc.
  repeat match goal with
         | H : Forall _ (_ :: _) |- _ => apply Forall_cons in H as [? H]
         end.
  unfold longMean, shortMean, SMAStrategy.calculateSMA, F64.sum, F64.of_int, len.
  assert (Hcases : k = 20%nat ∨ k = 21%nat ∨ k = 22%nat ∨ k = 23%nat
                   ∨ k = 24%nat ∨ k = 25%nat) by lia.
  unfold Qdiv. change (/ inject_Z 20) with (1 # 20). change (/ inject_Z 10) with (1 # 10).
  destruct Hcases as [->|[->|[->|[->|[->| ->]]]]]; simpl; lra.
Qed.
End AscendingSeries.

(** A price in the ordinary range is positive. *)
Lemma ordinary_pos (p : Q) : ordinary p → (0 < p)%Q.
Proof.
  intros [Hlo _].
  assert (H : (0 < / inject_Z (2 ^ 200))%Q) by (apply Qinv_lt_0_compat; reflexivity).
  lra.
Qed.

(** C5, as the code has it.  SMA(short 10, long 20, minimum confidence 0.7)
    fed a strictly ascending series of 25 prices, one per evaluation, each
    between 2^-200 and 2^200, returns 25 signals.  The first 19 are HOLD for
    insufficient data.  At every sample from 20 to 25, with confidence =
    min((shortMean − longMean)/longMean × 10, 1) on the exact means: when
    the confidence is at least 0.7 + 10^-9 the signal is BUY and carries that
    confidence to within 10^-9; when it is at most 0.7 − 10^-9 the signal is
    HOLD.  Rising prices alone do not decide which of the two it is. *)
Theorem C5_sma_ascending_series (symbol : string) (prices : list Q) (k : nat) :
  length prices = 25%nat →
  ascending prices →
  Forall ordinary prices →
  (1 ≤ k ≤ 25)%nat →
  ∃ s' sigs sig,
    feed symbol prices SMAStrategy.NewSMAStrategy = Some (s', sigs)
    ∧ length sigs = 25%nat
    ∧ sigs !! (k - 1)%nat = Some sig
    ∧ ((k < 20)%nat → sig = Signal.hold (Text "Insufficient data"))
    ∧ ((20 ≤ k)%nat →
       ((7 # 10) + decisionMargin <= crossoverConfidence prices k →
        Signal.Action sig = "BUY"
        ∧ Qabs (Signal.Confidence sig - crossoverConfidence prices k)
          <= decisionMargin)%Q
       ∧ ((crossoverConfidence prices k <= (7 # 10) - decisionMargin)%Q →
          sig = Signal.hold (Text "No buy signal"))).
Proof.
  intros Hlen Hasc Hord Hk.
  assert (Hpos : Forall (λ p, 0 < p)%Q prices).
  { eapply Forall_impl; [exact Hord|]. apply ordinary_pos. }
  destruct (feed_lookup symbol prices SMAStrategy.NewSMAStrategy)
    as (s' & sigs & Hfeed & Hsigs & Hat).
  { unfold len. rewrite Hlen. vm_compute. discriminate. }
  destruct (lookup_lt_is_Some_2 prices (k - 1)) as [p Hp]; [lia|].
  eexists s', sigs, _. split; [done|]. split; [lia|].
  split; [by apply Hat|].
  replace (S (k - 1)) with k by lia.
  change (SMAStrategy.history SMAStrategy.NewSMAStrategy symbol) with (@nil Q).
  rewrite app_nil_l.
  assert (Hseen : len (take k prices) = Z.of_nat k)
    by (unfold len; rewrite length_take; lia).
  split.
  - intros Hfew. unfold buySignal. rewrite Hseen.
    change (SMAStrategy.longPeriod SMAStrategy.NewSMAStrategy) with 20%Z.
    by destruct (Z.ltb_spec (Z.of_nat k) 20); [|lia].
  - intros Hfull.
    destruct (ascending_means prices k Hlen Hasc Hpos) as [Hlong Hcross]; [lia|].
    rewrite buySignal_crossover; [| |exact Hcross].
    2:{ rewrite Hseen. simpl. lia. }
    cbv zeta. change (F64.Min _ 1) with (crossoverConfidence prices k).
    change (SMAStrategy.minConfidence SMAStrategy.NewSMAStrategy) with (7 # 10)%Q.
    unfold decisionMargin.
    case_cmp Hconf; split; intros H; try done; try (exfalso; lra).
    split; [done|]. cbn [Signal.Confidence].
    apply Qabs_Qle_condition. split; lra.
Qed.

Lemma C5_sma_ascending_series_witness :
  length doubling = 25%nat
  ∧ ascending doubling
  ∧ Forall ordinary doubling
  ∧ ((7 # 10) + decisionMargin <= crossoverConfidence doubling 20)%Q
  ∧ ∃ s' sigs sig,
      feed "BTCUSDT" doubling SMAStrategy.NewSMAStrategy = Some (s', sigs)
      ∧ sigs !! 19%nat = Some sig
      ∧ Signal.Action sig = "BUY".
Proof.
  assert (Hlen : length doubling = 25%nat) by reflexivity.
  assert (Hasc : ascending doubling) by (vm_compute; repeat split).
  assert (Hord : Forall ordinary doubling)
    by (repeat constructor; vm_compute; discriminate).
  assert (Hconf : ((7 # 10) + decisionMargin <= crossoverConfidence doubling 20)%Q)
    by (vm_compute; discriminate).
  repeat (split; [assumption|]).
  destruct (C5_sma_ascending_series "BTCUSDT" doubling 20 Hlen Hasc Hord)
    as (s' & sigs & sig & Hfeed & _ & Hsig & _ & Hfull); [lia|].
  destruct Hfull as (Hbuy & _); [lia|].
  exists s', sigs, sig. split; [exact Hfeed|]. split; [exact Hsig|].
  exact (proj1 (Hbuy Hconf)).
Defined.

(** C5 as claimed fails on the series 100, 101, ..., 124: at sample 20 the
    short mean 114.5 exceeds the long mean 109.5, but the confidence is
    10 × 5/109.5 = 100/219 < 0.7, and all 25 evaluations answer HOLD. *)
Lemma C5_counterexample :
  length unitSteps = 25%nat
  ∧ ascending unitSteps
  ∧ (shortMean unitSteps 20 == 229 # 2)%Q
  ∧ (longMean unitSteps 20 == 219 # 2)%Q
  ∧ (crossoverConfidence unitSteps 20 == 100 # 219)%Q
  ∧ (∃ s' sigs,
       feed "BTCUSDT" unitSteps SMAStrategy.NewSMAStrategy = Some (s', sigs)
       ∧ Forall (λ sig, Signal.Action sig = "HOLD") sigs)
  ∧ ¬ buys_by_sample_20 "BTCUSDT" unitSteps.
Proof.
  split; [reflexivity|]. split; [vm_compute; repeat split|].
  split; [vm_compute; reflexivity|]. split; [vm_compute; reflexivity|].
  split; [vm_compute; reflexivity|]. split.
  - eexists _, _. split; [vm_compute; reflexivity|]. repeat constructor.
  - intros (_ & Hconf & _). vm_compute in Hconf. by apply Hconf.
Qed.

(** ** Grid: one base price for all symbols *)

(** The strategy after the grid was laid out for [symbol] around [base]. *)
Lemma Grid_first_call symbol data g :
  (GridStrategy.basePrice g == 0)%Q →
  ¬ (MarketData.Price data == 0)%Q →
  (0 ≤ GridStrategy.numGrids g)%Z →
  let base := MarketData.Price data in
  let g1 :=
    GridStrategy.mk (GridStrategy.name g) (GridStrategy.gridSize g)
      (GridStrategy.numGrids g) base
      (<[symbol := GridStrategy.gridLevelAt g base <$> seqZ 0 (GridStrategy.numGrids g)]>
         (GridStrategy.positions g))
      (GridStrategy.minConfidence g) in
  GridStrategy.ShouldBuy symbol data g = GridStrategy.ShouldBuy symbol data g1.
Proof.
  intros Hzero Hprice Hnum base g1. unfold GridStrategy.ShouldBuy.
  apply eqb_eq in Hzero. rewrite Hzero.
  assert (Hbase : F64.eqb (GridStrategy.basePrice g1) 0 = false)
    by (by apply eqb_neq).
  rewrite Hbase. unfold GridStrategy.initializeGrid. simpl.
  by destruct (Z.ltb_spec (GridStrategy.numGrids g) 0); [lia|].
Qed.

(** Once the base price is set, a buy evaluation leaves the strategy as it
    is, returns, and answers HOLD for a symbol without levels. *)
Lemma Grid_ShouldBuy_laid_out symbol data g :
  ¬ (GridStrategy.basePrice g == 0)%Q →
  ∃ sig, GridStrategy.ShouldBuy symbol data g = Some (g, sig)
         ∧ (GridStrategy.levels g symbol = [] →
            sig = Signal.hold (Text "Price outside grid range")).
Proof.
  intros Hbase. apply eqb_neq in Hbase. unfold GridStrategy.ShouldBuy.
  rewrite Hbase. simpl.
  set (gridLevel := GridStrategy.findGridLevel (MarketData.Price data) g).
  destruct (Z.ltb_spec gridLevel 0) as [Hneg|Hpos]; simpl.
  { eexists. split; done. }
  destruct (Z.geb_spec gridLevel (len (GridStrategy.levels g symbol))) as [Hge|Hlt].
  { eexists. split; done. }
  assert (Hsome : is_Some (GridStrategy.levels g symbol !! Z.to_nat gridLevel)).
  { apply lookup_lt_is_Some_2. unfold len in Hlt. lia. }
  destruct Hsome as [level Hlevel]. rewrite Hlevel. simpl.
  destruct (F64.leb _ _ && negb _); eexists; (split; [done|]);
    intros Hnil; rewrite Hnil in Hlevel; done.
Qed.

Lemma Grid_ShouldSell_state symbol data position g :
  ∃ sig, GridStrategy.ShouldSell symbol data position g = Some (g, sig).
Proof.
  unfold GridStrategy.ShouldSell.
  repeat match goal with |- context [if ?b then _ else _] => destruct b end;
    by eexists.
Qed.

Lemma Grid_calls_laid_out first calls : ∀ g,
  ¬ (GridStrategy.basePrice g == 0)%Q →
  (∀ other, other ≠ first → GridStrategy.levels g other = []) →
  ∃ sigs, gridCalls calls g = Some (g, sigs)
          ∧ Forall2 (holds_other_symbols first) calls sigs.
Proof.
  induction calls as [|c calls IH]; intros g Hbase Hothers; simpl.
  - exists []. by split.
  - assert (Hcall : ∃ sig, gridCall c g = Some (g, sig)
                           ∧ holds_other_symbols first c sig).
    { destruct c as [symbol data|symbol data position]; simpl.
      - destruct (Grid_ShouldBuy_laid_out symbol data g Hbase) as (sig & Hsig & Hhold).
        exists sig. split; [done|]. intros Hne. apply Hhold. by apply Hothers.
      - destruct (Grid_ShouldSell_state symbol data position g) as (sig & Hsig).
        by exists sig. }
    destruct Hcall as (sig & Hsig & Hhold). rewrite Hsig. simpl.
    destruct (IH g Hbase Hothers) as (sigs & Hsigs & Hall). rewrite Hsigs. simpl.
    exists (sig :: sigs). split; [done|]. by constructor.
Qed.

(** C10. A fresh Grid strategy (no base price, no levels) that first sees a
    symbol at a non-zero price takes that price as the one base price and
    lays the grid out for that symbol.  Through every later sequence of buy
    and sell evaluations, for any symbols and prices, the evaluations
    return, the base price and the levels stay as they are, no other symbol
    ever gets levels, and every buy evaluation for another symbol answers
    HOLD "Price outside grid range". *)
Theorem C10_grid_single_base_price (g : GridStrategy.t) (first : string)
    (data : MarketData.t) (calls : list GridCall) :
  (GridStrategy.basePrice g == 0)%Q →
  GridStrategy.positions g = ∅ →
  (0 ≤ GridStrategy.numGrids g)%Z →
  ¬ (MarketData.Price data == 0)%Q →
  ∃ g1 sig sigs,
    GridStrategy.ShouldBuy first data g = Some (g1, sig)
    ∧ GridStrategy.basePrice g1 = MarketData.Price data
    ∧ GridStrategy.levels g1 first
      = GridStrategy.gridLevelAt g (MarketData.Price data)
          <$> seqZ 0 (GridStrategy.numGrids g)
    ∧ (∀ other, other ≠ first → GridStrategy.positions g1 !! other = None)
    ∧ gridCalls calls g1 = Some (g1, sigs)
    ∧ Forall2 (holds_other_symbols first) calls sigs.
Proof.
  intros Hzero Hempty Hnum Hprice.
  rewrite Grid_first_call by done.
  set (g1 := GridStrategy.mk _ _ _ _ _ _).
  assert (Hbase : ¬ (GridStrategy.basePrice g1 == 0)%Q) by done.
  assert (Hnone : ∀ other, other ≠ first → GridStrategy.positions g1 !! other = None).
  { intros other Hne. simpl. rewrite lookup_insert_ne by done.
    by rewrite Hempty, lookup_empty. }
  assert (Hothers : ∀ other, other ≠ first → GridStrategy.levels g1 other = []).
  { intros other Hne. unfold GridStrategy.levels. by rewrite Hnone. }
  destruct (Grid_ShouldBuy_laid_out first data g1 Hbase) as (sig & Hsig & _).
  destruct (Grid_calls_laid_out first calls g1 Hbase Hothers) as (sigs & Hsigs & Hall).
  exists g1, sig, sigs. repeat split; try done.
  unfold GridStrategy.levels. simpl. by rewrite lookup_insert_eq.
Qed.

Lemma C10_grid_single_base_price_witness :
  let btc := MarketData.mk "BTCUSDT" 100 0 0 in
  let eth_low := MarketData.mk "ETHUSDT" 99 0 0 in
  let eth_first := MarketData.mk "ETHUSDT" 2000 0 0 in
  let calls := [GridBuy "ETHUSDT" eth_first; GridBuy "ETHUSDT" eth_low;
                GridBuy "BTCUSDT" (MarketData.mk "BTCUSDT" 99 0 0)] in
  (GridStrategy.basePrice GridStrategy.NewGridStrategy == 0)%Q
  ∧ ¬ (MarketData.Price btc == 0)%Q
  ∧ ∃ g1 sig sigs,
      GridStrategy.ShouldBuy "BTCUSDT" btc GridStrategy.NewGridStrategy = Some (g1, sig)
      ∧ gridCalls calls g1 = Some (g1, sigs)
      ∧ Forall2 (holds_other_symbols "BTCUSDT") calls sigs.
Proof.
  intros btc eth_low eth_first calls.
  assert (Hzero : (GridStrategy.basePrice GridStrategy.NewGridStrategy == 0)%Q)
    by reflexivity.
  assert (Hprice : ¬ (MarketData.Price btc == 0)%Q) by (intros H; discriminate H).
  split; [exact Hzero|]. split; [exact Hprice|].
  destruct (C10_grid_single_base_price GridStrategy.NewGridStrategy "BTCUSDT" btc
              calls Hzero eq_refl) as (g1 & sig & sigs & H1 & _ & _ & _ & H2 & H3);
    [vm_compute; discriminate | exact Hprice |].
  exists g1, sig, sigs. repeat split; assumption.
Defined.

(** C10 as claimed fails when the first price observed is 0: the base price
    stays 0, so the next evaluation, for another symbol at 2000, takes 2000
    as the base price, lays out ten levels for that symbol and answers BUY
    at level 5. *)
Lemma C10_counterexample :
  let btc := MarketData.mk "BTCUSDT" 0 0 0 in
  let eth := MarketData.mk "ETHUSDT" 2000 0 0 in
  (∃ g1 sig g2 sig2,
     GridStrategy.ShouldBuy "BTCUSDT" btc GridStrategy.NewGridStrategy = Some (g1, sig)
     ∧ (GridStrategy.basePrice g1 == 0)%Q
     ∧ GridStrategy.ShouldBuy "ETHUSDT" eth g1 = Some (g2, sig2)
     ∧ (GridStrategy.basePrice g2 == 2000)%Q
     ∧ length (GridStrategy.levels g2 "ETHUSDT") = 10%nat
     ∧ Signal.Action sig2 = "BUY"
     ∧ Signal.Reason sig2 = Sprintf "Grid buy at level %d" [ArgInt 5])
  ∧ ¬ one_grid_for_first "BTCUSDT" btc [GridBuy "ETHUSDT" eth].
Proof.
  intros btc eth.
  destruct (GridStrategy.ShouldBuy "BTCUSDT" btc GridStrategy.NewGridStrategy)
    as [[g1 sig]|] eqn:Hfirst; [|vm_compute in Hfirst; discriminate Hfirst].
  destruct (GridStrategy.ShouldBuy "ETHUSDT" eth g1)
    as [[g2 sig2]|] eqn:Hnext.
  2:{ vm_compute in Hfirst. injection Hfirst as <- <-.
      vm_compute in Hnext. discriminate Hnext. }
  assert (Hbuy : Signal.Action sig2 = "BUY").
  { vm_compute in Hfirst. injection Hfirst as <- <-.
    vm_compute in Hnext. by injection Hnext as <- <-. }
  split.
  - exists g1, sig, g2, sig2. split; [done|].
    vm_compute in Hfirst. injection Hfirst as <- <-.
    split; [reflexivity|]. split; [exact Hnext|].
    vm_compute in Hnext. injection Hnext as <- <-.
    repeat split.
  - intros Hclaim.
    destruct (Hclaim g1 sig g2 [sig2] Hfirst) as [_ Hall].
    { simpl. by rewrite Hnext. }
    inversion Hall as [|? ? ? ? Hhold]. rewrite Hhold in Hbuy; done.
Qed.

(** ** The confidence gate *)

Section ConfidenceGate.
Local Open Scope Q_scope.

Lemma gated_by_hold m r : gated_by m (Signal.hold r).
Proof. unfold gated_by. simpl. split; [lra|done]. Qed.

Lemma gated_by_emit m action quantity price c r side :
  0 <= m → m <= c → c <= 1 →
  gated_by m (Signal.mk action quantity price 0 0 c r side).
Proof. intros. unfold gated_by. simpl. split; [lra|done]. Qed.

Lemma min_le_one (x : Q) : F64.Min x 1 <= 1.
Proof. apply Q.le_min_r. Qed.

Lemma SMA_ShouldBuy_gated symbol data s :
  (0 ≤ SMAStrategy.maxLength s)%Z →
  0 <= SMAStrategy.minConfidence s →
  ∃ s' sig, SMAStrategy.ShouldBuy symbol data s = Some (s', sig)
            ∧ gated_by (SMAStrategy.minConfidence s) sig.
Proof.
  intros Hcap Hm. unfold SMAStrategy.ShouldBuy.
  rewrite SMA_update_spec by done. simpl.
  split_ifs; cmp_facts; eexists _, _; (split; [done|]);
    first [apply gated_by_hold
          | apply gated_by_emit; [done|done|apply min_le_one]].
Qed.

Lemma SMA_ShouldSell_gated symbol data position s :
  (0 ≤ SMAStrategy.maxLength s)%Z →
  0 <= SMAStrategy.minConfidence s → SMAStrategy.minConfidence s <= 1 →
  ∃ s' sig, SMAStrategy.ShouldSell symbol data position s = Some (s', sig)
            ∧ gated_by (SMAStrategy.minConfidence s) sig.
Proof.
  intros Hcap Hm Hm1. unfold SMAStrategy.ShouldSell.
  rewrite SMA_update_spec by done. simpl.
  split_ifs; cmp_facts; eexists _, _; (split; [done|]);
    first [apply gated_by_hold
          | apply gated_by_emit; [done|done|apply min_le_one]
          | apply gated_by_emit; lra].
Qed.
End ConfidenceGate.

Section ConfidenceGateVariants.
Local Open Scope Q_scope.

Lemma RSI_ShouldBuy_gated symbol data r :
  (0 < RSIStrategy.period r)%Z →
  0 <= RSIStrategy.minConfidence r →
  ∃ r' sig, RSIStrategy.ShouldBuy symbol data r = Some (r', sig)
            ∧ gated_by (RSIStrategy.minConfidence r) sig.
Proof.
  intros Hp Hm.
  assert (Hcap : (0 ≤ RSIStrategy.maxLength r)%Z) by (unfold RSIStrategy.maxLength; lia).
  unfold RSIStrategy.ShouldBuy. rewrite RSI_update_spec by done. simpl.
  match goal with
  | |- context [RSIStrategy.calculateRSI ?a ?b] =>
      pose proof (calculateRSI_range a b Hp) as [Hlo Hhi];
      generalize dependent (RSIStrategy.calculateRSI a b); intros rsi Hlo Hhi
  end.
  split_ifs; cmp_facts; eexists _, _; (split; [done|]);
    try apply gated_by_hold.
  apply gated_by_emit; [done|done|].
  apply Qle_shift_div_r; lra.
Qed.

Lemma RSI_ShouldSell_gated symbol data position r :
  (0 < RSIStrategy.period r)%Z →
  0 <= RSIStrategy.minConfidence r → RSIStrategy.minConfidence r <= 1 →
  ∃ r' sig, RSIStrategy.ShouldSell symbol data position r = Some (r', sig)
            ∧ gated_by (RSIStrategy.minConfidence r) sig.
Proof.
  intros Hp Hm Hm1.
  assert (Hcap : (0 ≤ RSIStrategy.maxLength r)%Z) by (unfold RSIStrategy.maxLength; lia).
  unfold RSIStrategy.ShouldSell. rewrite RSI_update_spec by done. simpl.
  match goal with
  | |- context [RSIStrategy.calculateRSI ?a ?b] =>
      pose proof (calculateRSI_range a b Hp) as [Hlo Hhi];
      generalize dependent (RSIStrategy.calculateRSI a b); intros rsi Hlo Hhi
  end.
  split_ifs; cmp_facts; eexists _, _; (split; [done|]);
    first [apply gated_by_hold
          | apply gated_by_emit; [done|done|apply Qle_shift_div_r; lra]
          | apply gated_by_emit; lra].
Qed.

Lemma Grid_ShouldBuy_laid_out_gated symbol data g :
  ¬ GridStrategy.basePrice g == 0 →
  0 <= GridStrategy.minConfidence g → GridStrategy.minConfidence g <= 1 →
  ∃ sig, GridStrategy.ShouldBuy symbol data g = Some (g, sig)
         ∧ gated_by (GridStrategy.minConfidence g) sig.
Proof.
  intros Hbase Hm Hm1. apply eqb_neq in Hbase. unfold GridStrategy.ShouldBuy.
  rewrite Hbase. simpl.
  set (gridLevel := GridStrategy.findGridLevel (MarketData.Price data) g).
  destruct (Z.ltb_spec gridLevel 0) as [Hneg|Hpos]; simpl.
  { eexists. split; [done|apply gated_by_hold]. }
  destruct (Z.geb_spec gridLevel (len (GridStrategy.levels g symbol))) as [Hge|Hlt].
  { eexists. split; [done|apply gated_by_hold]. }
  assert (Hsome : is_Some (GridStrategy.levels g symbol !! Z.to_nat gridLevel)).
  { apply lookup_lt_is_Some_2. unfold len in Hlt. lia. }
  destruct Hsome as [level Hlevel]. rewrite Hlevel. simpl.
  destruct (F64.leb _ _ && negb _); eexists; (split; [done|]);
    [apply gated_by_emit; lra | apply gated_by_hold].
Qed.

Lemma Grid_ShouldBuy_gated symbol data g :
  (0 ≤ GridStrategy.numGrids g)%Z →
  0 < MarketData.Price data →
  0 <= GridStrategy.minConfidence g → GridStrategy.minConfidence g <= 1 →
  ∃ g' sig, GridStrategy.ShouldBuy symbol data g = Some (g', sig)
            ∧ gated_by (GridStrategy.minConfidence g) sig.
Proof.
  intros Hnum Hprice Hm Hm1.
  destruct (F64.eqb (GridStrategy.basePrice g) 0) eqn:Hbase.
  - apply eqb_eq in Hbase.
    rewrite Grid_first_call by (try done; lra).
    set (g1 := GridStrategy.mk _ _ _ _ _ _).
    destruct (Grid_ShouldBuy_laid_out_gated symbol data g1) as (sig & Hsig & Hg);
      try done; [simpl; lra|].
    by exists g1, sig.
  - apply eqb_neq in Hbase.
    destruct (Grid_ShouldBuy_laid_out_gated symbol data g) as (sig & Hsig & Hg);
      try done.
    by exists g, sig.
Qed.

Lemma Grid_ShouldSell_gated symbol data position g :
  0 <= GridStrategy.minConfidence g → GridStrategy.minConfidence g <= 1 →
  ∃ g' sig, GridStrategy.ShouldSell symbol data position g = Some (g', sig)
            ∧ gated_by (GridStrategy.minConfidence g) sig.
Proof.
  intros Hm Hm1. unfold GridStrategy.ShouldSell.
  split_ifs; eexists _, _; (split; [done|]);
    first [apply gated_by_hold | apply gated_by_emit; lra].
Qed.

Lemma gated_by_gated v m sig :
  configuredMinConfidence v = Some m → gated_by m sig → gated v sig.
Proof. intros Hv [Hrange Hgate]. split; [done|]. intros Ha. exists m. auto. Qed.

Lemma lift_gated {S} (wrap : S → StrategyVariant) (v : StrategyVariant) m
    (result : option (S * Signal.t)) :
  configuredMinConfidence v = Some m →
  (∃ s' sig, result = Some (s', sig) ∧ gated_by m sig) →
  ∃ v' sig, lift wrap result = Some (v', sig) ∧ gated v sig.
Proof.
  intros Hv (s' & sig & -> & Hg). exists (wrap s'), sig.
  split; [done|]. by eapply gated_by_gated.
Qed.
End ConfidenceGateVariants.

(** C4, as the code has it.  For the SMA, RSI and Grid variants, configured
    with positive periods (a grid count that is not negative, a non-zero
    grid size) and a minimum confidence in [0,1], on positive prices and a
    positive entry price: every evaluation, ShouldBuy or ShouldSell, returns
    a signal whose confidence lies in [0,1], and whose action is other than
    HOLD only if the confidence is at least the configured minimum. *)
Theorem C4_confidence_gate (v : StrategyVariant) (symbol : string)
    (data : MarketData.t) (position : Position.t) :
  well_configured v →
  (0 < MarketData.Price data)%Q →
  (0 < Position.EntryPrice position)%Q →
  Forall (λ p, 0 < p)%Q (historyOf v symbol) →
  (∃ v' sig, ShouldBuy symbol data v = Some (v', sig) ∧ gated v sig)
  ∧ (∃ v' sig, ShouldSell symbol data position v = Some (v', sig) ∧ gated v sig).
Proof.
  intros Hv Hprice Hentry Hhistory.
  destruct v as [s|r|g|a]; simpl in Hv.
  - destruct Hv as (Hshort & Hlong & Hm0 & Hm1).
    assert (Hcap : (0 ≤ SMAStrategy.maxLength s)%Z)
      by (unfold SMAStrategy.maxLength; lia).
    split; eapply lift_gated; try reflexivity.
    + by apply SMA_ShouldBuy_gated.
    + by apply SMA_ShouldSell_gated.
  - destruct Hv as (Hperiod & Hm0 & Hm1).
    split; eapply lift_gated; try reflexivity.
    + by apply RSI_ShouldBuy_gated.
    + by apply RSI_ShouldSell_gated.
  - destruct Hv as (Hnum & Hsize & Hm0 & Hm1).
    split; eapply lift_gated; try reflexivity.
    + by apply Grid_ShouldBuy_gated.
    + by apply Grid_ShouldSell_gated.
  - done.
Qed.

Lemma C4_confidence_gate_witness :
  let data := MarketData.mk "BTCUSDT" 97 12 0 in
  well_configured Scenario.strategy
  ∧ (0 < MarketData.Price data)%Q
  ∧ (0 < Position.EntryPrice Scenario.position)%Q
  ∧ Forall (λ p, 0 < p)%Q (historyOf Scenario.strategy "BTCUSDT")
  ∧ ∃ v' sig,
      ShouldSell "BTCUSDT" data Scenario.position Scenario.strategy = Some (v', sig)
      ∧ gated Scenario.strategy sig.
Proof.
  intros data.
  assert (Hv : well_configured Scenario.strategy)
    by (vm_compute; repeat split; discriminate).
  assert (Hp : (0 < MarketData.Price data)%Q) by reflexivity.
  assert (He : (0 < Position.EntryPrice Scenario.position)%Q) by reflexivity.
  assert (Hh : Forall (λ p, 0 < p)%Q (historyOf Scenario.strategy "BTCUSDT"))
    by (vm_compute; repeat constructor).
  repeat (split; [assumption|]).
  exact (proj2 (C4_confidence_gate Scenario.strategy "BTCUSDT" data
                  Scenario.position Hv Hp He Hh)).
Defined.

(** C4 as claimed fails.  The AI variant has no minimum confidence and
    answers BUY (and SELL) with confidence 0 on every evaluation.  And where
    a minimum is configured it is not kept within [0,1]: a Grid strategy
    initialised with min_confidence = 3/2 answers BUY with confidence 3/2. *)
Lemma C4_counterexample :
  let data := MarketData.mk "BTCUSDT" 100 0 0 in
  let ai := AI AIStrategy.NewAIStrategy in
  let grid :=
    Grid (fst (GridStrategy.Initialize {[ "min_confidence" := VFloat (3 # 2) ]}
                 GridStrategy.NewGridStrategy)) in
  (∃ sig,
     ShouldBuy "BTCUSDT" data ai = Some (ai, sig)
     ∧ Signal.Action sig = "BUY"
     ∧ (Signal.Confidence sig == 0)%Q
     ∧ configuredMinConfidence ai = None
     ∧ ¬ gated ai sig)
  ∧ (∃ grid' sig,
       ShouldBuy "BTCUSDT" data grid = Some (grid', sig)
       ∧ Signal.Action sig = "BUY"
       ∧ (Signal.Confidence sig == 3 # 2)%Q
       ∧ ¬ gated grid sig).
Proof.
  intros data ai grid. split.
  - eexists. split; [reflexivity|]. repeat split.
    intros [_ Hgate]. destruct Hgate as (m & Hm & _); [discriminate|]. discriminate Hm.
  - eexists _, _. split; [vm_compute; reflexivity|]. repeat split.
    intros [[_ Hone] _]. vm_compute in Hone. by apply Hone.
Qed.

(** ** RiskManager: the daily reset *)

Lemma dateDiffers_false a b :
  RiskManager.dateDiffers a b = false ↔ same_date a b.
Proof.
  unfold RiskManager.dateDiffers, same_date.
  rewrite !orb_false_iff, !negb_false_iff, !Z.eqb_eq. tauto.
Qed.

Lemma dateDiffers_true a b :
  RiskManager.dateDiffers a b = true ↔ ¬ same_date a b.
Proof.
  rewrite <- dateDiffers_false. destruct (RiskManager.dateDiffers a b); split; congruence.
Qed.

Lemma same_date_trans a b c : same_date a b → same_date b c → same_date a c.
Proof. unfold same_date. intuition congruence. Qed.

Lemma reset_same_date now rm :
  same_date now (RiskManager.lastResetDate rm) →
  RiskManager.resetDailyCountersIfNeeded now rm = rm.
Proof.
  intros H. unfold RiskManager.resetDailyCountersIfNeeded.
  apply dateDiffers_false in H. by rewrite H.
Qed.

Lemma reset_other_date now rm :
  ¬ same_date now (RiskManager.lastResetDate rm) →
  RiskManager.resetDailyCountersIfNeeded now rm
  = RiskManager.mk (RiskManager.config rm) 0 0 now
      (RiskManager.totalExposure rm) (RiskManager.maxExposure rm).
Proof.
  intros H. unfold RiskManager.resetDailyCountersIfNeeded.
  apply dateDiffers_true in H. by rewrite H.
Qed.

(** C8. The daily counters are reset exactly when the observed date differs
    from the last reset date in day, month or year, whatever the time of day
    and the elapsed time; the reset zeroes [dailyLoss] and [dailyTrades] and
    records the observed time; a check on the calendar date of the last
    reset changes nothing, so after a reset a second check on the same date
    does not reset again, even if the counters were updated in between. *)
Theorem C8_daily_reset (now : Time.t) (rm : RiskManager.t) :
  let rm' := RiskManager.resetDailyCountersIfNeeded now rm in
  (same_date now (RiskManager.lastResetDate rm) → rm' = rm)
  ∧ (¬ same_date now (RiskManager.lastResetDate rm) →
       RiskManager.dailyLoss rm' = 0%Q
       ∧ RiskManager.dailyTrades rm' = 0%Z
       ∧ RiskManager.lastResetDate rm' = now
       ∧ RiskManager.config rm' = RiskManager.config rm
       ∧ RiskManager.totalExposure rm' = RiskManager.totalExposure rm
       ∧ RiskManager.maxExposure rm' = RiskManager.maxExposure rm)
  ∧ (∀ now2 loss trades,
       same_date now2 now →
       let updated :=
         RiskManager.mk (RiskManager.config rm') loss trades
           (RiskManager.lastResetDate rm') (RiskManager.totalExposure rm')
           (RiskManager.maxExposure rm') in
       RiskManager.resetDailyCountersIfNeeded now2 rm' = rm'
       ∧ RiskManager.resetDailyCountersIfNeeded now2 updated = updated).
Proof.
  intros rm'. split; [|split].
  - apply reset_same_date.
  - intros H. subst rm'. by rewrite reset_other_date.
  - intros now2 loss trades H2.
    assert (Hd : same_date now2 (RiskManager.lastResetDate rm')).
    { subst rm'. unfold RiskManager.resetDailyCountersIfNeeded.
      destruct (RiskManager.dateDiffers now (RiskManager.lastResetDate rm)) eqn:E.
      - exact H2.
      - apply dateDiffers_false in E. by eapply same_date_trans. }
    split; by apply reset_same_date.
Qed.

Lemma C8_daily_reset_witness :
  let monday_2359 := Time.mk 2026 3 2 86340 1772495940 in
  let tuesday_0001 := Time.mk 2026 3 3 60 1772496060 in
  let tuesday_1700 := Time.mk 2026 3 3 61200 1772557200 in
  let rm :=
    RiskManager.mk (RiskConfig.mk 1000 2 5 500 5 1 0 0 10 0 0 0)
      120 7 monday_2359 0 10000 in
  let rm' := RiskManager.resetDailyCountersIfNeeded tuesday_0001 rm in
  ¬ same_date tuesday_0001 monday_2359
  ∧ same_date tuesday_1700 tuesday_0001
  ∧ RiskManager.dailyLoss rm' = 0%Q
  ∧ RiskManager.dailyTrades rm' = 0%Z
  ∧ RiskManager.resetDailyCountersIfNeeded tuesday_1700 rm' = rm'.
Proof.
  intros monday_2359 tuesday_0001 tuesday_1700 rm rm'.
  assert (Hne : ¬ same_date tuesday_0001 monday_2359)
    by (intros (_ & _ & Hday); vm_compute in Hday; discriminate).
  assert (Hsame : same_date tuesday_1700 tuesday_0001) by (repeat split).
  destruct (C8_daily_reset tuesday_0001 rm) as (_ & Hreset & Hagain).
  destruct (Hreset Hne) as (Hloss & Htrades & _).
  destruct (Hagain tuesday_1700 0%Q 0%Z Hsame) as (Hidem & _).
  repeat split; assumption.
Defined.

(** ** RiskManager.ValidateOrder *)

Section ValidateOrder.
Local Open Scope Q_scope.
Import RiskManager.

Lemma isTradingAllowed_false rm :
  isTradingAllowed rm = false
  ↔ ((0 < RiskConfig.MaxOpenPositions (config rm))%Z
      ∧ (RiskConfig.MaxOpenPositions (config rm) ≤ dailyTrades rm)%Z)
    ∨ RiskConfig.MaxDailyLoss (config rm) <= dailyLoss rm.
Proof.
  unfold isTradingAllowed.
  destruct (Z.gtb_spec (RiskConfig.MaxOpenPositions (config rm)) 0);
    destruct (Z.geb_spec (dailyTrades rm) (RiskConfig.MaxOpenPositions (config rm)));
    simpl; try case_cmp Hloss; intuition (try done; try lia; try lra).
Qed.


Lemma validatePositionSize_false rm order :
  validatePositionSize rm order = false
  ↔ RiskConfig.MaxPositionSize (config rm) < orderValue order.
Proof. unfold validatePositionSize. case_cmp H; intuition (try done; lra). Qed.

Lemma validateDailyLossLimit_false rm order :
  validateDailyLossLimit rm order = false
  ↔ RiskConfig.MaxDailyLoss (config rm) <= dailyLoss rm.
Proof. unfold validateDailyLossLimit. case_cmp H; intuition (try done; lra). Qed.


Lemma validateRiskPerTrade_false rm order :
  validateRiskPerTrade rm order = false
  ↔ RiskConfig.MaxPositionSize (config rm) * (RiskConfig.RiskPerTrade (config rm) / 100)
    < orderValue order * (RiskConfig.RiskPerTrade (config rm) / 100).
Proof. unfold validateRiskPerTrade. case_cmp H; intuition (try done; lra). Qed.

(** [ValidateOrder] changes the manager by the daily reset only. *)
Lemma ValidateOrder_state now order rm :
  fst (ValidateOrder now order rm) = resetDailyCountersIfNeeded now rm.
Proof.
  unfold ValidateOrder.
  repeat match goal with |- context [if ?b then _ else _] => destruct b end; done.
Qed.

(** The pipeline of [ValidateOrder] as a conjunction of its six checks. *)
Lemma ValidateOrder_result now order rm :
  let rm' := resetDailyCountersIfNeeded now rm in
  snd (ValidateOrder now order rm)
  = isTradingAllowed rm' && validateOrderSize rm' order
    && validatePositionSize rm' order && validateDailyLossLimit rm' order
    && validateExposureLimit rm' order && validateRiskPerTrade rm' order.
Proof.
  intros rm'. unfold ValidateOrder. fold rm'.
  destruct (isTradingAllowed rm'), (validateOrderSize rm' order),
    (validatePositionSize rm' order), (validateDailyLossLimit rm' order),
    (validateExposureLimit rm' order), (validateRiskPerTrade rm' order); done.
Qed.
End ValidateOrder.

Section ValidateOrderExact.
Local Open Scope Q_scope.
Import RiskManager.



End ValidateOrderExact.




(** ** RiskManager.EmergencyStop *)

Section EmergencyStop.
Local Open Scope Q_scope.
Import RiskManager.

Lemma stopped_not_allowed last cfg rm :
  stopped last cfg rm → isTradingAllowed rm = false.
Proof.
  intros (<- & _ & H). apply isTradingAllowed_false. by right.
Qed.

Lemma stopped_step last cfg op rm :
  stopped last cfg rm → on_reset_date last op → adds_no_profit op →
  stopped last cfg (fst (step op rm))
  ∧ (snd (step op rm) = None ∨ snd (step op rm) = Some false).
Proof.
  intros Hst Hdate Hloss.
  pose proof (stopped_not_allowed _ _ _ Hst) as Hna.
  destruct Hst as (Hc & Hl & Hd).
  destruct op as [now order|now loss|now| |now|]; simpl in *.
  - rewrite <- Hl in Hdate. unfold ValidateOrder.
    rewrite reset_same_date, Hna by done. simpl. split; [done|by right].
  - rewrite <- Hl in Hdate. unfold UpdateDailyLoss.
    rewrite reset_same_date by done. split; [|by left].
    repeat split; simpl; try done. lra.
  - rewrite <- Hl in Hdate. unfold UpdateDailyTrades.
    rewrite reset_same_date by done. split; [done|by left].
  - split; [done|by left].
  - rewrite <- Hl in Hdate. rewrite reset_same_date by done.
    split; [done|by left].
  - split; [|by left]. repeat split; simpl; try done. rewrite Hc. lra.
Qed.

Lemma stopped_run last cfg ops : ∀ rm,
  stopped last cfg rm →
  Forall (on_reset_date last) ops → Forall adds_no_profit ops →
  stopped last cfg (fst (run ops rm)) ∧ Forall (eq false) (snd (run ops rm)).
Proof.
  induction ops as [|op ops IH]; intros rm Hst Hdates Hloss; simpl.
  - by split.
  - inversion_clear Hdates as [|? ? Hd Hds].
    inversion_clear Hloss as [|? ? Hp Hps].
    destruct (stopped_step _ _ op rm Hst Hd Hp) as [Hst1 Hres].
    destruct (step op rm) as [rm1 res]. simpl in *.
    destruct (IH rm1 Hst1 Hds Hps) as [Hst2 Hall].
    destruct (run ops rm1) as [rm2 results]. simpl in *.
    split; [done|].
    destruct Hres as [-> | ->]; [done|]. by constructor.
Qed.
End EmergencyStop.

(** C9, as the code has it.  After [EmergencyStop], dailyLoss equals the
    configured maximum daily loss; through every later sequence of
    operations that are all observed on the calendar date of the manager's
    last reset and among which no [UpdateDailyLoss] carries a negative
    amount, every [ValidateOrder] is rejected, the manager is left unchanged
    by it and trading stays disallowed. *)
Theorem C9_emergency_stop_latch (reason : string) (rm : RiskManager.t)
    (ops : list RiskManager.Op) :
  Forall (on_reset_date (RiskManager.lastResetDate rm)) ops →
  Forall adds_no_profit ops →
  let stop := RiskManager.EmergencyStop reason rm in
  RiskManager.dailyLoss stop = RiskConfig.MaxDailyLoss (RiskManager.config rm)
  ∧ RiskManager.isTradingAllowed stop = false
  ∧ Forall (eq false) (snd (RiskManager.run ops stop))
  ∧ RiskManager.isTradingAllowed (fst (RiskManager.run ops stop)) = false.
Proof.
  intros Hdates Hloss stop.
  assert (Hst : stopped (RiskManager.lastResetDate rm) (RiskManager.config rm) stop).
  { repeat split. simpl. lra. }
  destruct (stopped_run _ _ ops stop Hst Hdates Hloss) as [Hst' Hall].
  split; [done|]. split; [by eapply stopped_not_allowed|].
  split; [done|]. by eapply stopped_not_allowed.
Qed.

Lemma C9_emergency_stop_latch_witness :
  let today := Time.mk 2026 3 3 61200 1772557200 in
  let later := Time.mk 2026 3 3 75600 1772571600 in
  let rm :=
    RiskManager.mk (RiskConfig.mk 1000 2 5 500 5 1 0 0 10 0 0 0)
      0 0 today 0 10000 in
  let order := OrderInfo.mk "BTCUSDT" "BUY" 1 100 in
  let ops := [RiskManager.OpValidateOrder today order;
              RiskManager.OpUpdateDailyLoss later 25;
              RiskManager.OpUpdateExposure 0;
              RiskManager.OpValidateOrder later order] in
  Forall (on_reset_date (RiskManager.lastResetDate rm)) ops
  ∧ Forall adds_no_profit ops
  ∧ snd (RiskManager.ValidateOrder today order rm) = true
  ∧ snd (RiskManager.run ops (RiskManager.EmergencyStop "manual" rm)) = [false; false].
Proof.
  intros today later rm order ops.
  assert (Hdates : Forall (on_reset_date (RiskManager.lastResetDate rm)) ops)
    by (repeat constructor).
  assert (Hloss : Forall adds_no_profit ops)
    by (repeat constructor; simpl; discriminate).
  destruct (C9_emergency_stop_latch "manual" rm ops Hdates Hloss)
    as (_ & _ & Hall & _).
  repeat split; try assumption.
Defined.

(** C9 as claimed fails: on the day of the stop, [UpdateDailyLoss] with a
    negative amount lowers dailyLoss below the maximum and the next
    [ValidateOrder] of the same day is approved, without any daily reset. *)
Lemma C9_counterexample :
  let today := Time.mk 2026 3 3 61200 1772557200 in
  let rm :=
    RiskManager.mk (RiskConfig.mk 1000 2 5 500 5 1 0 0 10 0 0 0)
      0 0 today 0 10000 in
  let order := OrderInfo.mk "BTCUSDT" "BUY" 1 100 in
  let ops := [RiskManager.OpUpdateDailyLoss today (-1);
              RiskManager.OpValidateOrder today order] in
  snd (RiskManager.run ops (RiskManager.EmergencyStop "manual" rm)) = [true]
  ∧ ¬ latched_until_reset "manual" rm ops.
Proof.
  intros today rm order ops.
  assert (Hrun : snd (RiskManager.run ops (RiskManager.EmergencyStop "manual" rm))
                 = [true]) by (vm_compute; reflexivity).
  split; [exact Hrun|].
  intros [_ Hclaim].
  assert (Hdates : Forall (on_reset_date (RiskManager.lastResetDate rm)) ops)
    by (repeat constructor).
  specialize (Hclaim Hdates). rewrite Hrun in Hclaim.
  inversion Hclaim as [|? ? Hhead]. discriminate Hhead.
Qed.

(** The stop does not look at the clock: when the last reset is from an
    earlier day, the first [ValidateOrder] after the stop runs the pending
    reset, which clears dailyLoss, and the order is approved on the very day
    of the stop. *)
Lemma EmergencyStop_before_pending_reset :
  let yesterday := Time.mk 2026 3 2 86340 1772495940 in
  let today := Time.mk 2026 3 3 61200 1772557200 in
  let rm :=
    RiskManager.mk (RiskConfig.mk 1000 2 5 500 5 1 0 0 10 0 0 0)
      0 0 yesterday 0 10000 in
  let order := OrderInfo.mk "BTCUSDT" "BUY" 1 100 in
  snd (RiskManager.ValidateOrder today order (RiskManager.EmergencyStop "manual" rm))
  = true.
Proof. vm_compute. reflexivity. Qed.

(** ** NewEngine: selection of the strategy *)

Lemma selectStrategy_cases (type : string) :
  Engine.selectStrategy "simple_moving_average" = SMA SMAStrategy.NewSMAStrategy
  ∧ Engine.selectStrategy "rsi" = RSI RSIStrategy.NewRSIStrategy
  ∧ Engine.selectStrategy "ai" = AI AIStrategy.NewAIStrategy
  ∧ (type ≠ "simple_moving_average" → type ≠ "rsi" → type ≠ "ai" →
     Engine.selectStrategy type = SMA SMAStrategy.NewSMAStrategy).
Proof.
  repeat split; try reflexivity.
  intros H1 H2 H3. unfold Engine.selectStrategy.
  apply String.eqb_neq in H1, H2, H3. by rewrite H1, H2, H3.
Qed.

(** C3, at the type string "grid": [NewEngine] has no case for it, so the
    default branch builds the SMA variant and [NewGridStrategy] is never
    called; whatever the rest of the configuration, the engine then runs
    "Simple Moving Average". *)
Theorem C3_grid_type_builds_sma (now : Time.t) (symbols : list string)
    (maxPositionSize stopLoss takeProfit maxDailyLoss : Q) (interval : Z)
    (minOrderValue : Q) (maxLeverage : Z) (riskPerTrade : Q) (paper : bool)
    (parameters : gmap string Value) :
  let cfg :=
    TradingConfig.mk symbols maxPositionSize stopLoss takeProfit maxDailyLoss
      interval minOrderValue maxLeverage riskPerTrade paper "grid" parameters in
  Engine.selectStrategy "grid" = SMA SMAStrategy.NewSMAStrategy
  ∧ (∃ s, Engine.strategy (Engine.NewEngine now cfg) = SMA s)
  ∧ Name (Engine.strategy (Engine.NewEngine now cfg)) = "Simple Moving Average"
  ∧ ∀ g, Engine.strategy (Engine.NewEngine now cfg) ≠ Grid g.
Proof.
  intros cfg. split; [reflexivity|].
  assert (H : ∃ s, Engine.strategy (Engine.NewEngine now cfg) = SMA s
                   ∧ SMAStrategy.name s = "Simple Moving Average").
  { unfold Engine.NewEngine. simpl.
    destruct (SMAStrategy.Initialize parameters SMAStrategy.NewSMAStrategy)
      as [s err] eqn:E.
    simpl. exists s. split; [done|].
    unfold SMAStrategy.Initialize in E.
    repeat match type of E with
           | context [floatParam ?c ?k] => destruct (floatParam c k)
           | context [if ?b then _ else _] => destruct b
           end; by inversion E. }
  destruct H as (s & Hs & Hn). rewrite Hs. split; [eauto|]. split; [exact Hn|].
  intros g. discriminate.
Qed.

(** ** Engine: the decision task and the risk gate *)

Lemma orders_approved_nil needs : orders_approved needs [].
Proof. intros i request H. done. Qed.

Lemma orders_approved_app needs xs ys :
  orders_approved needs xs → orders_approved needs ys →
  orders_approved needs (xs ++ ys).
Proof.
  intros Hx Hy i request Hi Hneeds.
  apply lookup_app_Some in Hi as [Hi|[Hlen Hi]].
  - destruct (Hx i request Hi Hneeds) as (j & order & Hj & Hev & Happ).
    exists j, order. split; [done|]. split; [|done]. by apply lookup_app_l_Some.
  - destruct (Hy _ request Hi Hneeds) as (j & order & Hj & Hev & Happ).
    exists (length xs + j)%nat, order. split; [lia|]. split; [|done].
    rewrite lookup_app_r by lia. by replace (length xs + j - length xs)%nat with j by lia.
Qed.

(** A trace with no buy order needs no approval. *)
Lemma orders_approved_no_buy events :
  (∀ i request, events !! i = Some (EvPlaceOrder request) →
                OrderRequest.Side request = "SELL") →
  orders_approved buy_order events.
Proof.
  intros Hsell i request Hi Hbuy. apply Hsell in Hi.
  unfold buy_order in Hbuy. congruence.
Qed.

Section DecisionTask.
Variable now : Time.t.
Variable GetPosition : string → string → PositionResult.
Variable PlaceOrder : OrderRequest.t → OrderResponse.t + string.

Local Arguments ShouldBuy : simpl never.
Local Arguments ShouldSell : simpl never.

Local Abbreviation executeSellOrder := (Engine.executeSellOrder now PlaceOrder).
Local Abbreviation executeBuyOrder := (Engine.executeBuyOrder now PlaceOrder).
Local Abbreviation processSymbolSignals := (Engine.processSymbolSignals now GetPosition PlaceOrder).
Local Abbreviation processSymbols := (Engine.processSymbols now GetPosition PlaceOrder).
Local Abbreviation processTradingSignals := (Engine.processTradingSignals now GetPosition PlaceOrder).

(** [executeSellOrder] submits the sell order first, consults no one, and
    leaves the strategy and the risk manager alone. *)
Lemma executeSellOrder_trace symbol signal position e :
  ∃ e' rest err,
    executeSellOrder symbol signal position e
    = (e', EvPlaceOrder
             (OrderRequest.mk symbol "SELL" "MARKET" (Position.Size position)
                "BOTH" false ("sell_", Time.Unix now)) :: rest, err)
    ∧ Forall (λ ev, ¬ is_validation ev) rest
    ∧ (∀ i request, rest !! i = Some (EvPlaceOrder request) → False)
    ∧ Engine.riskManager e' = Engine.riskManager e
    ∧ Engine.strategy e' = Engine.strategy e.
Proof.
  unfold Engine.executeSellOrder.
  destruct (PlaceOrder _) as [response|msg].
  - destruct (String.eqb _ "FILLED"); simpl;
      eexists _, _, _; (split; [reflexivity|]);
      (split; [repeat constructor; by intros []|]);
      (split; [|done]); intros [|[|[|i]]] request Hi; done.
  - eexists _, _, _. split; [reflexivity|]. repeat split; try done.
Qed.

(** [executeBuyOrder] submits one buy order of the signal's quantity. *)
Lemma executeBuyOrder_trace symbol signal e :
  ∃ e' rest err,
    executeBuyOrder symbol signal e
    = (e', EvPlaceOrder
             (OrderRequest.mk symbol "BUY" "MARKET" (Signal.Quantity signal)
                "BOTH" false ("buy_", Time.Unix now)) :: rest, err)
    ∧ (∀ i request, rest !! i = Some (EvPlaceOrder request) → False).
Proof.
  unfold Engine.executeBuyOrder.
  destruct (PlaceOrder _) as [response|msg].
  - destruct (String.eqb _ "FILLED"); simpl;
      eexists _, _, _; (split; [reflexivity|]);
      intros [|[|i]] request Hi; done.
  - eexists _, _, _. split; [reflexivity|]. done.
Qed.

(** Every buy order of one symbol's processing follows its approval. *)
Lemma processSymbolSignals_buys_approved symbol e e' events err :
  processSymbolSignals symbol e = Some (e', events, err) →
  orders_approved buy_order events.
Proof.
  unfold Engine.processSymbolSignals.
  destruct (Engine.getMarketData e symbol) as [marketData|];
    [|intros [= <- <- <-]; apply orders_approved_nil].
  destruct (GetPosition symbol "LONG") as [p| |msg] eqn:Hpos;
    [| |intros [= <- <- <-]; apply orders_approved_nil].
  - (* a position was found *)
    destruct (Engine.isOpen (Some p)) eqn:Hopen; simpl.
    + (* OPEN: the sell branch only *)
      destruct (ShouldSell symbol marketData p (Engine.strategy e))
        as [[strategy' sellSignal]|]; simpl; [|done].
      destruct (String.eqb (Signal.Action sellSignal) "SELL").
      * destruct (executeSellOrder_trace symbol sellSignal p
                    (Engine.setStrategy e strategy'))
          as (e1 & rest & err1 & -> & _ & Hrest & _). simpl.
        intros [= <- <- <-]. apply orders_approved_no_buy.
        intros [|i] request Hi; [by injection Hi as <-|]. by apply Hrest in Hi.
      * simpl. intros [= <- <- <-]. apply orders_approved_nil.
    + (* not OPEN: the buy branch only *)
      destruct (ShouldBuy symbol marketData (Engine.strategy e))
        as [[strategy' buySignal]|]; simpl; [|done].
      destruct (String.eqb (Signal.Action buySignal) "BUY"); simpl;
        [|intros [= <- <- <-]; apply orders_approved_nil].
      destruct (RiskManager.ValidateOrder now _ _) as [rm approved].
      destruct approved; simpl.
      * destruct (executeBuyOrder_trace symbol buySignal
                    (Engine.setRiskManager (Engine.setStrategy e strategy') rm))
          as (e4 & rest & err4 & -> & Hrest). simpl.
        intros [= <- <- <-] i request Hi Hbuy.
        destruct i as [|[|i]]; [done| |by apply Hrest in Hi].
        injection Hi as <-. eexists 0%nat, _. split; [lia|]. split; [done|].
        by repeat split.
      * intros [= <- <- <-] [|i] request Hi; done.
  - (* no position: the buy branch only *)
    simpl.
    destruct (ShouldBuy symbol marketData (Engine.strategy e))
      as [[strategy' buySignal]|]; simpl; [|done].
    destruct (String.eqb (Signal.Action buySignal) "BUY"); simpl;
      [|intros [= <- <- <-]; apply orders_approved_nil].
    destruct (RiskManager.ValidateOrder now _ _) as [rm approved].
    destruct approved; simpl.
    + destruct (executeBuyOrder_trace symbol buySignal
                  (Engine.setRiskManager (Engine.setStrategy e strategy') rm))
        as (e4 & rest & err4 & -> & Hrest). simpl.
      intros [= <- <- <-] i request Hi Hbuy.
      destruct i as [|[|i]]; [done| |by apply Hrest in Hi].
      injection Hi as <-. eexists 0%nat, _. split; [lia|]. split; [done|].
      by repeat split.
    + intros [= <- <- <-] [|i] request Hi; done.
Qed.

Lemma processSymbols_buys_approved symbols : ∀ e e' events,
  processSymbols symbols e = Some (e', events) →
  orders_approved buy_order events.
Proof.
  induction symbols as [|symbol rest IH]; intros e e' events; simpl.
  - intros [= <- <-]. apply orders_approved_nil.
  - destruct (processSymbolSignals symbol e) as [[[e1 events1] err1]|] eqn:H1; [|done].
    simpl.
    destruct (processSymbols rest e1) as [[e2 events2]|] eqn:H2; [|done]. simpl.
    intros [= <- <-]. apply orders_approved_app.
    + by eapply processSymbolSignals_buys_approved.
    + by eapply IH.
Qed.

(** C1, as the code has it.  For a symbol with an OPEN position for which
    the active strategy returns a SELL signal, the engine submits the sell
    order for the whole position at once: [ValidateOrder] is not called and
    the risk manager is not touched.  In every iteration of the decision
    task, every BUY order submitted to the venue comes after an approval by
    [ValidateOrder] of an order of the same symbol, side and quantity. *)
Theorem C1_sell_unvalidated_buy_validated (symbol : string) (e : Engine.t)
    (marketData : MarketData.t) (position : Position.t)
    (strategy' : StrategyVariant) (sellSignal : Signal.t) :
  Engine.getMarketData e symbol = Some marketData →
  GetPosition symbol "LONG" = PositionFound position →
  Position.Status position = "OPEN" →
  ShouldSell symbol marketData position (Engine.strategy e)
  = Some (strategy', sellSignal) →
  Signal.Action sellSignal = "SELL" →
  (∃ e' rest err,
     processSymbolSignals symbol e
     = Some (e', EvPlaceOrder
                   (OrderRequest.mk symbol "SELL" "MARKET" (Position.Size position)
                      "BOTH" false ("sell_", Time.Unix now)) :: rest, err)
     ∧ Forall (λ ev, ¬ is_validation ev) rest
     ∧ Engine.riskManager e' = Engine.riskManager e)
  ∧ (∀ e0 e' events,
       processTradingSignals e0 = Some (e', events) →
       orders_approved buy_order events).
Proof.
  intros Hmd Hpos Hstatus Hsell Haction. split.
  - unfold Engine.processSymbolSignals. rewrite Hmd, Hpos.
    assert (Hopen : Engine.isOpen (Some position) = true)
      by (simpl; by rewrite Hstatus).
    rewrite Hopen. simpl. rewrite Hsell. simpl. rewrite Haction. simpl.
    destruct (executeSellOrder_trace symbol sellSignal position
                (Engine.setStrategy e strategy'))
      as (e1 & rest & err1 & -> & Hrest & _ & Hrm & _). simpl.
    eexists _, _, _. split; [reflexivity|]. by split.
  - intros e0 e' events. unfold Engine.processTradingSignals.
    destruct (TradingConfig.EnablePaperTrading _).
    + intros [= <- <-]. apply orders_approved_nil.
    + apply processSymbols_buys_approved.
Qed.
End DecisionTask.

Lemma C1_sell_unvalidated_buy_validated_witness :
  Engine.getMarketData Scenario.engine "BTCUSDT"
  = Some (MarketData.mk "BTCUSDT" 97 12 0)
  ∧ Position.Status Scenario.position = "OPEN"
  ∧ ∃ e' rest err,
      Engine.processSymbolSignals Scenario.today Scenario.GetPosition
        Scenario.PlaceOrder "BTCUSDT" Scenario.engine
      = Some (e', EvPlaceOrder Scenario.sellRequest :: rest, err)
      ∧ Forall (λ ev, ¬ is_validation ev) rest
      ∧ Engine.riskManager e' = Scenario.riskManager.
Proof.
  split; [reflexivity|]. split; [reflexivity|].
  eapply (C1_sell_unvalidated_buy_validated Scenario.today Scenario.GetPosition
            Scenario.PlaceOrder "BTCUSDT" Scenario.engine
            (MarketData.mk "BTCUSDT" 97 12 0) Scenario.position).
  - reflexivity.
  - reflexivity.
  - reflexivity.
  - vm_compute. reflexivity.
  - reflexivity.
Defined.

(** C1 as claimed fails.  In the scenario the SMA strategy answers SELL
    (stop loss), [ValidateOrder] would reject the order (the daily loss
    limit is reached), and the engine submits the sell order all the same:
    the first call of the trace is [PlaceOrder] and no approval precedes
    it. *)
Lemma C1_counterexample :
  snd (RiskManager.ValidateOrder Scenario.today
         (OrderInfo.mk "BTCUSDT" "SELL" (1 # 2) 97) Scenario.riskManager) = false
  ∧ (∃ e' rest,
       Engine.processSymbolSignals Scenario.today Scenario.GetPosition
         Scenario.PlaceOrder "BTCUSDT" Scenario.engine
       = Some (e', EvPlaceOrder Scenario.sellRequest :: rest, None))
  ∧ ¬ every_order_approved Scenario.today Scenario.GetPosition Scenario.PlaceOrder
        "BTCUSDT" Scenario.engine.
Proof.
  assert (Hrun : ∃ e' rest,
       Engine.processSymbolSignals Scenario.today Scenario.GetPosition
         Scenario.PlaceOrder "BTCUSDT" Scenario.engine
       = Some (e', EvPlaceOrder Scenario.sellRequest :: rest, None)).
  { eexists _, _. vm_compute. reflexivity. }
  split; [vm_compute; reflexivity|]. split; [exact Hrun|].
  destruct Hrun as (e' & rest & Hrun). intros Hclaim.
  destruct (Hclaim _ _ _ Hrun 0%nat Scenario.sellRequest eq_refl I)
    as (j & _ & Hj & _). lia.
Qed.

(** * Further properties of the code *)

(** ** RiskManager: which checks decide *)

Section RiskGate.
Local Open Scope Q_scope.
Import RiskManager.

Lemma reset_config now rm : config (resetDailyCountersIfNeeded now rm) = config rm.
Proof. unfold resetDailyCountersIfNeeded. by destruct (dateDiffers _ _). Qed.

Lemma reset_idempotent now rm :
  resetDailyCountersIfNeeded now (resetDailyCountersIfNeeded now rm)
  = resetDailyCountersIfNeeded now rm.
Proof.
  apply reset_same_date. unfold resetDailyCountersIfNeeded.
  destruct (dateDiffers now (lastResetDate rm)) eqn:E; [done|].
  by apply dateDiffers_false.
Qed.

Lemma scale_le (a b r : Q) : a <= b → 0 <= r → a * (r / 100) <= b * (r / 100).
Proof.
  intros Hab Hr. unfold Qdiv. change (/ 100) with (1 # 100).
  assert (H : 0 <= (b - a) * (r * (1 # 100))).
  { apply Qmult_le_0_compat; lra. }
  lra.
Qed.
End RiskGate.

(** X1. When the per-trade risk percentage is not negative, the verdict of
    [ValidateOrder] is decided by four of its six checks: trading allowed,
    order size, position size and exposure.  The daily-loss check repeats a
    test of [isTradingAllowed], and the risk-per-trade check compares the
    notional and the maximum position size scaled by the same factor, so
    neither rejects an order that the others let through. *)
Theorem X1_validate_order_four_checks (now : Time.t) (order : OrderInfo.t)
    (rm : RiskManager.t) :
  (0 <= RiskConfig.RiskPerTrade (RiskManager.config rm))%Q →
  let rm' := RiskManager.resetDailyCountersIfNeeded now rm in
  snd (RiskManager.ValidateOrder now order rm)
  = RiskManager.isTradingAllowed rm' && RiskManager.validateOrderSize rm' order
    && RiskManager.validatePositionSize rm' order
    && RiskManager.validateExposureLimit rm' order.
Proof.
  intros Hrisk rm'. rewrite ValidateOrder_result. fold rm'.
  assert (Hloss : RiskManager.isTradingAllowed rm' = true →
                  RiskManager.validateDailyLossLimit rm' order = true).
  { intros Ha. apply not_false_iff_true. intros Hf.
    apply validateDailyLossLimit_false in Hf.
    assert (RiskManager.isTradingAllowed rm' = false)
      by (apply isTradingAllowed_false; by right).
    congruence. }
  assert (Hper : RiskManager.validatePositionSize rm' order = true →
                 RiskManager.validateRiskPerTrade rm' order = true).
  { intros Hp. apply not_false_iff_true. intros Hf.
    apply validateRiskPerTrade_false in Hf.
    apply not_false_iff_true in Hp. apply Hp, validatePositionSize_false.
    destruct (Qlt_le_dec (RiskConfig.MaxPositionSize (RiskManager.config rm'))
                (RiskManager.orderValue order)) as [Hlt|Hle]; [done|].
    exfalso. subst rm'. rewrite reset_config in *.
    pose proof (scale_le _ _ _ Hle Hrisk). lra. }
  destruct (RiskManager.isTradingAllowed rm'); simpl; [|done].
  rewrite Hloss by done.
  destruct (RiskManager.validateOrderSize rm' order); simpl; [|done].
  destruct (RiskManager.validatePositionSize rm' order); simpl; [|done].
  rewrite Hper by done. by rewrite andb_true_r.
Qed.

Lemma X1_validate_order_four_checks_witness :
  let today := Time.mk 2026 3 3 61200 1772557200 in
  let rm :=
    RiskManager.mk (RiskConfig.mk 1000 2 5 500 5 1 0 0 10 0 0 0)
      0 0 today 900 1000 in
  let order := OrderInfo.mk "BTCUSDT" "BUY" 3 50 in
  (0 <= RiskConfig.RiskPerTrade (RiskManager.config rm))%Q
  ∧ snd (RiskManager.ValidateOrder today order rm)
    = RiskManager.isTradingAllowed rm && RiskManager.validateOrderSize rm order
      && RiskManager.validatePositionSize rm order
      && RiskManager.validateExposureLimit rm order.
Proof.
  intros today rm order.
  assert (H : (0 <= RiskConfig.RiskPerTrade (RiskManager.config rm))%Q)
    by (vm_compute; discriminate).
  split; [exact H|]. exact (X1_validate_order_four_checks today order rm H).
Defined.

(** ** RiskManager: a limit that is not positive *)

Section NoBudget.
Local Open Scope Q_scope.
Import RiskManager.

Lemma exhausted_reset cfg now rm :
  RiskConfig.MaxDailyLoss cfg <= 0 → exhausted cfg rm →
  exhausted cfg (resetDailyCountersIfNeeded now rm).
Proof.
  intros Hmax [Hc Hl]. unfold resetDailyCountersIfNeeded.
  destruct (dateDiffers _ _); by split.
Qed.

Lemma exhausted_step cfg op rm :
  RiskConfig.MaxDailyLoss cfg <= 0 → exhausted cfg rm → adds_no_profit op →
  exhausted cfg (fst (step op rm))
  ∧ (snd (step op rm) = None ∨ snd (step op rm) = Some false).
Proof.
  intros Hmax Hex Hop.
  destruct op as [now order|now loss|now| |now|]; simpl in *.
  - pose proof (exhausted_reset _ now _ Hmax Hex) as [Hc Hl].
    pose proof (ValidateOrder_state now order rm) as Hs.
    pose proof (ValidateOrder_result now order rm) as Hr. simpl in Hr.
    destruct (ValidateOrder now order rm) as [rm' ok]. simpl in *. subst rm'.
    split; [by split|]. right. f_equal. rewrite Hr.
    replace (isTradingAllowed _) with false; [done|].
    symmetry. apply isTradingAllowed_false. right. by rewrite Hc.
  - pose proof (exhausted_reset _ now _ Hmax Hex) as [Hc Hl].
    split; [|by left]. split; simpl; [done|]. lra.
  - pose proof (exhausted_reset _ now _ Hmax Hex) as [Hc Hl].
    split; [|by left]. by split.
  - destruct Hex. split; [|by left]. by split.
  - split; [|by left]. by apply exhausted_reset.
  - destruct Hex as [Hc Hl]. split; [|by left]. split; simpl; [done|].
    rewrite Hc. lra.
Qed.

Lemma exhausted_run cfg ops : ∀ rm,
  RiskConfig.MaxDailyLoss cfg <= 0 → exhausted cfg rm →
  Forall adds_no_profit ops →
  Forall (eq false) (snd (run ops rm)).
Proof.
  induction ops as [|op ops IH]; intros rm Hmax Hex Hops; simpl; [done|].
  inversion_clear Hops as [|? ? Hop Hops'].
  destruct (exhausted_step _ op rm Hmax Hex Hop) as [Hex1 Hres].
  destruct (step op rm) as [rm1 res]. simpl in *.
  specialize (IH rm1 Hmax Hex1 Hops').
  destruct (run ops rm1) as [rm2 results]. simpl in *.
  destruct Hres as [-> | ->]; [done|]. by constructor.
Qed.
End NoBudget.

(** X2. A risk manager created with a maximum daily loss that is zero or
    negative never approves an order: every [ValidateOrder] of every later
    sequence of operations is rejected, on the day of creation and on any
    later day (the daily reset puts dailyLoss back to 0, which already
    reaches such a limit), as long as no [UpdateDailyLoss] carries a negative
    amount. *)
Theorem X2_non_positive_daily_limit_blocks (now : Time.t) (cfg : RiskConfig.t)
    (ops : list RiskManager.Op) :
  (RiskConfig.MaxDailyLoss cfg <= 0)%Q →
  Forall adds_no_profit ops →
  Forall (eq false) (snd (RiskManager.run ops (RiskManager.NewRiskManager now cfg))).
Proof.
  intros Hmax Hops. apply (exhausted_run cfg); [done| |done].
  by split.
Qed.

Lemma X2_non_positive_daily_limit_blocks_witness :
  let monday := Time.mk 2026 3 2 86340 1772495940 in
  let tuesday := Time.mk 2026 3 3 61200 1772557200 in
  let cfg := RiskConfig.mk 1000 2 5 0 5 1 0 0 10 0 0 0 in
  let order := OrderInfo.mk "BTCUSDT" "BUY" 1 100 in
  let ops := [RiskManager.OpValidateOrder monday order;
              RiskManager.OpUpdateDailyLoss monday 25;
              RiskManager.OpValidateOrder tuesday order] in
  (RiskConfig.MaxDailyLoss cfg <= 0)%Q
  ∧ Forall adds_no_profit ops
  ∧ Forall (eq false)
      (snd (RiskManager.run ops (RiskManager.NewRiskManager monday cfg))).
Proof.
  intros monday tuesday cfg order ops.
  assert (Hmax : (RiskConfig.MaxDailyLoss cfg <= 0)%Q) by (vm_compute; discriminate).
  assert (Hops : Forall adds_no_profit ops)
    by (repeat constructor; simpl; discriminate).
  split; [exact Hmax|]. split; [exact Hops|].
  exact (X2_non_positive_daily_limit_blocks monday cfg ops Hmax Hops).
Defined.

(** ** RiskManager: the daily trade cap and the metrics *)

Section TradeCap.
Local Open Scope Q_scope.
Import RiskManager.

Lemma recordTrades_state n now rm :
  same_date now (lastResetDate rm) →
  recordTrades n now rm
  = mk (config rm) (dailyLoss rm) (dailyTrades rm + Z.of_nat n)
       (lastResetDate rm) (totalExposure rm) (maxExposure rm).
Proof.
  intros Hd. induction n as [|n IH].
  - simpl. replace (dailyTrades rm + Z.of_nat 0)%Z with (dailyTrades rm) by lia.
    by destruct rm.
  - unfold recordTrades in *. simpl. rewrite IH. unfold UpdateDailyTrades.
    rewrite reset_same_date by done. simpl. f_equal. lia.
Qed.
End TradeCap.

(** X3. With a trade cap configured (MaxOpenPositions > 0), trades recorded
    by [UpdateDailyTrades] on the date of the last reset add up in
    dailyTrades, and once the count has reached the cap every order
    validated on that date is rejected, whatever its size. *)
Theorem X3_daily_trade_cap (now : Time.t) (n : nat) (order : OrderInfo.t)
    (rm : RiskManager.t) :
  same_date now (RiskManager.lastResetDate rm) →
  (0 < RiskConfig.MaxOpenPositions (RiskManager.config rm))%Z →
  let rm' := recordTrades n now rm in
  RiskManager.dailyTrades rm' = (RiskManager.dailyTrades rm + Z.of_nat n)%Z
  ∧ ((RiskConfig.MaxOpenPositions (RiskManager.config rm)
      ≤ RiskManager.dailyTrades rm + Z.of_nat n)%Z →
     snd (RiskManager.ValidateOrder now order rm') = false).
Proof.
  intros Hd Hcap rm'. subst rm'. rewrite recordTrades_state by done.
  split; [done|]. intros Hfull.
  rewrite ValidateOrder_result, reset_same_date by done.
  replace (RiskManager.isTradingAllowed _) with false; [done|].
  symmetry. apply isTradingAllowed_false. left. simpl. lia.
Qed.

Lemma X3_daily_trade_cap_witness :
  let today := Time.mk 2026 3 3 61200 1772557200 in
  let rm :=
    RiskManager.mk (RiskConfig.mk 1000 2 5 500 5 1 0 3 10 0 0 0)
      0 1 today 0 10000 in
  let order := OrderInfo.mk "BTCUSDT" "BUY" 1 100 in
  same_date today (RiskManager.lastResetDate rm)
  ∧ (0 < RiskConfig.MaxOpenPositions (RiskManager.config rm))%Z
  ∧ snd (RiskManager.ValidateOrder today order rm) = true
  ∧ RiskManager.dailyTrades (recordTrades 2 today rm) = 3%Z
  ∧ snd (RiskManager.ValidateOrder today order (recordTrades 2 today rm)) = false.
Proof.
  intros today rm order.
  assert (Hd : same_date today (RiskManager.lastResetDate rm)) by (repeat split).
  assert (Hcap : (0 < RiskConfig.MaxOpenPositions (RiskManager.config rm))%Z)
    by (vm_compute; reflexivity).
  destruct (X3_daily_trade_cap today 2 order rm Hd Hcap) as [Hcount Hrej].
  split; [exact Hd|]. split; [exact Hcap|]. split; [vm_compute; reflexivity|].
  split; [exact Hcount|]. apply Hrej. vm_compute. discriminate.
Defined.

(** X4. The metrics of [GetRiskMetrics] agree with the gate: the remaining
    risk is never negative; when it is zero, or when TradingAllowed is
    false, every order validated at the same clock reading is rejected, from
    the manager as it was or as [GetRiskMetrics] left it. *)
Theorem X4_metrics_agree_with_gate (now : Time.t) (rm : RiskManager.t)
    (order : OrderInfo.t) :
  let rm' := fst (RiskManager.GetRiskMetrics now rm) in
  let metrics := snd (RiskManager.GetRiskMetrics now rm) in
  (0 <= RiskMetrics.RemainingRisk metrics)%Q
  ∧ (RiskMetrics.RemainingRisk metrics == 0 →
     RiskMetrics.TradingAllowed metrics = false)%Q
  ∧ (RiskMetrics.TradingAllowed metrics = false →
     snd (RiskManager.ValidateOrder now order rm) = false
     ∧ snd (RiskManager.ValidateOrder now order rm') = false).
Proof.
  intros rm' metrics. subst rm' metrics. unfold RiskManager.GetRiskMetrics. simpl.
  set (r := RiskManager.resetDailyCountersIfNeeded now rm).
  split; [apply Q.le_max_l|]. split.
  - intros Hz. apply isTradingAllowed_false. right.
    pose proof (Q.le_max_r 0 (RiskConfig.MaxDailyLoss (RiskManager.config r)
                              - RiskManager.dailyLoss r)) as Hm.
    rewrite Hz in Hm. lra.
  - intros Hna. rewrite !ValidateOrder_result. subst r.
    rewrite reset_idempotent, Hna. done.
Qed.

(** ** RiskManager: exits and sizing *)

Section Exits.
Local Open Scope Q_scope.
Import RiskTools.

Lemma percent_not_negative (p : Q) : 0 <= p → 0 <= p / 100.
Proof. intros H. unfold Qdiv. change (/ 100) with (1 # 100). lra. Qed.

Lemma percent_pos (p : Q) : 0 < p → 0 < p / 100.
Proof. intros H. unfold Qdiv. change (/ 100) with (1 # 100). lra. Qed.

Lemma percent_at_most_1 (p : Q) : p <= 100 → p / 100 <= 1.
Proof. intros H. unfold Qdiv. change (/ 100) with (1 # 100). lra. Qed.

Lemma not_above_entry (entry f : Q) : 0 < entry → 0 <= f → entry * (1 - f) <= entry.
Proof.
  intros He Hf. assert (0 <= entry * f) by (apply Qmult_le_0_compat; lra). lra.
Qed.

Lemma not_below_entry (entry f : Q) : 0 < entry → 0 <= f → entry <= entry * (1 + f).
Proof.
  intros He Hf. assert (0 <= entry * f) by (apply Qmult_le_0_compat; lra). lra.
Qed.

Lemma below_entry (entry f : Q) : 0 < entry → 0 < f → entry * (1 - f) < entry.
Proof.
  intros He Hf. assert (0 < entry * f) by (apply Qmult_lt_0_compat; lra). lra.
Qed.

Lemma above_entry (entry f : Q) : 0 < entry → 0 < f → entry < entry * (1 + f).
Proof.
  intros He Hf. assert (0 < entry * f) by (apply Qmult_lt_0_compat; lra). lra.
Qed.

Lemma margin_pos (entry : Q) : 0 < entry → 0 < decisionMargin * entry.
Proof. intros He. apply Qmult_lt_0_compat; [reflexivity | done]. Qed.

(** The exit prices of a long position around its entry. *)
Lemma long_exits rm entry :
  0 < entry →
  0 <= RiskConfig.StopLossPercent (RiskManager.config rm) →
  0 <= RiskConfig.TakeProfitPercent (RiskManager.config rm) →
  CalculateStopLoss rm entry "BUY" <= entry
  ∧ entry <= CalculateTakeProfit rm entry "BUY".
Proof.
  intros He Hs Ht. unfold CalculateStopLoss, CalculateTakeProfit. simpl.
  split; [apply not_above_entry | apply not_below_entry];
    try done; by apply percent_not_negative.
Qed.

(** The exit prices of a short position around its entry. *)
Lemma short_exits rm entry :
  0 < entry →
  0 <= RiskConfig.StopLossPercent (RiskManager.config rm) →
  0 <= RiskConfig.TakeProfitPercent (RiskManager.config rm) →
  CalculateTakeProfit rm entry "SELL" <= entry
  ∧ entry <= CalculateStopLoss rm entry "SELL".
Proof.
  intros He Hs Ht. unfold CalculateStopLoss, CalculateTakeProfit. simpl.
  split; [apply not_above_entry | apply not_below_entry];
    try done; by apply percent_not_negative.
Qed.
End Exits.

(** X5. For a positive entry price and stop-loss and take-profit percentages
    that are not negative, [CalculateStopLoss] and [CalculateTakeProfit]
    bracket the entry: for side BUY or LONG the stop is at most the entry
    and the take-profit at least the entry; for every other side string it
    is the reverse.  The exit on the lower side is not negative when its
    percentage is at most 100.  An exit differs from the entry when the
    entry is between 2^-200 and 2^200 and the exit's percentage is at least
    10^-9. *)
Theorem X5_exit_prices_bracket_entry (rm : RiskManager.t) (entry : Q)
    (side : string) :
  (0 < entry)%Q →
  (0 <= RiskConfig.StopLossPercent (RiskManager.config rm))%Q →
  (0 <= RiskConfig.TakeProfitPercent (RiskManager.config rm))%Q →
  let stop := RiskTools.CalculateStopLoss rm entry side in
  let take := RiskTools.CalculateTakeProfit rm entry side in
  let stopPercent := RiskConfig.StopLossPercent (RiskManager.config rm) in
  let takePercent := RiskConfig.TakeProfitPercent (RiskManager.config rm) in
  (if RiskTools.isLongSide side
   then stop <= entry ∧ entry <= take
        ∧ (stopPercent <= 100 → 0 <= stop)
        ∧ (ordinary entry → decisionMargin <= stopPercent → stop < entry)
        ∧ (ordinary entry → decisionMargin <= takePercent → entry < take)
   else take <= entry ∧ entry <= stop
        ∧ (takePercent <= 100 → 0 <= take)
        ∧ (ordinary entry → decisionMargin <= takePercent → take < entry)
        ∧ (ordinary entry → decisionMargin <= stopPercent → entry < stop))%Q.
Proof.
  intros He Hs Ht stop take stopPercent takePercent.
  subst stop take. unfold RiskTools.CalculateStopLoss, RiskTools.CalculateTakeProfit.
  fold stopPercent takePercent.
  pose proof (percent_not_negative _ Hs) as Hs'. pose proof (percent_not_negative _ Ht) as Ht'.
  fold stopPercent in Hs'. fold takePercent in Ht'.
  assert (Hm : (0 < decisionMargin)%Q) by reflexivity.
  destruct (RiskTools.isLongSide side).
  - split; [by apply not_above_entry|]. split; [by apply not_below_entry|].
    split; [|split].
    + intros Hle. apply percent_at_most_1 in Hle. apply Qmult_le_0_compat; lra.
    + intros _ Hge. apply below_entry; [done|]. apply percent_pos. lra.
    + intros _ Hge. apply above_entry; [done|]. apply percent_pos. lra.
  - split; [by apply not_above_entry|]. split; [by apply not_below_entry|].
    split; [|split].
    + intros Hle. apply percent_at_most_1 in Hle. apply Qmult_le_0_compat; lra.
    + intros _ Hge. apply below_entry; [done|]. apply percent_pos. lra.
    + intros _ Hge. apply above_entry; [done|]. apply percent_pos. lra.
Qed.

Lemma X5_exit_prices_bracket_entry_witness :
  let rm :=
    RiskManager.mk (RiskConfig.mk 1000 2 5 500 5 1 0 0 10 0 0 0)
      0 0 (Time.mk 2026 3 3 61200 1772557200) 0 10000 in
  (0 < 100)%Q
  ∧ (0 <= RiskConfig.StopLossPercent (RiskManager.config rm))%Q
  ∧ (0 <= RiskConfig.TakeProfitPercent (RiskManager.config rm))%Q
  ∧ (RiskTools.CalculateStopLoss rm 100 "LONG" <= 100
     ∧ 100 <= RiskTools.CalculateTakeProfit rm 100 "LONG")%Q
  ∧ (RiskTools.CalculateTakeProfit rm 100 "SELL" <= 100
     ∧ 100 <= RiskTools.CalculateStopLoss rm 100 "SELL")%Q.
Proof.
  intros rm.
  assert (He : (0 < 100)%Q) by reflexivity.
  assert (Hs : (0 <= RiskConfig.StopLossPercent (RiskManager.config rm))%Q)
    by (vm_compute; discriminate).
  assert (Ht : (0 <= RiskConfig.TakeProfitPercent (RiskManager.config rm))%Q)
    by (vm_compute; discriminate).
  pose proof (X5_exit_prices_bracket_entry rm 100 "LONG" He Hs Ht) as Hlong.
  pose proof (X5_exit_prices_bracket_entry rm 100 "SELL" He Hs Ht) as Hshort.
  simpl in Hlong, Hshort.
  destruct Hlong as (Hstop & Htake & _). destruct Hshort as (Htake' & Hstop' & _).
  split; [exact He|]. split; [exact Hs|]. split; [exact Ht|].
  split; [split; [exact Hstop | exact Htake] | split; [exact Htake' | exact Hstop']].
Defined.

Section Sizing.
Local Open Scope Q_scope.

Lemma with_margin_above (a : Q) : 0 <= a → a <= a * (1 + decisionMargin).
Proof. intros H. unfold decisionMargin. lra. Qed.

Lemma with_margin_below (a : Q) : 0 <= a → a * (1 - decisionMargin) <= a.
Proof. intros H. unfold decisionMargin. lra. Qed.

(** The result of [CalculatePositionSize] in exact arithmetic, before any
    rounding. *)
Lemma CalculatePositionSize_exact rm accountBalance entryPrice stopLoss :
  0 < entryPrice → 0 < RiskTools.Abs (entryPrice - stopLoss) →
  let quantity :=
    RiskTools.CalculatePositionSize rm accountBalance entryPrice stopLoss in
  let budget :=
    accountBalance * (RiskConfig.RiskPerTrade (RiskManager.config rm) / 100) in
  quantity * entryPrice <= RiskConfig.MaxPositionSize (RiskManager.config rm)
  ∧ quantity * RiskTools.Abs (entryPrice - stopLoss) <= budget
  ∧ (quantity * entryPrice < RiskConfig.MaxPositionSize (RiskManager.config rm) →
     quantity * RiskTools.Abs (entryPrice - stopLoss) == budget).
Proof.
  intros He Hd quantity budget. subst quantity.
  unfold RiskTools.CalculatePositionSize. fold budget.
  set (d := RiskTools.Abs (entryPrice - stopLoss)) in *.
  set (maxSize := RiskConfig.MaxPositionSize (RiskManager.config rm)).
  assert (He' : ¬ (entryPrice == 0)%Q) by lra.
  assert (Hd' : ¬ (d == 0)%Q) by lra.
  assert (Hq : (budget / (d / entryPrice) / entryPrice == budget / d)%Q)
    by (field; split; assumption).
  assert (Hqd : (budget / d * d == budget)%Q) by (field; assumption).
  assert (Hme : (maxSize / entryPrice * entryPrice == maxSize)%Q)
    by (field; assumption).
  case_cmp Hcap.
  - rewrite Hq in Hcap. rewrite Hme. split; [lra|].
    assert (Hle : (maxSize / entryPrice * d <= budget / d * d)%Q).
    { apply Qmult_le_compat_r; lra. }
    split; [lra|]. intros Hlt. lra.
  - rewrite Hq in *. rewrite Hqd.
    assert (Hle : (budget / d * entryPrice <= maxSize / entryPrice * entryPrice)%Q).
    { apply Qmult_le_compat_r; lra. }
    split; [lra|]. split; [lra|]. intros _. lra.
Qed.
End Sizing.

(** X6. [CalculatePositionSize], up to a relative margin of 10^-9.  For an
    account balance, a per-trade risk percentage, an entry price, a maximum
    position size and a stop distance |entry − stop| that all lie between
    2^-200 and 2^200, the quantity returned has a notional at the entry of at
    most the maximum position size x (1 + 10^-9), and a loss at the stop,
    quantity x |entry − stop|, of at most the risk budget
    balance x RiskPerTrade / 100 x (1 + 10^-9); when the notional is at most
    the maximum position size x (1 − 10^-9), the loss at the stop is at
    least the budget x (1 − 10^-9). *)
Theorem X6_position_size_within_limits (rm : RiskManager.t)
    (accountBalance entryPrice stopLoss : Q) :
  ordinary accountBalance →
  ordinary (RiskConfig.RiskPerTrade (RiskManager.config rm)) →
  ordinary entryPrice →
  ordinary (RiskConfig.MaxPositionSize (RiskManager.config rm)) →
  ordinary (RiskTools.Abs (entryPrice - stopLoss)) →
  let quantity :=
    RiskTools.CalculatePositionSize rm accountBalance entryPrice stopLoss in
  let budget :=
    (accountBalance * (RiskConfig.RiskPerTrade (RiskManager.config rm) / 100))%Q in
  let maxSize := RiskConfig.MaxPositionSize (RiskManager.config rm) in
  (quantity * entryPrice <= maxSize * (1 + decisionMargin)
   ∧ quantity * RiskTools.Abs (entryPrice - stopLoss)
     <= budget * (1 + decisionMargin)
   ∧ (quantity * entryPrice <= maxSize * (1 - decisionMargin) →
      budget * (1 - decisionMargin)
      <= quantity * RiskTools.Abs (entryPrice - stopLoss)))%Q.
Proof.
  intros Hbalance Hrisk Hentry Hsize Hdist quantity budget maxSize.
  pose proof (ordinary_pos _ Hbalance) as Hb. pose proof (ordinary_pos _ Hrisk) as Hr.
  pose proof (ordinary_pos _ Hentry) as He. pose proof (ordinary_pos _ Hsize) as Hs.
  pose proof (ordinary_pos _ Hdist) as Hd.
  assert (Hbudget : (0 < budget)%Q).
  { subst budget. apply Qmult_lt_0_compat; [done|].
    unfold Qdiv. change (/ 100)%Q with (1 # 100)%Q. lra. }
  destruct (CalculatePositionSize_exact rm accountBalance entryPrice stopLoss He Hd)
    as (Hnotional & Hloss & Hexact).
  fold quantity budget maxSize in Hnotional, Hloss, Hexact.
  fold maxSize in Hs.
  assert (H1 : (maxSize <= maxSize * (1 + decisionMargin))%Q)
    by (apply with_margin_above; lra).
  assert (H2 : (budget <= budget * (1 + decisionMargin))%Q)
    by (apply with_margin_above; lra).
  assert (H3 : (budget * (1 - decisionMargin) <= budget)%Q)
    by (apply with_margin_below; lra).
  assert (H4 : (maxSize * (1 - decisionMargin) < maxSize)%Q)
    by (unfold decisionMargin; lra).
  split; [lra|]. split; [lra|].
  intros Hbelow.
  assert (Hlt : (quantity * entryPrice < maxSize)%Q) by lra.
  rewrite (Hexact Hlt). exact H3.
Qed.

Lemma X6_position_size_within_limits_witness :
  let rm :=
    RiskManager.mk (RiskConfig.mk 1000 2 5 500 5 1 0 0 10 0 0 0)
      0 0 (Time.mk 2026 3 3 61200 1772557200) 0 10000 in
  let quantity := RiskTools.CalculatePositionSize rm 10000 100 90 in
  ordinary 10000 ∧ ordinary 100 ∧ ordinary (RiskTools.Abs (100 - 90))
  ∧ (quantity * 100 <= 1000 * (1 + decisionMargin))%Q
  ∧ (quantity * RiskTools.Abs (100 - 90)
     <= 10000 * (1 / 100) * (1 + decisionMargin))%Q.
Proof.
  intros rm quantity.
  assert (Hbalance : ordinary 10000) by (split; vm_compute; discriminate).
  assert (Hrisk : ordinary (RiskConfig.RiskPerTrade (RiskManager.config rm)))
    by (split; vm_compute; discriminate).
  assert (Hentry : ordinary 100) by (split; vm_compute; discriminate).
  assert (Hsize : ordinary (RiskConfig.MaxPositionSize (RiskManager.config rm)))
    by (split; vm_compute; discriminate).
  assert (Hdist : ordinary (RiskTools.Abs (100 - 90)))
    by (split; vm_compute; discriminate).
  destruct (X6_position_size_within_limits rm 10000 100 90
              Hbalance Hrisk Hentry Hsize Hdist) as (Hnotional & Hloss & _).
  split; [exact Hbalance|]. split; [exact Hentry|]. split; [exact Hdist|].
  split; [exact Hnotional | exact Hloss].
Defined.

(** X7. [ShouldClosePosition], away from its thresholds.  Let the entry
    price lie between 2^-200 and 2^200, the stop-loss percentage between
    2^-200 and 100, the take-profit percentage between 0 and 100, the
    position value differ from zero, and let m = 10^-9 x entry.  The function
    answers "closed" exactly when it gives a reason.  A LONG position is closed
    for "Stop loss triggered" when its price is at most the long stop − m,
    and for "Take profit triggered" when its price is at least the long
    take-profit + m; a SHORT position is closed for "Stop loss triggered"
    when its price is at least the short stop + m, and for "Take profit
    triggered" when its price is at most the short take-profit − m.  A
    position whose price is inside the band of its side by m, and a position
    of any other side, is decided by the last test: closed for "Maximum loss
    exceeded" when |UnrealizedPnL / Value| x 100 is at least twice the
    stop-loss percentage x (1 + 10^-9), left open when it is at most twice
    the stop-loss percentage x (1 − 10^-9).  The last test takes the
    absolute value, so it closes a position on a large gain as well as on a
    large loss. *)
Theorem X7_close_decision (rm : RiskManager.t) (position : PortfolioPosition.t) :
  let side := PortfolioPosition.Side position in
  let current := PortfolioPosition.CurrentPrice position in
  let entry := PortfolioPosition.EntryPrice position in
  let stopPercent := RiskConfig.StopLossPercent (RiskManager.config rm) in
  let takePercent := RiskConfig.TakeProfitPercent (RiskManager.config rm) in
  let m := (decisionMargin * entry)%Q in
  let result := RiskTools.ShouldClosePosition rm position in
  ordinary entry →
  ordinary stopPercent → (stopPercent <= 100)%Q →
  (0 <= takePercent)%Q → (takePercent <= 100)%Q →
  ¬ (PortfolioPosition.Value position == 0)%Q →
  (fst result = false ↔ snd result = "")
  ∧ (side = "LONG" →
     ((current <= RiskTools.CalculateStopLoss rm entry "BUY" - m)%Q →
      result = (true, "Stop loss triggered"))
     ∧ ((RiskTools.CalculateTakeProfit rm entry "BUY" + m <= current)%Q →
        result = (true, "Take profit triggered"))
     ∧ ((RiskTools.CalculateStopLoss rm entry "BUY" + m <= current)%Q →
        (current <= RiskTools.CalculateTakeProfit rm entry "BUY" - m)%Q →
        decidedByLossTest rm position result))
  ∧ (side = "SHORT" →
     ((RiskTools.CalculateStopLoss rm entry "SELL" + m <= current)%Q →
      result = (true, "Stop loss triggered"))
     ∧ ((current <= RiskTools.CalculateTakeProfit rm entry "SELL" - m)%Q →
        result = (true, "Take profit triggered"))
     ∧ ((RiskTools.CalculateTakeProfit rm entry "SELL" + m <= current)%Q →
        (current <= RiskTools.CalculateStopLoss rm entry "SELL" - m)%Q →
        decidedByLossTest rm position result))
  ∧ (side ≠ "LONG" → side ≠ "SHORT" → decidedByLossTest rm position result).
Proof.
  intros side current entry stopPercent takePercent m result
    Hentry Hstop Hstop100 Htake Htake100 _.
  pose proof (ordinary_pos _ Hentry) as He.
  pose proof (ordinary_pos _ Hstop) as Hs.
  pose proof (margin_pos _ He) as Hm. fold m in Hm.
  destruct (long_exits rm entry He) as [HsL HtL]; [subst stopPercent; lra|done|].
  destruct (short_exits rm entry He) as [HtS HsS]; [subst stopPercent; lra|done|].
  assert (Hup : (stopPercent * 2 < stopPercent * 2 * (1 + decisionMargin))%Q).
  { unfold decisionMargin. lra. }
  assert (Hdown : (stopPercent * 2 * (1 - decisionMargin) < stopPercent * 2)%Q).
  { unfold decisionMargin. lra. }
  subst result. unfold decidedByLossTest, RiskTools.ShouldClosePosition.
  fold side current entry stopPercent.
  destruct (String.eqb_spec side "LONG") as [HL|HL];
    destruct (String.eqb_spec side "SHORT") as [HS|HS];
    try (exfalso; congruence); cbn [andb].
  all: repeat (let H := fresh "H" in case_cmp H; cbn [fst snd]).
  all: repeat split; intros; try done; try congruence; try (exfalso; lra).
Qed.

Lemma X7_close_decision_witness :
  let rm :=
    RiskManager.mk (RiskConfig.mk 1000 2 5 500 5 1 0 0 10 0 0 0)
      0 0 (Time.mk 2026 3 3 61200 1772557200) 0 10000 in
  let held := PortfolioPosition.mk "BTCUSDT" "LONG" 1 100 101 101 1 5 in
  let winner := PortfolioPosition.mk "BTCUSDT" "LONG" 1 100 104 100 (9 # 2) 5 in
  let stopped := PortfolioPosition.mk "BTCUSDT" "LONG" 1 100 97 97 (-3) 5 in
  ordinary 100
  ∧ ordinary (RiskConfig.StopLossPercent (RiskManager.config rm))
  ∧ RiskTools.ShouldClosePosition rm held = (false, "")
  ∧ RiskTools.ShouldClosePosition rm winner = (true, "Maximum loss exceeded")
  ∧ RiskTools.ShouldClosePosition rm stopped = (true, "Stop loss triggered").
Proof.
  intros rm held winner stopped.
  assert (Hentry : ordinary 100) by (split; vm_compute; discriminate).
  assert (Hstop : ordinary (RiskConfig.StopLossPercent (RiskManager.config rm)))
    by (split; vm_compute; discriminate).
  assert (Hstop100 : (RiskConfig.StopLossPercent (RiskManager.config rm) <= 100)%Q)
    by (vm_compute; discriminate).
  assert (Htake : (0 <= RiskConfig.TakeProfitPercent (RiskManager.config rm))%Q)
    by (vm_compute; discriminate).
  assert (Htake100 : (RiskConfig.TakeProfitPercent (RiskManager.config rm) <= 100)%Q)
    by (vm_compute; discriminate).
  split; [exact Hentry|]. split; [exact Hstop|]. split; [|split].
  - destruct (X7_close_decision rm held Hentry Hstop Hstop100 Htake Htake100)
      as (_ & Hlong & _); [intros H; vm_compute in H; discriminate|].
    destruct (Hlong eq_refl) as (_ & _ & Hband).
    apply Hband; vm_compute; discriminate.
  - destruct (X7_close_decision rm winner Hentry Hstop Hstop100 Htake Htake100)
      as (_ & Hlong & _); [intros H; vm_compute in H; discriminate|].
    destruct (Hlong eq_refl) as (_ & _ & Hband).
    apply Hband; vm_compute; discriminate.
  - destruct (X7_close_decision rm stopped Hentry Hstop Hstop100 Htake Htake100)
      as (_ & Hlong & _); [intros H; vm_compute in H; discriminate|].
    destruct (Hlong eq_refl) as (Hsl & _).
    apply Hsl; vm_compute; discriminate.
Defined.

(** ** RiskManager: the sort of calculateVaR95 *)

Section SortReturns.
Local Open Scope Q_scope.
Import RiskTools.

Lemma swapIfGreater_middle (pre seen todo : list Q) (x y : Q) :
  swapIfGreater (length pre) (length pre + S (length seen))
    (pre ++ x :: seen ++ y :: todo)
  = if F64.gtb x y then pre ++ y :: seen ++ x :: todo
    else pre ++ x :: seen ++ y :: todo.
Proof.
  unfold swapIfGreater.
  rewrite list_lookup_middle by done.
  rewrite lookup_app_r by lia.
  replace (length pre + S (length seen) - length pre)%nat
    with (S (length seen)) by lia.
  simpl. rewrite list_lookup_middle by done.
  destruct (F64.gtb x y); [|done].
  rewrite insert_app_r_alt by lia.
  replace (length pre - length pre)%nat with 0%nat by lia. simpl.
  rewrite insert_app_r_alt by (simpl; lia).
  replace (length pre + S (length seen) - length pre)%nat
    with (S (length seen)) by lia.
  simpl. f_equal. f_equal.
  rewrite insert_app_r_alt by lia.
  replace (length seen - length seen)%nat with 0%nat by lia. done.
Qed.

(** The inner loop carries the minimum of the tail to position [i]. *)
Lemma sortInner_carryMin (pre : list Q) (todo : list Q) : ∀ (x : Q) (seen : list Q),
  sortInner (length pre) (length pre + S (length seen)) (length todo)
    (pre ++ x :: seen ++ todo)
  = pre ++ fst (carryMin x todo) :: seen ++ snd (carryMin x todo).
Proof.
  induction todo as [|y todo IH]; intros x seen; simpl; [done|].
  rewrite swapIfGreater_middle.
  destruct (F64.gtb x y).
  - specialize (IH y (seen ++ [x])).
    rewrite length_app in IH. simpl in IH.
    replace (length pre + S (length seen + 1))%nat
      with (S (length pre + S (length seen))) in IH by lia.
    rewrite <- !(assoc_L (++)) in IH. simpl in IH. rewrite IH.
    by destruct (carryMin y todo).
  - specialize (IH x (seen ++ [y])).
    rewrite length_app in IH. simpl in IH.
    replace (length pre + S (length seen + 1))%nat
      with (S (length pre + S (length seen))) in IH by lia.
    rewrite <- !(assoc_L (++)) in IH. simpl in IH. rewrite IH.
    by destruct (carryMin x todo).
Qed.

Lemma carryMin_spec (todo : list Q) : ∀ x,
  fst (carryMin x todo) :: snd (carryMin x todo) ≡ₚ x :: todo
  ∧ fst (carryMin x todo) <= x
  ∧ Forall (Qle (fst (carryMin x todo))) (snd (carryMin x todo)).
Proof.
  induction todo as [|y todo IH]; intros x; simpl.
  - split; [done|]. split; [lra|constructor].
  - case_cmp Hxy.
    + destruct (IH y) as (Hp & Hle & Hall).
      destruct (carryMin y todo) as [m rest]. simpl in *.
      split; [|split].
      * rewrite <- Hp. apply perm_swap.
      * lra.
      * constructor; [lra|done].
    + destruct (IH x) as (Hp & Hle & Hall).
      destruct (carryMin x todo) as [m rest]. simpl in *.
      split; [|split].
      * etrans; [apply perm_swap|]. etrans; [|apply perm_swap].
        by apply perm_skip.
      * done.
      * constructor; [lra|done].
Qed.

Lemma sortOuter_sorted (count : nat) : ∀ (pre rest : list Q),
  length rest = count →
  ∃ sorted, sortOuter (length pre) count (pre ++ rest) = pre ++ sorted
            ∧ sorted ≡ₚ rest ∧ StronglySorted Qle sorted.
Proof.
  induction count as [|count IH]; intros pre rest Hlen.
  - destruct rest; [|done]. exists []. simpl. repeat split; constructor.
  - destruct rest as [|x rest]; [done|]. simpl in Hlen. simpl sortOuter.
    replace (length (pre ++ x :: rest) - S (length pre))%nat with (length rest)
      by (rewrite length_app; simpl; lia).
    pose proof (sortInner_carryMin pre rest x []) as Hin. simpl in Hin.
    replace (length pre + 1)%nat with (S (length pre)) in Hin by lia.
    rewrite Hin. clear Hin.
    destruct (carryMin_spec rest x) as (Hp & Hle & Hall).
    destruct (carryMin x rest) as [m rest']. simpl in *.
    assert (Hlen' : length rest' = count).
    { apply Permutation_length in Hp. simpl in Hp. lia. }
    destruct (IH (pre ++ [m]) rest' Hlen') as (sorted & Hs & Hperm & Hsorted).
    rewrite length_app in Hs. simpl in Hs.
    replace (length pre + 1)%nat with (S (length pre)) in Hs by lia.
    rewrite <- !(assoc_L (++)) in Hs. simpl in Hs.
    exists (m :: sorted). split; [done|]. split.
    + by rewrite Hperm.
    + constructor; [done|]. by rewrite Hperm.
Qed.
End SortReturns.

Lemma sortReturns_sorted (returns : list Q) :
  RiskTools.sortReturns returns ≡ₚ returns
  ∧ StronglySorted Qle (RiskTools.sortReturns returns).
Proof.
  destruct (sortOuter_sorted (length returns) [] returns eq_refl)
    as (sorted & Hs & Hperm & Hsorted).
  unfold RiskTools.sortReturns. simpl in Hs. rewrite Hs. by split.
Qed.

(** X8. The in-place sort of [calculateVaR95] (for every i, every later j:
    swap when returns[i] > returns[j]) returns the same values in ascending
    order. *)
Theorem X8_sort_returns_ascending (returns : list Q) :
  RiskTools.sortReturns returns ≡ₚ returns
  ∧ StronglySorted Qle (RiskTools.sortReturns returns).
Proof.
  destruct (sortOuter_sorted (length returns) [] returns eq_refl)
    as (sorted & Hs & Hperm & Hsorted).
  unfold RiskTools.sortReturns. simpl in Hs. rewrite Hs. by split.
Qed.

(** ** RiskManager: value at risk and the portfolio check *)

Section ValueAtRisk.
Local Open Scope Q_scope.
Import RiskTools.

Lemma Abs_nonneg (a : Q) : 0 <= Abs a.
Proof. apply Qabs_nonneg. Qed.

(** [int(float64(n) * 0.05)] is n / 20. *)
Lemma percentile_index (n : nat) :
  F64.to_int (F64.of_int (Z.of_nat n) * (5 # 100)) = Z.of_nat (n / 20).
Proof.
  unfold F64.to_int, F64.of_int.
  change (Qnum (inject_Z (Z.of_nat n) * (5 # 100))) with (Z.of_nat n * 5)%Z.
  change (Z.pos (Qden (inject_Z (Z.of_nat n) * (5 # 100)))) with (20 * 5)%Z.
  rewrite Z.quot_div_nonneg by lia.
  rewrite Z.div_mul_cancel_r by lia.
  by rewrite Nat2Z.inj_div.
Qed.

Lemma sortReturns_length (returns : list Q) :
  length (sortReturns returns) = length returns.
Proof.
  destruct (sortOuter_sorted (length returns) [] returns eq_refl)
    as (sorted & Hs & Hperm & _).
  unfold sortReturns. simpl in Hs. rewrite Hs. by apply Permutation_length.
Qed.

Lemma calculateVaR95_value (returns : list Q) :
  returns ≠ [] →
  ∃ x, sortReturns returns !! (length returns / 20)%nat = Some x
       ∧ calculateVaR95 returns = Some (Abs x).
Proof.
  intros Hne. unfold calculateVaR95, len.
  assert (Hpos : (0 < length returns)%nat) by (destruct returns; [done|simpl; lia]).
  destruct (Z.eqb_spec (Z.of_nat (length returns)) 0) as [|_]; [lia|].
  rewrite sortReturns_length, percentile_index.
  assert (Hlt : (length returns / 20 < length returns)%nat)
    by (apply Nat.div_lt; lia).
  destruct (Z.geb_spec (Z.of_nat (length returns / 20)) (Z.of_nat (length returns)))
    as [|_]; [lia|].
  destruct (Z.ltb_spec (Z.of_nat (length returns / 20)) 0) as [|_]; [lia|].
  rewrite Nat2Z.id.
  destruct (lookup_lt_is_Some_2 (sortReturns returns) (length returns / 20)%nat)
    as [x Hx]; [by rewrite sortReturns_length|].
  exists x. by rewrite Hx.
Qed.

Lemma totals_exposure (positions : list PortfolioPosition.t) :
  ∀ v p e, Abs v <= e →
  let '(v', _, e') :=
    fold_left
      (λ '(totalValue, totalPnL, totalExposure) pos,
         (totalValue + PortfolioPosition.Value pos,
          totalPnL + PortfolioPosition.UnrealizedPnL pos,
          totalExposure + Abs (PortfolioPosition.Value pos)))
      positions (v, p, e) in
  Abs v' <= e'.
Proof.
  induction positions as [|pos positions IH]; intros v p e Hve; simpl; [done|].
  apply IH. pose proof (Qabs_triangle v (PortfolioPosition.Value pos)) as Ht.
  unfold Abs in *. lra.
Qed.
End ValueAtRisk.

(** X9. [calculateVaR95] always returns a value that is not negative: 0 for
    no returns, otherwise the absolute value of the return of rank
    len / 20 in ascending order (its index is always in range).  With fewer
    than 20 returns this is the absolute value of the smallest return. *)
Theorem X9_var95_low_return (returns : list Q) :
  ∃ var95,
    RiskTools.calculateVaR95 returns = Some var95
    ∧ (0 <= var95)%Q
    ∧ (returns = [] → var95 = 0%Q)
    ∧ (returns ≠ [] →
       ∃ x, RiskTools.sortReturns returns !! (length returns / 20)%nat = Some x
            ∧ var95 = RiskTools.Abs x
            ∧ x ∈ returns
            ∧ ((length returns < 20)%nat → Forall (Qle x) returns)).
Proof.
  destruct returns as [|r returns].
  - exists 0%Q. repeat split; done.
  - destruct (calculateVaR95_value (r :: returns)) as (x & Hx & Hv); [done|].
    exists (RiskTools.Abs x). split; [done|]. split; [apply Abs_nonneg|].
    split; [done|]. intros _. exists x. split; [done|]. split; [done|].
    destruct (sortReturns_sorted (r :: returns)) as [Hperm Hsorted].
    split.
    + rewrite <- Hperm. by eapply list_elem_of_lookup_2.
    + intros Hfew. rewrite Nat.div_small in Hx by done.
      rewrite <- Hperm.
      destruct (RiskTools.sortReturns (r :: returns)) as [|y sorted]; [done|].
      simpl in Hx. injection Hx as ->.
      apply StronglySorted_inv in Hsorted as [_ Hall].
      constructor; [apply Qle_refl | done].
Qed.

Lemma calculateVaR95_total (returns : list Q) :
  ∃ var95, RiskTools.calculateVaR95 returns = Some var95 ∧ (0 <= var95)%Q.
Proof.
  destruct returns as [|r returns]; [by exists 0%Q|].
  destruct (calculateVaR95_value (r :: returns)) as (x & _ & Hv); [done|].
  exists (RiskTools.Abs x). split; [done|apply Abs_nonneg].
Qed.

(** X10. [ValidatePortfolio] always returns an assessment.  Its IsValid flag
    is true exactly when no violation is listed, which is exactly when the
    total exposure does not exceed maxExposure, the VaR does not exceed
    VaRLimit and |portfolio return| does not exceed MaxDrawdown.  The total
    exposure is at least |total value|, the VaR is not negative, the
    portfolio return is 0 unless the total value is positive, and the
    correlation risk is always reported as 0. *)
Theorem X10_portfolio_assessment (rm : RiskManager.t)
    (positions : list PortfolioPosition.t) :
  ∃ risk,
    RiskTools.ValidatePortfolio rm positions = Some risk
    ∧ (PortfolioRisk.IsValid risk = true ↔ PortfolioRisk.Violations risk = [])
    ∧ (PortfolioRisk.IsValid risk = true
       ↔ (PortfolioRisk.TotalExposure risk <= RiskManager.maxExposure rm
          ∧ PortfolioRisk.VaR95 risk <= RiskConfig.VaRLimit (RiskManager.config rm)
          ∧ RiskTools.Abs (PortfolioRisk.PortfolioReturn risk)
            <= RiskConfig.MaxDrawdown (RiskManager.config rm))%Q)
    ∧ (RiskTools.Abs (PortfolioRisk.TotalValue risk)
       <= PortfolioRisk.TotalExposure risk)%Q
    ∧ (0 <= PortfolioRisk.VaR95 risk)%Q
    ∧ ((PortfolioRisk.TotalValue risk <= 0)%Q →
       PortfolioRisk.PortfolioReturn risk = 0%Q)
    ∧ PortfolioRisk.CorrelationRisk risk = 0%Q.
Proof.
  unfold RiskTools.ValidatePortfolio.
  pose proof (totals_exposure positions 0 0 0) as Hexp.
  fold (RiskTools.totals positions) in Hexp.
  destruct (RiskTools.totals positions) as [[totalValue totalPnL] totalExposure].
  specialize (Hexp ltac:(vm_compute; discriminate)).
  destruct (calculateVaR95_total (RiskTools.positionReturns positions)) as (var95 & -> & Hvar).
  simpl.
  set (portfolioReturn := if F64.gtb totalValue 0 then _ else _).
  assert (Hreturn : (totalValue <= 0)%Q → portfolioReturn = 0%Q).
  { intros Hv. subst portfolioReturn. case_cmp Hpos; [lra|done]. }
  destruct (F64.gtb totalExposure _) eqn:H1;
    destruct (F64.gtb var95 _) eqn:H2;
    destruct (F64.gtb (RiskTools.Abs portfolioReturn) _) eqn:H3;
    cmp_facts; simpl; eexists; (split; [reflexivity|]); simpl;
    repeat split; try done; try lra; try (intros (? & ? & ?); lra).
Qed.

(** ** Engine: what the decision task changes *)

Lemma sum_app (xs ys : list Q) : (F64.sum (xs ++ ys) == F64.sum xs + F64.sum ys)%Q.
Proof.
  unfold F64.sum at 1. rewrite fold_left_app, sum_from.
  fold (F64.sum xs). lra.
Qed.

Ltac effect_facts :=
  unfold tick_effect, placedOrders, closedPnLs, approvals, len, F64.sum; simpl;
  repeat split;
  try done; try lia; try lra; try (by left); try (by right);
  try (repeat constructor; set_solver).

Section TickEffect.
Variable now : Time.t.
Variable GetPosition : string → string → PositionResult.
Variable PlaceOrder : OrderRequest.t → OrderResponse.t + string.

Local Arguments ShouldBuy : simpl never.
Local Arguments ShouldSell : simpl never.

Local Abbreviation executeSellOrder := (Engine.executeSellOrder now PlaceOrder).
Local Abbreviation executeBuyOrder := (Engine.executeBuyOrder now PlaceOrder).
Local Abbreviation processSymbolSignals := (Engine.processSymbolSignals now GetPosition PlaceOrder).
Local Abbreviation processSymbols := (Engine.processSymbols now GetPosition PlaceOrder).
Local Abbreviation processTradingSignals := (Engine.processTradingSignals now GetPosition PlaceOrder).

(** The outcomes of [processSymbolSignals]. *)
Lemma processSymbolSignals_cases symbol e e' events err :
  processSymbolSignals symbol e = Some (e', events, err) →
  (e' = e ∧ events = [] ∧ is_Some err)
  ∨ (∃ strategy', e' = Engine.setStrategy e strategy' ∧ events = [])
  ∨ (∃ marketData position strategy' signal err',
       Engine.getMarketData e symbol = Some marketData
       ∧ foundPosition GetPosition symbol = Some position
       ∧ Engine.isOpen (Some position) = true
       ∧ ShouldSell symbol marketData position (Engine.strategy e)
         = Some (strategy', signal)
       ∧ Signal.Action signal = "SELL"
       ∧ executeSellOrder symbol signal position (Engine.setStrategy e strategy')
         = (e', events, err'))
  ∨ (∃ marketData strategy' signal rm approved,
       Engine.getMarketData e symbol = Some marketData
       ∧ Engine.isOpen (foundPosition GetPosition symbol) = false
       ∧ ShouldBuy symbol marketData (Engine.strategy e) = Some (strategy', signal)
       ∧ Signal.Action signal = "BUY"
       ∧ RiskManager.ValidateOrder now
           (OrderInfo.mk symbol "BUY" (Signal.Quantity signal) (Signal.Price signal))
           (Engine.riskManager e) = (rm, approved)
       ∧ let order :=
           OrderInfo.mk symbol "BUY" (Signal.Quantity signal) (Signal.Price signal) in
         let e3 := Engine.setRiskManager (Engine.setStrategy e strategy') rm in
         if approved then
           ∃ bought err',
             executeBuyOrder symbol signal e3 = (e', bought, err')
             ∧ events = EvValidateOrder order true :: bought
         else e' = e3 ∧ events = [EvValidateOrder order false]).
Proof.
  unfold Engine.processSymbolSignals, foundPosition.
  destruct (Engine.getMarketData e symbol) as [marketData|];
    [|intros [= <- <- <-]; left; by repeat split].
  destruct (GetPosition symbol "LONG") as [p| |msg] eqn:Hpos;
    [| |intros [= <- <- <-]; left; by repeat split].
  - destruct (Engine.isOpen (Some p)) eqn:Hopen; simpl.
    + destruct (ShouldSell symbol marketData p (Engine.strategy e))
        as [[strategy' sellSignal]|] eqn:Hsell; simpl; [|done].
      destruct (String.eqb_spec (Signal.Action sellSignal) "SELL") as [Hact|_].
      * destruct (executeSellOrder symbol sellSignal p
                    (Engine.setStrategy e strategy')) as [[e1 sold] err1] eqn:Hex.
        simpl. intros [= <- <- <-]. right. right. left.
        by eexists marketData, p, strategy', sellSignal, err1.
      * simpl. intros [= <- <- <-]. right. left. by eexists.
    + destruct (ShouldBuy symbol marketData (Engine.strategy e))
        as [[strategy' buySignal]|] eqn:Hbuy; simpl; [|done].
      destruct (String.eqb_spec (Signal.Action buySignal) "BUY") as [Hact|_]; simpl;
        [|intros [= <- <- <-]; right; left; by eexists].
      destruct (RiskManager.ValidateOrder now _ _) as [rm approved] eqn:Hval.
      destruct approved; simpl.
      * destruct (executeBuyOrder symbol buySignal _) as [[e4 bought] err4] eqn:Hex.
        simpl. intros [= <- <- <-]. right. right. right.
        eexists marketData, strategy', buySignal, rm, true.
        repeat (split; [done|]). simpl. by eexists bought, err4.
      * intros [= <- <- <-]. right. right. right.
        eexists marketData, strategy', buySignal, rm, false.
        repeat (split; [done|]). by simpl.
  - simpl.
    destruct (ShouldBuy symbol marketData (Engine.strategy e))
      as [[strategy' buySignal]|] eqn:Hbuy; simpl; [|done].
    destruct (String.eqb_spec (Signal.Action buySignal) "BUY") as [Hact|_]; simpl;
      [|intros [= <- <- <-]; right; left; by eexists].
    destruct (RiskManager.ValidateOrder now _ _) as [rm approved] eqn:Hval.
    destruct approved; simpl.
    + destruct (executeBuyOrder symbol buySignal _) as [[e4 bought] err4] eqn:Hex.
      simpl. intros [= <- <- <-]. right. right. right.
      eexists marketData, strategy', buySignal, rm, true.
      repeat (split; [done|]). simpl. by eexists bought, err4.
    + intros [= <- <- <-]. right. right. right.
      eexists marketData, strategy', buySignal, rm, false.
      repeat (split; [done|]). by simpl.
Qed.

Lemma tick_effect_refl symbols e : tick_effect now symbols e e [].
Proof.
  effect_facts.
Qed.

Lemma tick_effect_strategy symbols e strategy' :
  tick_effect now symbols e (Engine.setStrategy e strategy') [].
Proof.
  effect_facts.
Qed.

Lemma tick_effect_app symbols1 symbols2 e e1 e2 events1 events2 :
  tick_effect now symbols1 e e1 events1 →
  tick_effect now symbols2 e1 e2 events2 →
  tick_effect now (symbols1 ++ symbols2) e e2 (events1 ++ events2).
Proof.
  unfold tick_effect, placedOrders, closedPnLs, approvals, len.
  intros (Hc1 & Hr1 & Hm1 & Hrm1 & Hn1 & Hp1 & Hwl1 & Hw1 & Hl1 & Hd1 & Ht1)
         (Hc2 & Hr2 & Hm2 & Hrm2 & Hn2 & Hp2 & Hwl2 & Hw2 & Hl2 & Hd2 & Ht2).
  rewrite !omap_app, !length_app.
  split; [congruence|]. split; [congruence|]. split; [congruence|].
  split.
  { destruct Hrm1 as [E1|E1]; rewrite E1 in Hrm2; [done|].
    destruct Hrm2 as [->| ->]; [by right|]. right. apply reset_idempotent. }
  split; [lia|]. split.
  { apply Forall_app. split.
    - eapply Forall_impl; [exact Hp1|]. intros r (? & ? & ? & ?).
      repeat split; try done. apply elem_of_app. by left.
    - eapply Forall_impl; [exact Hp2|]. intros r (? & ? & ? & ?).
      repeat split; try done. apply elem_of_app. by right. }
  split; [lia|]. split; [lia|]. split; [lia|]. split; [|lia].
  rewrite sum_app. lra.
Qed.

Lemma executeSellOrder_effect symbol signal position e e' events err :
  executeSellOrder symbol signal position e = (e', events, err) →
  tick_effect now [symbol] e e' events
  ∧ Engine.riskManager e' = Engine.riskManager e
  ∧ Engine.totalTrades e' = Engine.totalTrades e
  ∧ placedOrders events
    = [OrderRequest.mk symbol "SELL" "MARKET" (Position.Size position) "BOTH"
         false ("sell_", Time.Unix now)].
Proof.
  unfold Engine.executeSellOrder.
  destruct (PlaceOrder _) as [response|msg].
  - destruct (String.eqb _ "FILLED").
    + intros [= <- <- <-]. effect_facts; case_cmp Hp; lia.
    + intros [= <- <- <-]. effect_facts.
  - intros [= <- <- <-]. effect_facts.
Qed.

Lemma executeBuyOrder_effect symbol signal order e e' events err :
  executeBuyOrder symbol signal e = (e', events, err) →
  tick_effect now [symbol] e e' (EvValidateOrder order true :: events)
  ∧ Engine.riskManager e' = Engine.riskManager e
  ∧ Engine.winningTrades e' = Engine.winningTrades e
  ∧ Engine.losingTrades e' = Engine.losingTrades e
  ∧ Engine.dailyPnL e' = Engine.dailyPnL e
  ∧ placedOrders events
    = [OrderRequest.mk symbol "BUY" "MARKET" (Signal.Quantity signal) "BOTH"
         false ("buy_", Time.Unix now)].
Proof.
  unfold Engine.executeBuyOrder.
  destruct (PlaceOrder _) as [response|msg].
  - destruct (String.eqb _ "FILLED").
    + intros [= <- <- <-]. effect_facts.
    + intros [= <- <- <-]. effect_facts.
  - intros [= <- <- <-]. effect_facts.
Qed.

Lemma processSymbolSignals_effect symbol e e' events err :
  processSymbolSignals symbol e = Some (e', events, err) →
  tick_effect now [symbol] e e' events.
Proof.
  intros H. apply processSymbolSignals_cases in H
    as [(-> & -> & _)|[(strategy' & -> & ->)|[Hsold|Hbuy]]].
  - apply tick_effect_refl.
  - apply tick_effect_strategy.
  - destruct Hsold as (md & p & s' & signal & err' & _ & _ & _ & _ & _ & Hex).
    apply executeSellOrder_effect in Hex as [Heff _].
    apply (tick_effect_app [] [symbol] _ _ _ [] events
             (tick_effect_strategy [] e s') Heff).
  - destruct Hbuy as (md & s' & signal & rm & approved & _ & _ & _ & _ & Hval & Hres).
    pose proof (ValidateOrder_state now
                  (OrderInfo.mk symbol "BUY" (Signal.Quantity signal)
                     (Signal.Price signal)) (Engine.riskManager e)) as Hst.
    rewrite Hval in Hst. simpl in Hst, Hres.
    assert (Hgate : tick_effect now []
                      e (Engine.setRiskManager (Engine.setStrategy e s') rm) []).
    { effect_facts. }
    destruct approved.
    + destruct Hres as (bought & err' & Hex & ->).
      eapply executeBuyOrder_effect in Hex as [Heff _].
      apply (tick_effect_app [] [symbol] _ _ _ [] _ Hgate Heff).
    + destruct Hres as [-> ->]. effect_facts.
Qed.

Lemma processSymbols_effect symbols : ∀ e e' events,
  processSymbols symbols e = Some (e', events) →
  tick_effect now symbols e e' events.
Proof.
  induction symbols as [|symbol rest IH]; intros e e' events; simpl.
  - intros [= <- <-]. apply tick_effect_refl.
  - destruct (processSymbolSignals symbol e) as [[[e1 events1] err1]|] eqn:H1; [|done].
    simpl.
    destruct (processSymbols rest e1) as [[e2 events2]|] eqn:H2; [|done]. simpl.
    intros [= <- <-].
    apply (tick_effect_app [symbol] rest e e1 e2).
    + by eapply processSymbolSignals_effect.
    + by apply IH.
Qed.

Lemma processTradingSignals_effect e e' events :
  processTradingSignals e = Some (e', events) →
  tick_effect now (TradingConfig.Symbols (Engine.config e)) e e' events.
Proof.
  unfold Engine.processTradingSignals.
  destruct (TradingConfig.EnablePaperTrading _).
  - intros [= <- <-]. apply tick_effect_refl.
  - apply processSymbols_effect.
Qed.
End TickEffect.

(** X11. The decision task never records anything in the risk manager: one
    pass over the configured symbols leaves the manager as it was or as the
    daily reset at the time of the pass makes it.  The configuration, the
    exposure and its limit are kept, and a manager whose dailyLoss,
    dailyTrades and totalExposure are 0, as [NewRiskManager] builds it,
    still has them at 0 afterwards, whatever was bought or sold. *)
Theorem X11_decision_task_keeps_risk_counters (now : Time.t)
    (GetPosition : string → string → PositionResult)
    (PlaceOrder : OrderRequest.t → OrderResponse.t + string)
    (e e' : Engine.t) (events : list Event) :
  Engine.processTradingSignals now GetPosition PlaceOrder e = Some (e', events) →
  (Engine.riskManager e' = Engine.riskManager e
   ∨ Engine.riskManager e'
     = RiskManager.resetDailyCountersIfNeeded now (Engine.riskManager e))
  ∧ RiskManager.config (Engine.riskManager e')
    = RiskManager.config (Engine.riskManager e)
  ∧ RiskManager.totalExposure (Engine.riskManager e')
    = RiskManager.totalExposure (Engine.riskManager e)
  ∧ RiskManager.maxExposure (Engine.riskManager e')
    = RiskManager.maxExposure (Engine.riskManager e)
  ∧ (untouched (Engine.riskManager e) → untouched (Engine.riskManager e')).
Proof.
  intros H. apply processTradingSignals_effect in H as (_ & _ & _ & Hrm & _).
  split; [exact Hrm|].
  destruct Hrm as [-> | ->]; [done|].
  unfold RiskManager.resetDailyCountersIfNeeded, untouched.
  destruct (RiskManager.dateDiffers _ _); simpl; repeat split; tauto.
Qed.

Lemma X11_decision_task_keeps_risk_counters_witness :
  ∃ e' events,
    Engine.processTradingSignals Scenario.today Scenario.GetPosition
      Scenario.PlaceOrder Scenario.engine = Some (e', events)
    ∧ placedOrders events = [Scenario.sellRequest]
    ∧ RiskManager.totalExposure (Engine.riskManager e')
      = RiskManager.totalExposure Scenario.riskManager.
Proof.
  assert (Hrun : ∃ e' events,
    Engine.processTradingSignals Scenario.today Scenario.GetPosition
      Scenario.PlaceOrder Scenario.engine = Some (e', events)
    ∧ placedOrders events = [Scenario.sellRequest]).
  { eexists _, _. split; vm_compute; reflexivity. }
  destruct Hrun as (e' & events & Hrun & Hplaced). exists e', events.
  split; [exact Hrun|]. split; [exact Hplaced|].
  destruct (X11_decision_task_keeps_risk_counters _ _ _ _ _ _ Hrun)
    as (_ & _ & Hexp & _).
  exact Hexp.
Defined.

(** X12. For one symbol the decision task submits at most one order: either
    nothing; or, when the position found is OPEN, one SELL market order for
    the size of the position, with no approval; or, when no OPEN position
    was found, one BUY market order, for the quantity of the one order that
    [ValidateOrder] approved.  It never buys while the position is OPEN and
    never sells without one. *)
Theorem X12_one_order_per_symbol (now : Time.t)
    (GetPosition : string → string → PositionResult)
    (PlaceOrder : OrderRequest.t → OrderResponse.t + string)
    (symbol : string) (e e' : Engine.t) (events : list Event) (err : error) :
  Engine.processSymbolSignals now GetPosition PlaceOrder symbol e
  = Some (e', events, err) →
  (placedOrders events = [] ∧ Engine.totalTrades e' = Engine.totalTrades e)
  ∨ (∃ position,
       foundPosition GetPosition symbol = Some position
       ∧ Position.Status position = "OPEN"
       ∧ placedOrders events
         = [OrderRequest.mk symbol "SELL" "MARKET" (Position.Size position) "BOTH"
              false ("sell_", Time.Unix now)]
       ∧ approvals events = [])
  ∨ (∃ quantity price,
       Engine.isOpen (foundPosition GetPosition symbol) = false
       ∧ placedOrders events
         = [OrderRequest.mk symbol "BUY" "MARKET" quantity "BOTH"
              false ("buy_", Time.Unix now)]
       ∧ approvals events = [OrderInfo.mk symbol "BUY" quantity price]).
Proof.
  intros H. apply processSymbolSignals_cases in H
    as [(-> & -> & _)|[(strategy' & -> & ->)|[Hsold|Hbuy]]].
  - by left.
  - by left.
  - destruct Hsold as (md & p & s' & signal & err' & _ & Hfound & Hopen & _ & _ & Hex).
    right. left. exists p. split; [done|].
    split; [by apply String.eqb_eq|].
    pose proof Hex as Hex'. apply executeSellOrder_effect in Hex' as (_ & _ & _ & ->).
    split; [done|].
    unfold Engine.executeSellOrder in Hex.
    destruct (PlaceOrder _); [destruct (String.eqb _ "FILLED")|];
      by injection Hex as <- <- <-.
  - destruct Hbuy as (md & s' & signal & rm & approved & _ & Hclosed & _ & _ & _ & Hres).
    simpl in Hres. destruct approved.
    + destruct Hres as (bought & err' & Hex & ->).
      right. right. exists (Signal.Quantity signal), (Signal.Price signal).
      split; [done|].
      pose proof Hex as Hex'.
      apply (executeBuyOrder_effect now PlaceOrder symbol signal
               (OrderInfo.mk symbol "BUY" (Signal.Quantity signal) (Signal.Price signal)))
        in Hex' as (_ & _ & _ & _ & _ & Hplaced).
      split; [exact Hplaced|].
      unfold Engine.executeBuyOrder in Hex.
      destruct (PlaceOrder _); [destruct (String.eqb _ "FILLED")|];
        by injection Hex as <- <- <-.
    + destruct Hres as [-> ->]. by left.
Qed.

Lemma X12_one_order_per_symbol_witness :
  ∃ e' events err,
    Engine.processSymbolSignals Scenario.today Scenario.GetPosition
      Scenario.PlaceOrder "BTCUSDT" Scenario.engine = Some (e', events, err)
    ∧ ((placedOrders events = [] ∧ Engine.totalTrades e' = 0%Z)
       ∨ (∃ position,
            foundPosition Scenario.GetPosition "BTCUSDT" = Some position
            ∧ Position.Status position = "OPEN"
            ∧ placedOrders events
              = [OrderRequest.mk "BTCUSDT" "SELL" "MARKET" (Position.Size position)
                   "BOTH" false ("sell_", Time.Unix Scenario.today)]
            ∧ approvals events = [])
       ∨ (∃ quantity price,
            Engine.isOpen (foundPosition Scenario.GetPosition "BTCUSDT") = false
            ∧ placedOrders events
              = [OrderRequest.mk "BTCUSDT" "BUY" "MARKET" quantity "BOTH"
                   false ("buy_", Time.Unix Scenario.today)]
            ∧ approvals events = [OrderInfo.mk "BTCUSDT" "BUY" quantity price])).
Proof.
  assert (Hrun : ∃ e' events err,
    Engine.processSymbolSignals Scenario.today Scenario.GetPosition
      Scenario.PlaceOrder "BTCUSDT" Scenario.engine = Some (e', events, err)).
  { eexists _, _, _. vm_compute. reflexivity. }
  destruct Hrun as (e' & events & err & Hrun). exists e', events, err.
  split; [exact Hrun|].
  exact (X12_one_order_per_symbol _ _ _ _ _ _ _ _ Hrun).
Defined.

(** X13. One pass of the decision task submits at most one order per
    configured symbol, each a MARKET order for a configured symbol, with
    side BUY or SELL and ClosePosition unset; it changes neither the
    configuration, nor the running flag, nor the cached market data.  In
    paper-trading mode it does nothing at all. *)
Theorem X13_tick_orders_bounded (now : Time.t)
    (GetPosition : string → string → PositionResult)
    (PlaceOrder : OrderRequest.t → OrderResponse.t + string)
    (e e' : Engine.t) (events : list Event) :
  Engine.processTradingSignals now GetPosition PlaceOrder e = Some (e', events) →
  (length (placedOrders events)
   ≤ length (TradingConfig.Symbols (Engine.config e)))%nat
  ∧ Forall (λ request,
              OrderRequest.Symbol request ∈ TradingConfig.Symbols (Engine.config e)
              ∧ OrderRequest.OrderType request = "MARKET"
              ∧ OrderRequest.ClosePosition request = false
              ∧ (OrderRequest.Side request = "BUY"
                 ∨ OrderRequest.Side request = "SELL"))
      (placedOrders events)
  ∧ Engine.config e' = Engine.config e
  ∧ Engine.isRunning e' = Engine.isRunning e
  ∧ Engine.marketData e' = Engine.marketData e
  ∧ (TradingConfig.EnablePaperTrading (Engine.config e) = true →
     e' = e ∧ events = []).
Proof.
  intros H. pose proof H as Heff.
  apply processTradingSignals_effect in Heff
    as (Hc & Hr & Hm & _ & Hn & Hp & _).
  repeat (split; [done|]).
  intros Hpaper. unfold Engine.processTradingSignals in H. rewrite Hpaper in H.
  by injection H as <- <-.
Qed.

Lemma X13_tick_orders_bounded_witness :
  ∃ e' events,
    Engine.processTradingSignals Scenario.today Scenario.GetPosition
      Scenario.PlaceOrder Scenario.engine = Some (e', events)
    ∧ (length (placedOrders events) ≤ 1)%nat
    ∧ Engine.marketData e' = Engine.marketData Scenario.engine.
Proof.
  assert (Hrun : ∃ e' events,
    Engine.processTradingSignals Scenario.today Scenario.GetPosition
      Scenario.PlaceOrder Scenario.engine = Some (e', events)).
  { eexists _, _. vm_compute. reflexivity. }
  destruct Hrun as (e' & events & Hrun). exists e', events.
  split; [exact Hrun|].
  destruct (X13_tick_orders_bounded _ _ _ _ _ _ Hrun)
    as (Hn & _ & _ & _ & Hm & _).
  split; [exact Hn | exact Hm].
Defined.

(** X14. The performance counters after one pass of the decision task:
    winningTrades + losingTrades grows by the number of calls of
    [repository.ClosePosition] and neither counter decreases; dailyPnL grows
    by the sum of the realised profits passed to those calls; totalTrades
    never decreases and grows by at most the number of approved buy orders,
    so a sale is never counted in it. *)
Theorem X14_tick_accounting (now : Time.t)
    (GetPosition : string → string → PositionResult)
    (PlaceOrder : OrderRequest.t → OrderResponse.t + string)
    (e e' : Engine.t) (events : list Event) :
  Engine.processTradingSignals now GetPosition PlaceOrder e = Some (e', events) →
  (Engine.winningTrades e' + Engine.losingTrades e'
   = Engine.winningTrades e + Engine.losingTrades e + len (closedPnLs events))%Z
  ∧ (Engine.winningTrades e ≤ Engine.winningTrades e')%Z
  ∧ (Engine.losingTrades e ≤ Engine.losingTrades e')%Z
  ∧ (Engine.dailyPnL e' == Engine.dailyPnL e + F64.sum (closedPnLs events))%Q
  ∧ (Engine.totalTrades e ≤ Engine.totalTrades e'
     ≤ Engine.totalTrades e + len (approvals events))%Z.
Proof.
  intros H. apply processTradingSignals_effect in H.
  unfold tick_effect in H. tauto.
Qed.

Lemma X14_tick_accounting_witness :
  ∃ e' events,
    Engine.processTradingSignals Scenario.today Scenario.GetPosition
      Scenario.PlaceOrder Scenario.engine = Some (e', events)
    ∧ closedPnLs events = [((97 - 100) * (1 # 2))%Q]
    ∧ (Engine.winningTrades e' + Engine.losingTrades e' = 0 + 0 + 1)%Z
    ∧ Engine.totalTrades e' = 0%Z.
Proof.
  assert (Hrun : ∃ e' events,
    Engine.processTradingSignals Scenario.today Scenario.GetPosition
      Scenario.PlaceOrder Scenario.engine = Some (e', events)
    ∧ closedPnLs events = [((97 - 100) * (1 # 2))%Q]
    ∧ approvals events = []).
  { eexists _, _. split; [|split]; vm_compute; reflexivity. }
  destruct Hrun as (e' & events & Hrun & Hclosed & Happroved). exists e', events.
  split; [exact Hrun|]. split; [exact Hclosed|].
  destruct (X14_tick_accounting _ _ _ _ _ _ Hrun) as (Hwl & _ & _ & _ & Htotal).
  rewrite Hclosed in Hwl. rewrite Happroved in Htotal.
  split; [exact Hwl|]. unfold len in Htotal. simpl in Htotal. lia.
Defined.

(** ** Engine: start and stop *)

Section Lifecycle.
Variable SetLeverage : string → Z → error.
Variable ChangeMarginType : string → string → error.
Variable GetAllPositions : list Position.t + string.
Variable PlaceOrder : OrderRequest.t → OrderResponse.t + string.

Lemma closeLoop_trace (positions : list Position.t) :
  EngineOps.closeLoop PlaceOrder positions
  = (λ position, EvPlaceOrder (EngineOps.closeRequest position)) <$> positions.
Proof.
  induction positions as [|position rest IH]; simpl; [done|].
  destruct (PlaceOrder _); by rewrite IH.
Qed.

Lemma initializeSymbolsLoop_trace (symbols : list string) (leverage : Z) :
  EngineOps.initializeSymbolsLoop SetLeverage ChangeMarginType symbols leverage
  = symbols ≫= λ symbol,
      [CallSetLeverage symbol leverage; CallChangeMarginType symbol "CROSSED"].
Proof.
  induction symbols as [|symbol rest IH]; simpl; [done|].
  destruct (SetLeverage _ _), (ChangeMarginType _ _); by rewrite IH.
Qed.
End Lifecycle.

(** X15. [Stop] never fails and always leaves the engine not running, with
    nothing else changed.  On a running engine it submits, for each position
    returned by [repository.GetAllPositions], in order, one SELL MARKET order
    for the size of the position with ClosePosition set, whether or not
    earlier orders were accepted, and nothing else: no order is validated,
    no position is marked closed in the repository and no counter moves.  It
    submits nothing when the engine is not running or the positions cannot
    be read. *)
Theorem X15_stop_closes_every_position
    (GetAllPositions : list Position.t + string)
    (PlaceOrder : OrderRequest.t → OrderResponse.t + string) (e : Engine.t) :
  let result := EngineOps.Stop GetAllPositions PlaceOrder e in
  snd result = None
  ∧ fst (fst result) = EngineOps.setIsRunning e false
  ∧ snd (fst result)
    = (if Engine.isRunning e then
         match GetAllPositions with
         | inl positions =>
             (λ position,
                EvPlaceOrder
                  (OrderRequest.mk (Position.Symbol position) "SELL" "MARKET"
                     (Position.Size position) "BOTH" true ("", 0%Z)))
               <$> positions
         | inr _ => []
         end
       else []).
Proof.
  unfold EngineOps.Stop, EngineOps.closeAllPositions.
  destruct e as [? running ? ? ? ? ? ? ?]. destruct running; simpl; [|done].
  destruct GetAllPositions as [positions|msg]; simpl; [|done].
  by rewrite closeLoop_trace.
Qed.

(** X16. [Start] on an engine that is already running returns an error,
    changes nothing, calls nothing and launches nothing.  On a stopped
    engine it returns no error, whatever the venue answers: it sets the
    running flag, sets for each configured symbol, in order, the leverage to
    MaxLeverage and the margin type to CROSSED, and launches the four
    periodic tasks.  With a trading interval between 1 and 9223372036
    seconds every launched task creates its ticker: the data and trading
    tasks with a period of that many seconds, the risk task with 5 minutes,
    the account task with 1 minute.  With a trading interval between
    -9223372036 and 0, which the validation of the configuration does not
    exclude, the data task and the trading task panic in [time.NewTicker],
    which ends the process.  After [Start] the running flag is set in both
    cases, and a [Stop] clears it. *)
Theorem X16_start_stop (SetLeverage : string → Z → error)
    (ChangeMarginType : string → string → error)
    (GetAllPositions : list Position.t + string)
    (PlaceOrder : OrderRequest.t → OrderResponse.t + string) (e : Engine.t) :
  let result := EngineOps.Start SetLeverage ChangeMarginType e in
  let started := fst (fst (fst result)) in
  let interval := TradingConfig.TradingInterval (Engine.config e) in
  (Engine.isRunning e = true →
   result = (e, [], [], Some "trading engine is already running"))
  ∧ (Engine.isRunning e = false →
     result
     = (EngineOps.setIsRunning e true,
        TradingConfig.Symbols (Engine.config e) ≫= (λ symbol,
          [CallSetLeverage symbol (TradingConfig.MaxLeverage (Engine.config e));
           CallChangeMarginType symbol "CROSSED"]),
        [TaskCollectMarketData; TaskTradingLoop; TaskMonitorRisk;
         TaskMonitorAccount],
        None))
  ∧ ((0 < interval ≤ 9223372036)%Z →
     EngineOps.taskTicker TaskCollectMarketData started
     = Some (interval * 1000000000)%Z
     ∧ EngineOps.taskTicker TaskTradingLoop started
       = Some (interval * 1000000000)%Z
     ∧ EngineOps.taskTicker TaskMonitorRisk started = Some 300000000000%Z
     ∧ EngineOps.taskTicker TaskMonitorAccount started = Some 60000000000%Z)
  ∧ ((-9223372036 ≤ interval ≤ 0)%Z →
     EngineOps.taskTicker TaskCollectMarketData started = None
     ∧ EngineOps.taskTicker TaskTradingLoop started = None)
  ∧ Engine.isRunning started = true
  ∧ fst (fst (EngineOps.Stop GetAllPositions PlaceOrder started))
    = EngineOps.setIsRunning e false.
Proof.
  intros result started interval.
  assert (Hconfig : Engine.config started = Engine.config e).
  { subst started result. unfold EngineOps.Start, EngineOps.initializeSymbols.
    by destruct e as [? [] ? ? ? ? ? ? ?]. }
  assert (Hperiod : (-9223372036 ≤ interval ≤ 9223372036)%Z →
                    EngineOps.tickerPeriod started = (interval * 1000000000)%Z).
  { intros Hrange. unfold EngineOps.tickerPeriod, Duration.wrap, Duration.Second.
    rewrite Hconfig. fold interval. rewrite Z.mod_small; lia. }
  split; [|split; [|split; [|split]]].
  - subst result. unfold EngineOps.Start. by intros ->.
  - subst result. unfold EngineOps.Start, EngineOps.initializeSymbols.
    intros ->. simpl. by rewrite initializeSymbolsLoop_trace.
  - intros Hrange. unfold EngineOps.taskTicker, Duration.NewTicker.
    rewrite Hperiod by lia.
    destruct (Z.leb_spec (interval * 1000000000) 0); [lia|]. done.
  - intros Hrange. unfold EngineOps.taskTicker, Duration.NewTicker.
    rewrite Hperiod by lia.
    destruct (Z.leb_spec (interval * 1000000000) 0); [done|lia].
  - subst started result.
    unfold EngineOps.Start, EngineOps.initializeSymbols, EngineOps.Stop,
      EngineOps.closeAllPositions.
    destruct e as [? running ? ? ? ? ? ? ?]. destruct running; simpl.
    + split; [done|]. by destruct GetAllPositions.
    + split; [done|]. by destruct GetAllPositions.
Qed.

(** ** Engine: the cache of market data *)

Section MarketDataCache.
Variable now : Time.t.
Variable GetSymbolPrice : string → Q + string.
Variable GetKlines : string → string → Z → list KlineData.t + string.

Local Abbreviation updateMarketData :=
  (EngineOps.updateMarketData now GetSymbolPrice GetKlines).
Local Abbreviation collectSymbols :=
  (EngineOps.collectSymbols now GetSymbolPrice GetKlines).

Lemma updateMarketData_cache symbol e :
  fst (fst (updateMarketData symbol e))
  = EngineOps.setMarketData e
      (match fetched GetSymbolPrice GetKlines symbol with
       | Some latest => <[symbol := latest]> (Engine.marketData e)
       | None => Engine.marketData e
       end).
Proof.
  unfold EngineOps.updateMarketData, fetched.
  destruct (GetSymbolPrice symbol); [|by destruct e].
  destruct (GetKlines symbol "1m" 100); [|by destruct e].
  destruct (last _); [done|by destruct e].
Qed.

Lemma collectSymbols_cache symbols : ∀ e,
  let e' := fst (collectSymbols symbols e) in
  e' = EngineOps.setMarketData e (Engine.marketData e')
  ∧ ∀ symbol,
      Engine.marketData e' !! symbol
      = match fetched GetSymbolPrice GetKlines symbol with
        | Some latest =>
            if decide (symbol ∈ symbols) then Some latest
            else Engine.marketData e !! symbol
        | None => Engine.marketData e !! symbol
        end.
Proof.
  induction symbols as [|s rest IH]; intros e; cbn [EngineOps.collectSymbols].
  - split; [by destruct e|]. intros symbol. simpl.
    by destruct (fetched _ _ symbol).
  - pose proof (updateMarketData_cache s e) as H1.
    destruct (updateMarketData s e) as [[e1 saved] err]. simpl in H1.
    specialize (IH e1). simpl in IH.
    destruct (collectSymbols rest e1) as [e2 saved']. simpl in *.
    destruct IH as [He2 Hlook]. split.
    + rewrite He2 at 1. by rewrite H1.
    + intros symbol. rewrite Hlook, H1. simpl.
      destruct (fetched GetSymbolPrice GetKlines symbol) as [latest|] eqn:Hf.
      * destruct (decide (symbol ∈ rest)) as [Hin|Hnin].
        -- rewrite decide_True; [done|]. rewrite elem_of_cons. by right.
        -- destruct (decide (symbol = s)) as [->|Hne].
           ++ rewrite decide_True by (rewrite elem_of_cons; by left).
              rewrite Hf. by rewrite lookup_insert_eq.
           ++ rewrite decide_False by (rewrite elem_of_cons; tauto).
              destruct (fetched _ _ s); [|done].
              by rewrite lookup_insert_ne.
      * destruct (fetched GetSymbolPrice GetKlines s) as [latest|] eqn:Hs; [|done].
        rewrite lookup_insert_ne; [done|]. intros ->. congruence.
Qed.
End MarketDataCache.

(** X17. One round of [collectMarketData] over the configured symbols
    changes the cache of market data only.  For a configured symbol whose
    price and klines could be fetched, with at least one kline, the cache
    then holds the last kline, and [getMarketData] answers with its Close
    as the price and its Volume (the ticker price is not used).  For every
    other symbol, in particular one whose fetch failed or returned no
    kline, the previous entry of the cache stays in place. *)
Theorem X17_market_data_round (now : Time.t)
    (GetSymbolPrice : string → Q + string)
    (GetKlines : string → string → Z → list KlineData.t + string)
    (e : Engine.t) (symbol : string) :
  let e' := fst (EngineOps.collectMarketDataTick now GetSymbolPrice GetKlines e) in
  e' = EngineOps.setMarketData e (Engine.marketData e')
  ∧ match fetched GetSymbolPrice GetKlines symbol with
    | Some latest =>
        if decide (symbol ∈ TradingConfig.Symbols (Engine.config e)) then
          Engine.marketData e' !! symbol = Some latest
          ∧ Engine.getMarketData e' symbol
            = Some (MarketData.mk symbol (KlineData.Close latest)
                      (KlineData.Volume latest) 0)
        else Engine.getMarketData e' symbol = Engine.getMarketData e symbol
    | None => Engine.getMarketData e' symbol = Engine.getMarketData e symbol
    end.
Proof.
  intros e'. subst e'. unfold EngineOps.collectMarketDataTick.
  destruct (collectSymbols_cache now GetSymbolPrice GetKlines
              (TradingConfig.Symbols (Engine.config e)) e) as [He Hlook].
  split; [exact He|]. specialize (Hlook symbol).
  unfold Engine.getMarketData.
  destruct (fetched GetSymbolPrice GetKlines symbol) as [latest|].
  - case_decide; rewrite Hlook; [by split|done].
  - by rewrite Hlook.
Qed.

(** ** Engine: the win rate *)

Section WinRate.
Local Open Scope Q_scope.

Lemma ratio_times (w t : Q) : 0 < t → w / t * t == w.
Proof. intros Ht. field. lra. Qed.

Lemma percent_le_100 (w t : Q) : 0 < t → (w / t * 100 <= 100 ↔ w <= t).
Proof.
  intros Ht. pose proof (ratio_times w t Ht) as Hr. split.
  - intros H. assert (H1 : w / t <= 1) by lra.
    assert (H2 : w / t * t <= 1 * t) by (apply Qmult_le_compat_r; lra). lra.
  - intros H. assert (H1 : w / t <= 1) by (apply Qle_shift_div_r; lra). lra.
Qed.

Lemma percent_nonneg (w t : Q) : 0 < t → (0 <= w / t * 100 ↔ 0 <= w).
Proof.
  intros Ht. pose proof (ratio_times w t Ht) as Hr. split.
  - intros H. assert (H1 : 0 <= w / t) by lra.
    assert (H2 : 0 <= w / t * t) by (apply Qmult_le_0_compat; lra). lra.
  - intros H. assert (H1 : 0 <= w / t) by (apply div_nonneg; lra). lra.
Qed.
End WinRate.

(** X18. The record [updateRiskMetrics] saves carries the engine's counters
    as they are and a win rate of 0 while totalTrades is not positive,
    whatever the number of winning trades; otherwise the win rate is
    winningTrades / totalTrades x 100, which is at most 100 exactly when
    winningTrades does not exceed totalTrades, and not negative exactly when
    winningTrades is not negative. *)
Theorem X18_win_rate (now : Time.t) (e : Engine.t) :
  let metric := EngineOps.updateRiskMetrics now e in
  RiskMetric.DailyPnL metric = Engine.dailyPnL e
  ∧ RiskMetric.TotalTrades metric = Engine.totalTrades e
  ∧ RiskMetric.WinningTrades metric = Engine.winningTrades e
  ∧ RiskMetric.LosingTrades metric = Engine.losingTrades e
  ∧ ((Engine.totalTrades e ≤ 0)%Z → RiskMetric.WinRate metric = 0%Q)
  ∧ ((0 < Engine.totalTrades e)%Z →
     (RiskMetric.WinRate metric * F64.of_int (Engine.totalTrades e)
      == F64.of_int (Engine.winningTrades e) * 100)%Q
     ∧ ((RiskMetric.WinRate metric <= 100)%Q
        ↔ (Engine.winningTrades e ≤ Engine.totalTrades e)%Z)
     ∧ ((0 <= RiskMetric.WinRate metric)%Q ↔ (0 ≤ Engine.winningTrades e)%Z)).
Proof.
  intros metric. subst metric. unfold EngineOps.updateRiskMetrics. simpl.
  repeat (split; [done|]). split.
  - intros Hle. by destruct (Z.gtb_spec (Engine.totalTrades e) 0); [lia|].
  - intros Hpos. destruct (Z.gtb_spec (Engine.totalTrades e) 0); [|lia].
    pose proof (of_int_pos _ Hpos) as Ht. split; [|split].
    + pose proof (ratio_times (F64.of_int (Engine.winningTrades e)) _ Ht). nra.
    + rewrite percent_le_100 by done. unfold F64.of_int. by rewrite <- Zle_Qle.
    + rewrite percent_nonneg by done. unfold F64.of_int.
      by rewrite (Zle_Qle 0 (Engine.winningTrades e)).
Qed.

(** ** NewEngine: the risk gate it builds *)



(** ** Package config: validation *)

(** X20. [validateConfig] accepts a configuration exactly when the API key
    and the secret key are not empty, there is at least one symbol, the
    maximum position size is positive, the stop-loss percentage is in
    (0, 50], the take-profit percentage in (0, 100], the maximum leverage in
    [1, 125], the per-trade risk percentage in [0.1, 10], and the MySQL DSN
    and the Redis address are not empty.  The maximum daily loss, the
    minimum order value and the trading interval are not looked at. *)
Theorem X20_validate_config_accepts_iff (config : Config.t) :
  let trading := Config.Trading config in
  Config.validateConfig config = None
  ↔ Config.APIKey (Config.Exchange config) ≠ ""
    ∧ Config.SecretKey (Config.Exchange config) ≠ ""
    ∧ TradingConfig.Symbols trading ≠ []
    ∧ (0 < TradingConfig.MaxPositionSize trading)%Q
    ∧ (0 < TradingConfig.StopLossPercent trading
       ∧ TradingConfig.StopLossPercent trading <= 50)%Q
    ∧ (0 < TradingConfig.TakeProfitPercent trading
       ∧ TradingConfig.TakeProfitPercent trading <= 100)%Q
    ∧ (1 ≤ TradingConfig.MaxLeverage trading ≤ 125)%Z
    ∧ (1 # 10 <= TradingConfig.RiskPerTrade trading
       ∧ TradingConfig.RiskPerTrade trading <= 10)%Q
    ∧ Config.DSN (Config.MySQL (Config.Database config)) ≠ ""
    ∧ Config.Addr (Config.Redis (Config.Database config)) ≠ "".
Proof.
  intros trading. unfold Config.validateConfig. fold trading.
  destruct (String.eqb_spec (Config.APIKey (Config.Exchange config)) "");
    [split; [done|tauto]|].
  destruct (String.eqb_spec (Config.SecretKey (Config.Exchange config)) "");
    [split; [done|tauto]|].
  destruct (Z.eqb_spec (len (TradingConfig.Symbols trading)) 0) as [Hlen|Hlen].
  { split; [done|]. intros (_ & _ & Hs & _). exfalso. apply Hs.
    destruct (TradingConfig.Symbols trading); [done|]. unfold len in Hlen.
    simpl in Hlen. lia. }
  assert (Hsym : TradingConfig.Symbols trading ≠ []).
  { intros Hnil. rewrite Hnil in Hlen. by apply Hlen. }
  destruct (F64.leb (TradingConfig.MaxPositionSize trading) 0) eqn:Hsize; cmp_facts;
    [split; [done|]; intros (_ & _ & _ & ? & _); lra|].
  destruct (F64.leb (TradingConfig.StopLossPercent trading) 0) eqn:Hstop; cmp_facts;
    simpl; [split; [done|]; intros (_ & _ & _ & _ & ? & _); lra|].
  destruct (F64.gtb (TradingConfig.StopLossPercent trading) 50) eqn:Hstop2; cmp_facts;
    [split; [done|]; intros (_ & _ & _ & _ & ? & _); lra|].
  destruct (F64.leb (TradingConfig.TakeProfitPercent trading) 0) eqn:Htake; cmp_facts;
    simpl; [split; [done|]; intros (_ & _ & _ & _ & _ & ? & _); lra|].
  destruct (F64.gtb (TradingConfig.TakeProfitPercent trading) 100) eqn:Htake2;
    cmp_facts; [split; [done|]; intros (_ & _ & _ & _ & _ & ? & _); lra|].
  destruct (Z.ltb_spec (TradingConfig.MaxLeverage trading) 1); simpl;
    [split; [done|]; intros (_ & _ & _ & _ & _ & _ & ? & _); lia|].
  destruct (Z.gtb_spec (TradingConfig.MaxLeverage trading) 125);
    [split; [done|]; intros (_ & _ & _ & _ & _ & _ & ? & _); lia|].
  destruct (F64.ltb (TradingConfig.RiskPerTrade trading) (1 # 10)) eqn:Hrisk;
    cmp_facts; simpl;
    [split; [done|]; intros (_ & _ & _ & _ & _ & _ & _ & ? & _); lra|].
  destruct (F64.gtb (TradingConfig.RiskPerTrade trading) 10) eqn:Hrisk2; cmp_facts;
    [split; [done|]; intros (_ & _ & _ & _ & _ & _ & _ & ? & _); lra|].
  destruct (String.eqb_spec (Config.DSN (Config.MySQL (Config.Database config))) "");
    [split; [done|tauto]|].
  destruct (String.eqb_spec (Config.Addr (Config.Redis (Config.Database config))) "");
    [split; [done|tauto]|].
  split; [|done]. intros _. repeat split; try done; try lra; try lia.
Qed.

(** ** Strategies: the fixed exits of ShouldSell *)

Section FixedExits.
Local Open Scope Q_scope.

(** The profit in percent that [ShouldSell] computes, at the two fixed
    thresholds. *)
Lemma pnl_stop (price entry : Q) :
  0 < entry → price <= entry * (98 # 100) →
  (price - entry) / entry * 100 <= -2.
Proof.
  intros He Hp.
  assert (H : (price - entry) / entry <= - (2 # 100)).
  { apply Qle_shift_div_r; [done|]. lra. }
  lra.
Qed.

Lemma pnl_take (price entry : Q) :
  0 < entry → entry * (105 # 100) <= price →
  5 <= (price - entry) / entry * 100.
Proof.
  intros He Hp.
  assert (H : 5 # 100 <= (price - entry) / entry).
  { apply Qle_shift_div_l; [done|]. lra. }
  lra.
Qed.

Lemma retained_len {A} (h : list A) (cap : Z) :
  (0 ≤ cap)%Z →
  len (drop (length h - Z.to_nat cap) h) = Z.min (len h) cap.
Proof. intros Hc. unfold len. rewrite length_drop. lia. Qed.
End FixedExits.

(** X21. [SMAStrategy.ShouldSell], with a history cap that is not negative
    and a positive entry price, always returns.  While fewer than longPeriod
    prices are known for the symbol, the new one included, it answers HOLD
    "Insufficient data" whatever the loss on the position.  Once longPeriod
    prices are known, a price at or below 98% of the entry, or at or above
    105% of it, always gives a SELL for the whole position at the current
    price: the two thresholds are fixed in the code. *)
Theorem X21_sma_sell_exits (s : SMAStrategy.t) (symbol : string)
    (data : MarketData.t) (position : Position.t) :
  (0 ≤ SMAStrategy.maxLength s)%Z →
  (0 < Position.EntryPrice position)%Q →
  ∃ s' sig,
    SMAStrategy.ShouldSell symbol data position s = Some (s', sig)
    ∧ ((len (SMAStrategy.history s symbol) + 1 < SMAStrategy.longPeriod s)%Z →
       sig = Signal.hold (Text "Insufficient data"))
    ∧ ((SMAStrategy.longPeriod s ≤ len (SMAStrategy.history s symbol) + 1)%Z →
       (MarketData.Price data <= Position.EntryPrice position * (98 # 100)
        ∨ Position.EntryPrice position * (105 # 100) <= MarketData.Price data)%Q →
       Signal.Action sig = "SELL"
       ∧ Signal.Quantity sig = Position.Size position
       ∧ Signal.Price sig = MarketData.Price data).
Proof.
  intros Hcap Hentry. unfold SMAStrategy.ShouldSell.
  rewrite SMA_update_spec by done. simpl.
  rewrite SMA_history_set.
  set (prices := drop _ _).
  assert (Hlen : len prices
                 = Z.min (len (SMAStrategy.history s symbol) + 1)
                     (SMAStrategy.maxLength s)).
  { subst prices. rewrite retained_len by done. by rewrite len_app. }
  unfold SMAStrategy.maxLength in *.
  destruct (Z.ltb_spec (len prices) (SMAStrategy.longPeriod s)) as [Hfew|Henough].
  - eexists _, _. split; [done|]. split; [done|]. intros Hge. lia.
  - set (shortSMA := SMAStrategy.calculateSMA prices _).
    set (longSMA := SMAStrategy.calculateSMA prices _).
    set (pnl := ((MarketData.Price data - Position.EntryPrice position)
                 / Position.EntryPrice position * 100)%Q).
    assert (Hexit : (MarketData.Price data <= Position.EntryPrice position * (98 # 100)
                     ∨ Position.EntryPrice position * (105 # 100) <= MarketData.Price data)%Q →
                    F64.leb pnl (-2) = true ∨ F64.geb pnl 5 = true).
    { intros [Hstop|Htake].
      - left. apply leb_le. by apply pnl_stop.
      - right. apply geb_ge. by apply pnl_take. }
    destruct (F64.ltb shortSMA longSMA);
      [destruct (F64.geb (F64.Min _ 1) _)|].
    + eexists _, _. split; [done|]. split; [intros; lia|]. by intros _ _.
    + destruct (F64.leb pnl (-2)) eqn:E1; [|destruct (F64.geb pnl 5) eqn:E2].
      * eexists _, _. split; [done|]. split; [intros; lia|]. by intros _ _.
      * eexists _, _. split; [done|]. split; [intros; lia|]. by intros _ _.
      * eexists _, _. split; [done|]. split; [intros; lia|].
        intros _ Hx. apply Hexit in Hx as [?|?]; congruence.
    + destruct (F64.leb pnl (-2)) eqn:E1; [|destruct (F64.geb pnl 5) eqn:E2].
      * eexists _, _. split; [done|]. split; [intros; lia|]. by intros _ _.
      * eexists _, _. split; [done|]. split; [intros; lia|]. by intros _ _.
      * eexists _, _. split; [done|]. split; [intros; lia|].
        intros _ Hx. apply Hexit in Hx as [?|?]; congruence.
Qed.

Lemma X21_sma_sell_exits_witness :
  let data := MarketData.mk "BTCUSDT" 97 12 0 in
  let s :=
    SMAStrategy.mk "Simple Moving Average" 10 20 (7 # 10)
      {[ "BTCUSDT" := replicate 19 100%Q ]} in
  (0 ≤ SMAStrategy.maxLength s)%Z
  ∧ (0 < Position.EntryPrice Scenario.position)%Q
  ∧ ∃ s' sig,
      SMAStrategy.ShouldSell "BTCUSDT" data Scenario.position s = Some (s', sig)
      ∧ Signal.Action sig = "SELL"
      ∧ Signal.Quantity sig = Position.Size Scenario.position.
Proof.
  intros data s.
  assert (Hcap : (0 ≤ SMAStrategy.maxLength s)%Z) by (vm_compute; discriminate).
  assert (Hentry : (0 < Position.EntryPrice Scenario.position)%Q) by reflexivity.
  split; [exact Hcap|]. split; [exact Hentry|].
  destruct (X21_sma_sell_exits s "BTCUSDT" data Scenario.position Hcap Hentry)
    as (s' & sig & Hrun & _ & Hexit).
  exists s', sig. split; [exact Hrun|].
  destruct Hexit as (Haction & Hquantity & _).
  - vm_compute. discriminate.
  - left. vm_compute. discriminate.
  - split; [exact Haction | exact Hquantity].
Defined.

(** X22. [RSIStrategy.ShouldSell], with a history cap that is not negative
    and a positive entry price, always returns, and once period + 1 prices
    are known for the symbol, the new one included, a price at or below 98%
    of the entry, or at or above 105% of it, always gives a SELL for the
    whole position at the current price, whatever the RSI. *)
Theorem X22_rsi_sell_exits (r : RSIStrategy.t) (symbol : string)
    (data : MarketData.t) (position : Position.t) :
  (0 ≤ RSIStrategy.maxLength r)%Z →
  (0 < Position.EntryPrice position)%Q →
  ∃ r' sig,
    RSIStrategy.ShouldSell symbol data position r = Some (r', sig)
    ∧ ((RSIStrategy.period r + 1 ≤ len (RSIStrategy.history r symbol) + 1)%Z →
       (MarketData.Price data <= Position.EntryPrice position * (98 # 100)
        ∨ Position.EntryPrice position * (105 # 100) <= MarketData.Price data)%Q →
       Signal.Action sig = "SELL"
       ∧ Signal.Quantity sig = Position.Size position
       ∧ Signal.Price sig = MarketData.Price data).
Proof.
  intros Hcap Hentry. unfold RSIStrategy.ShouldSell.
  rewrite RSI_update_spec by done. simpl.
  rewrite RSI_history_set.
  set (prices := drop _ _).
  assert (Hlen : len prices
                 = Z.min (len (RSIStrategy.history r symbol) + 1)
                     (RSIStrategy.maxLength r)).
  { subst prices. rewrite retained_len by done. by rewrite len_app. }
  unfold RSIStrategy.maxLength in *.
  destruct (Z.ltb_spec (len prices) (RSIStrategy.period r + 1)) as [Hfew|Henough].
  - eexists _, _. split; [done|]. intros Hge. lia.
  - set (rsi := RSIStrategy.calculateRSI _ prices).
    set (pnl := ((MarketData.Price data - Position.EntryPrice position)
                 / Position.EntryPrice position * 100)%Q).
    assert (Hexit : (MarketData.Price data <= Position.EntryPrice position * (98 # 100)
                     ∨ Position.EntryPrice position * (105 # 100) <= MarketData.Price data)%Q →
                    F64.leb pnl (-2) = true ∨ F64.geb pnl 5 = true).
    { intros [Hstop|Htake].
      - left. apply leb_le. by apply pnl_stop.
      - right. apply geb_ge. by apply pnl_take. }
    destruct (F64.gtb rsi _); [destruct (F64.geb ((rsi - _) / _) _)|].
    + eexists _, _. split; [done|]. by intros _ _.
    + destruct (F64.leb pnl (-2)) eqn:E1; [|destruct (F64.geb pnl 5) eqn:E2].
      * eexists _, _. split; [done|]. by intros _ _.
      * eexists _, _. split; [done|]. by intros _ _.
      * eexists _, _. split; [done|].
        intros _ Hx. apply Hexit in Hx as [?|?]; congruence.
    + destruct (F64.leb pnl (-2)) eqn:E1; [|destruct (F64.geb pnl 5) eqn:E2].
      * eexists _, _. split; [done|]. by intros _ _.
      * eexists _, _. split; [done|]. by intros _ _.
      * eexists _, _. split; [done|].
        intros _ Hx. apply Hexit in Hx as [?|?]; congruence.
Qed.

Lemma X22_rsi_sell_exits_witness :
  let data := MarketData.mk "BTCUSDT" 106 12 0 in
  let r :=
    RSIStrategy.mk "RSI Strategy" 14 30 70 (6 # 10)
      {[ "BTCUSDT" := replicate 14 100%Q ]} in
  (0 ≤ RSIStrategy.maxLength r)%Z
  ∧ (0 < Position.EntryPrice Scenario.position)%Q
  ∧ ∃ r' sig,
      RSIStrategy.ShouldSell "BTCUSDT" data Scenario.position r = Some (r', sig)
      ∧ Signal.Action sig = "SELL"
      ∧ Signal.Quantity sig = Position.Size Scenario.position.
Proof.
  intros data r.
  assert (Hcap : (0 ≤ RSIStrategy.maxLength r)%Z) by (vm_compute; discriminate).
  assert (Hentry : (0 < Position.EntryPrice Scenario.position)%Q) by reflexivity.
  split; [exact Hcap|]. split; [exact Hentry|].
  destruct (X22_rsi_sell_exits r "BTCUSDT" data Scenario.position Hcap Hentry)
    as (r' & sig & Hrun & Hexit).
  exists r', sig. split; [exact Hrun|].
  destruct Hexit as (Haction & Hquantity & _).
  - vm_compute. discriminate.
  - right. vm_compute. discriminate.
  - split; [exact Haction | exact Hquantity].
Defined.

(** ** Strategies: the moving average and the RSI *)

Section Averages.
Local Open Scope Q_scope.

Lemma of_int_len_cons {A} (x : A) (xs : list A) :
  F64.of_int (len (x :: xs)) == F64.of_int (len xs) + 1.
Proof.
  unfold F64.of_int, len. simpl length. rewrite Nat2Z.inj_succ, <- Z.add_1_r.
  by rewrite inject_Z_plus.
Qed.

Lemma sum_between (lo hi : Q) (xs : list Q) :
  Forall (λ x, lo <= x ∧ x <= hi) xs →
  lo * F64.of_int (len xs) <= F64.sum xs ∧ F64.sum xs <= hi * F64.of_int (len xs).
Proof.
  induction 1 as [|x xs [Hlo Hhi] _ IH].
  - rewrite sum_nil. change (F64.of_int (len [])) with 0. lra.
  - rewrite sum_cons, of_int_len_cons. lra.
Qed.

Lemma sum_pos (xs : list Q) :
  Forall (λ x, 0 <= x) xs → Exists (λ x, 0 < x) xs → 0 < F64.sum xs.
Proof.
  intros Hall Hex. induction Hex as [x xs Hx|x xs Hex IH].
  - inversion_clear Hall as [|? ? _ Hrest]. rewrite sum_cons.
    pose proof (sum_nonneg xs Hrest). lra.
  - inversion_clear Hall as [|? ? Hx Hrest]. rewrite sum_cons.
    specialize (IH Hrest). lra.
Qed.

Lemma gain_zero (change : Q) : change <= 0 → RSIStrategy.gain change == 0.
Proof. intros H. unfold RSIStrategy.gain. case_cmp Hc; lra. Qed.

Lemma loss_pos (change : Q) : change < 0 → 0 < RSIStrategy.loss change.
Proof. intros H. unfold RSIStrategy.loss. case_cmp Hc; lra. Qed.

Lemma recent_fmap (f : Q → Q) r prices :
  drop (Z.to_nat (len (f <$> RSIStrategy.changes prices) - RSIStrategy.period r))
    (f <$> RSIStrategy.changes prices)
  = f <$> recentChanges r prices.
Proof. unfold recentChanges, len. by rewrite length_fmap, <- fmap_drop. Qed.
End Averages.

(** X23. With fewer than [period] prices [calculateSMA] returns 0.  With a
    positive period and at least that many prices it averages the most
    recent [period] prices; for a period of at most 1000000, when these
    prices lie between two bounds lo and hi that are themselves between
    2^-200 and 2^200, the result lies between lo x (1 − 10^-9) and
    hi x (1 + 10^-9): up to that margin it does not leave the range of the
    prices of its window. *)
Theorem X23_sma_within_window (prices : list Q) (period : Z) (lo hi : Q) :
  ((len prices < period)%Z → SMAStrategy.calculateSMA prices period = 0%Q)
  ∧ ((0 < period ≤ len prices)%Z →
     len (recentPrices prices period) = period
     ∧ ((period ≤ 1000000)%Z → ordinary lo → ordinary hi →
        Forall (λ p, lo <= p ∧ p <= hi)%Q (recentPrices prices period) →
        (lo * (1 - decisionMargin) <= SMAStrategy.calculateSMA prices period
         ∧ SMAStrategy.calculateSMA prices period <= hi * (1 + decisionMargin))%Q)).
Proof.
  unfold SMAStrategy.calculateSMA. split.
  - intros Hfew. by destruct (Z.ltb_spec (len prices) period); [|lia].
  - intros [Hpos Hle]. destruct (Z.ltb_spec (len prices) period); [lia|].
    fold (recentPrices prices period).
    assert (Hlen : len (recentPrices prices period) = period).
    { unfold recentPrices, len in *. rewrite length_drop. lia. }
    split; [exact Hlen|]. intros _ Hlo Hhi Hall.
    apply ordinary_pos in Hlo, Hhi.
    destruct (sum_between lo hi _ Hall) as [Hlow Hhigh]. rewrite Hlen in Hlow, Hhigh.
    pose proof (of_int_pos _ Hpos) as Hp.
    assert (H1 : (lo <= F64.sum (recentPrices prices period) / F64.of_int period)%Q)
      by (by apply Qle_shift_div_l).
    assert (H2 : (F64.sum (recentPrices prices period) / F64.of_int period <= hi)%Q)
      by (by apply Qle_shift_div_r).
    unfold decisionMargin. split; lra.
Qed.

(** X24. For a positive period the RSI computed by [calculateRSI] always
    lies between 0 and 100.  With at least period + 1 prices, when none of
    the most recent [period] changes is a rise and at least one is a drop,
    it is 0. *)
Theorem X24_rsi_range (r : RSIStrategy.t) (prices : list Q) :
  (0 < RSIStrategy.period r)%Z →
  (0 <= RSIStrategy.calculateRSI r prices
   ∧ RSIStrategy.calculateRSI r prices <= 100)%Q
  ∧ ((RSIStrategy.period r + 1 ≤ len prices)%Z →
     Forall (λ change, change <= 0)%Q (recentChanges r prices) →
     Exists (λ change, change < 0)%Q (recentChanges r prices) →
     (RSIStrategy.calculateRSI r prices == 0)%Q).
Proof.
  intros Hperiod. split; [by apply calculateRSI_range|].
  intros Hlen Hfall Hdrop. rewrite calculateRSI_enough by done.
  pose proof (of_int_pos _ Hperiod) as Hp.
  assert (Hgain : (RSIStrategy.avgGain r prices == 0)%Q).
  { unfold RSIStrategy.avgGain, RSIStrategy.average. rewrite recent_fmap.
    assert (Hsum : (F64.sum (RSIStrategy.gain <$> recentChanges r prices) == 0)%Q).
    { apply sum_zero, Forall_fmap. eapply Forall_impl; [exact Hfall|].
      intros c Hc. by apply gain_zero. }
    rewrite Hsum. unfold Qdiv. lra. }
  assert (Hloss : (0 < RSIStrategy.avgLoss r prices)%Q).
  { unfold RSIStrategy.avgLoss, RSIStrategy.average. rewrite recent_fmap.
    apply Qlt_shift_div_l; [done|]. rewrite Qmult_0_l.
    apply sum_pos.
    - apply Forall_fmap, Forall_forall. intros c _. apply loss_nonneg.
    - apply Exists_fmap. eapply Exists_impl; [exact Hdrop|].
      intros c Hc. by apply loss_pos. }
  case_cmp Hz; [lra|].
  rewrite Hgain. field. lra.
Qed.

Lemma X24_rsi_range_witness :
  let falling := [114; 113; 112; 111; 110; 109; 108; 107; 106; 105; 104; 103;
                  102; 101; 100]%Q in
  (0 < RSIStrategy.period RSIStrategy.NewRSIStrategy)%Z
  ∧ (0 <= RSIStrategy.calculateRSI RSIStrategy.NewRSIStrategy falling)%Q
  ∧ (RSIStrategy.calculateRSI RSIStrategy.NewRSIStrategy falling <= 100)%Q
  ∧ (RSIStrategy.calculateRSI RSIStrategy.NewRSIStrategy falling == 0)%Q.
Proof.
  intros falling.
  assert (Hp : (0 < RSIStrategy.period RSIStrategy.NewRSIStrategy)%Z)
    by (vm_compute; reflexivity).
  destruct (X24_rsi_range RSIStrategy.NewRSIStrategy falling Hp) as [[Hlo Hhi] Hzero].
  split; [exact Hp|]. split; [exact Hlo|]. split; [exact Hhi|].
  apply Hzero.
  - vm_compute. discriminate.
  - vm_compute. repeat (constructor; [discriminate|]). constructor.
  - vm_compute. constructor. reflexivity.
Defined.

(** ** Grid: the sell band and the levels *)

(** X25. [GridStrategy.ShouldSell] never changes the strategy.  Before any
    base price is set it answers HOLD "Grid not initialized" whatever the
    price.  Afterwards, for an entry price between 2^-200 and 2^200 and a
    grid size between 0 and 1, with m = 10^-9 x entry: the stop
    entry x (1 − 2 x gridSize) is at most the entry and the target
    entry x (1 + gridSize) at least the entry; a price of at least the
    target + m sells the whole position with the configured minimum
    confidence; a price of at most the stop − m sells it with confidence 1;
    a price between the stop + m and the target − m answers HOLD "No grid
    sell signal"; and every SELL is for the size of the position at the
    observed price. *)
Theorem X25_grid_sell_band (g : GridStrategy.t) (symbol : string)
    (data : MarketData.t) (position : Position.t) :
  ordinary (Position.EntryPrice position) →
  (0 <= GridStrategy.gridSize g)%Q →
  (GridStrategy.gridSize g <= 1)%Q →
  let price := MarketData.Price data in
  let entry := Position.EntryPrice position in
  let target := (entry * (1 + GridStrategy.gridSize g))%Q in
  let stop := (entry * (1 - GridStrategy.gridSize g * 2))%Q in
  let m := (decisionMargin * entry)%Q in
  (stop <= entry ∧ entry <= target)%Q
  ∧ ∃ sig,
      GridStrategy.ShouldSell symbol data position g = Some (g, sig)
      ∧ ((GridStrategy.basePrice g == 0)%Q →
         sig = Signal.hold (Text "Grid not initialized"))
      ∧ (¬ (GridStrategy.basePrice g == 0)%Q →
         ((target + m <= price)%Q →
          sellsPosition "Grid sell target reached: %.2f"
            (GridStrategy.minConfidence g) data position sig)
         ∧ ((price <= stop - m)%Q →
            sellsPosition "Grid stop loss: %.2f" 1 data position sig)
         ∧ ((stop + m <= price)%Q → (price <= target - m)%Q →
            sig = Signal.hold (Text "No grid sell signal"))
         ∧ (Signal.Action sig = "SELL" →
            Signal.Quantity sig = Position.Size position
            ∧ Signal.Price sig = price)).
Proof.
  intros Hentry Hsize Hsize1 price entry target stop m.
  pose proof (ordinary_pos _ Hentry) as He. fold entry in He.
  pose proof (margin_pos _ He) as Hm. fold m in Hm.
  assert (Hband : (stop <= entry ∧ entry <= target)%Q).
  { subst stop target. split.
    - apply not_above_entry; [done|lra].
    - by apply not_below_entry. }
  split; [exact Hband|].
  unfold GridStrategy.ShouldSell. fold price entry target stop.
  destruct (F64.eqb (GridStrategy.basePrice g) 0) eqn:Hbase; cmp_facts.
  { eexists. split; [done|]. split; [done|]. intros Hne. by destruct Hne. }
  destruct (F64.geb price target) eqn:Htarget; cmp_facts.
  { eexists. split; [done|]. split; [intros; lra|]. intros _.
    unfold sellsPosition. simpl.
    repeat split; try done; try (intros; exfalso; lra). by eexists. }
  destruct (F64.leb price stop) eqn:Hstop; cmp_facts.
  { eexists. split; [done|]. split; [intros; lra|]. intros _.
    unfold sellsPosition. simpl.
    repeat split; try done; try (intros; exfalso; lra). by eexists. }
  eexists. split; [done|]. split; [intros; lra|]. intros _.
  unfold sellsPosition. simpl.
  repeat split; try done; try (intros; exfalso; lra).
Qed.

Lemma X25_grid_sell_band_witness :
  let g := GridStrategy.mk "Grid Strategy" (1 # 64) 10 100 ∅ (3 # 4) in
  let position := Position.mk 1 "BTCUSDT" "LONG" 1 100 "OPEN" in
  ordinary (Position.EntryPrice position)
  ∧ (0 <= GridStrategy.gridSize g)%Q
  ∧ (GridStrategy.gridSize g <= 1)%Q
  ∧ ∃ sig,
      GridStrategy.ShouldSell "BTCUSDT" (MarketData.mk "BTCUSDT" 96 0 0) position g
      = Some (g, sig)
      ∧ Signal.Action sig = "SELL"
      ∧ Signal.Confidence sig = 1%Q.
Proof.
  intros g position.
  assert (Hentry : ordinary (Position.EntryPrice position))
    by (split; vm_compute; discriminate).
  assert (Hsize : (0 <= GridStrategy.gridSize g)%Q) by (vm_compute; discriminate).
  assert (Hsize1 : (GridStrategy.gridSize g <= 1)%Q) by (vm_compute; discriminate).
  split; [exact Hentry|]. split; [exact Hsize|]. split; [exact Hsize1|].
  destruct (X25_grid_sell_band g "BTCUSDT" (MarketData.mk "BTCUSDT" 96 0 0)
              position Hentry Hsize Hsize1) as (_ & sig & Hrun & _ & Hset).
  exists sig. split; [exact Hrun|].
  destruct Hset as (_ & Hstop & _).
  - intros H. vm_compute in H. discriminate.
  - destruct Hstop as (Haction & _ & _ & Hconfidence & _).
    + vm_compute. discriminate.
    + split; [exact Haction | exact Hconfidence].
Defined.

Section GridLevels.
Lemma all_inactive_initializeGrid symbol base g g' :
  all_inactive g →
  GridStrategy.initializeGrid symbol base g = Some g' →
  all_inactive g'.
Proof.
  intros Hg. unfold GridStrategy.initializeGrid.
  destruct (_ <? 0)%Z; [done|]. intros [= <-] other.
  unfold GridStrategy.levels. simpl.
  destruct (decide (other = symbol)) as [->|Hne].
  - rewrite lookup_insert_eq. simpl. apply Forall_fmap, Forall_forall. by intros.
  - rewrite lookup_insert_ne by done. apply Hg.
Qed.

Lemma Grid_ShouldBuy_state symbol data g g' sig :
  GridStrategy.ShouldBuy symbol data g = Some (g', sig) →
  (if F64.eqb (GridStrategy.basePrice g) 0
   then GridStrategy.initializeGrid symbol (MarketData.Price data)
          (GridStrategy.setBasePrice g (MarketData.Price data))
   else Some g) = Some g'.
Proof.
  unfold GridStrategy.ShouldBuy.
  destruct (if F64.eqb _ 0 then _ else _) as [g1|]; simpl; [|done].
  destruct (_ || _).
  - intros [= ? ?]. by subst.
  - destruct (_ !! _); simpl; [|done].
    destruct (_ && _); intros [= ? ?]; by subst.
Qed.

Lemma all_inactive_call c g g' sig :
  all_inactive g → gridCall c g = Some (g', sig) → all_inactive g'.
Proof.
  intros Hg. destruct c as [symbol data|symbol data position]; simpl.
  - intros H. apply Grid_ShouldBuy_state in H.
    destruct (F64.eqb _ 0); [|by injection H as <-].
    eapply all_inactive_initializeGrid; [|exact H]. exact Hg.
  - destruct (Grid_ShouldSell_state symbol data position g) as (sig' & ->).
    by intros [= <- _].
Qed.
End GridLevels.

(** X26. The Grid strategy never records a purchase: a strategy built by
    [NewGridStrategy] has no level marked active, and through every
    sequence of buy and sell evaluations that returns, for any symbols and
    prices, every level of every symbol stays inactive with quantity 0.  A
    BUY answer therefore never blocks the level it was given for. *)
Theorem X26_grid_levels_stay_inactive (calls : list GridCall)
    (g g' : GridStrategy.t) (sigs : list Signal.t) :
  all_inactive GridStrategy.NewGridStrategy
  ∧ (all_inactive g → gridCalls calls g = Some (g', sigs) → all_inactive g').
Proof.
  split.
  { intros symbol. unfold GridStrategy.levels. simpl. by rewrite lookup_empty. }
  revert g sigs. induction calls as [|c calls IH]; intros g sigs Hg; simpl.
  - by intros [= <- _].
  - destruct (gridCall c g) as [[g1 sig]|] eqn:Hcall; simpl; [|done].
    destruct (gridCalls calls g1) as [[g2 sigs']|] eqn:Hrest; simpl; [|done].
    intros [= <- _]. eapply IH; [|exact Hrest].
    by eapply all_inactive_call.
Qed.

(** ** Initialize: values that are not float64 *)

(** X27. [Initialize] reads a parameter only when its value is a float64.
    With a parameter map that holds no float64 value (integers, strings and
    booleans only, or nothing) every strategy is left exactly as it was,
    for each of the four variants; the SMA variant then reports an error
    exactly when its short period was already not below its long period,
    and the others report none. *)
Theorem X27_initialize_ignores_non_floats (config : gmap string Value)
    (v : StrategyVariant) :
  no_float config →
  fst (Initialize config v) = v
  ∧ (snd (Initialize config v) ≠ None
     ↔ ∃ s, v = SMA s ∧ (SMAStrategy.longPeriod s ≤ SMAStrategy.shortPeriod s)%Z).
Proof.
  intros Hno.
  assert (Hnone : ∀ key, floatParam config key = None).
  { intros key. unfold floatParam. destruct (config !! key) as [[f| | |]|] eqn:E; try done.
    by apply Hno in E. }
  destruct v as [s|r|g|a]; simpl.
  - unfold SMAStrategy.Initialize. rewrite !Hnone.
    destruct (Z.geb_spec (SMAStrategy.shortPeriod s) (SMAStrategy.longPeriod s));
      simpl; (split; [done|]); split; try done.
    + intros _. by exists s.
    + intros (s' & [= <-] & ?). lia.
  - unfold RSIStrategy.Initialize. rewrite !Hnone. simpl. split; [done|].
    split; [done|]. by intros (s & ? & _).
  - unfold GridStrategy.Initialize. rewrite !Hnone. simpl. split; [done|].
    split; [done|]. by intros (s & ? & _).
  - split; [done|]. split; [done|]. by intros (s & ? & _).
Qed.

Lemma X27_initialize_ignores_non_floats_witness :
  let config : gmap string Value :=
    {[ "short_period" := VInt 5; "long_period" := VInt 8 ]} in
  no_float config
  ∧ fst (Initialize config (SMA SMAStrategy.NewSMAStrategy))
    = SMA SMAStrategy.NewSMAStrategy.
Proof.
  intros config.
  assert (Hno : no_float config).
  { intros key f H. subst config.
    apply lookup_insert_Some in H as [[_ H]|[_ H]]; [done|].
    by apply lookup_singleton_Some in H as [_ H]. }
  split; [exact Hno|].
  exact (proj1 (X27_initialize_ignores_non_floats config _ Hno)).
Defined.

(** ** Engine: the AI variant *)

(** X28. With the AI variant as the strategy, every pass of the decision
    task over a symbol that has cached market data and whose position could
    be read ends in an order decision that does not depend on the data:
    when the position found is OPEN, a SELL market order for its whole size
    is submitted; otherwise a BUY order of quantity 0 and price 0 is put to
    [ValidateOrder] and, when approved, a BUY market order for quantity 0 is
    submitted. *)
Theorem X28_ai_engine_orders (now : Time.t)
    (GetPosition : string → string → PositionResult)
    (PlaceOrder : OrderRequest.t → OrderResponse.t + string)
    (symbol : string) (e : Engine.t) (a : AIStrategy.t)
    (marketData : MarketData.t) :
  Engine.strategy e = AI a →
  Engine.getMarketData e symbol = Some marketData →
  (∀ msg, GetPosition symbol "LONG" ≠ PositionError msg) →
  ∃ e' events err,
    Engine.processSymbolSignals now GetPosition PlaceOrder symbol e
    = Some (e', events, err)
    ∧ placedOrders events
      = (if Engine.isOpen (foundPosition GetPosition symbol) then
           match foundPosition GetPosition symbol with
           | Some position =>
               [OrderRequest.mk symbol "SELL" "MARKET" (Position.Size position)
                  "BOTH" false ("sell_", Time.Unix now)]
           | None => []
           end
         else if snd (RiskManager.ValidateOrder now (OrderInfo.mk symbol "BUY" 0 0)
                        (Engine.riskManager e))
         then [OrderRequest.mk symbol "BUY" "MARKET" 0 "BOTH" false
                 ("buy_", Time.Unix now)]
         else []).
Proof.
  intros Hai Hdata Hread.
  unfold Engine.processSymbolSignals, foundPosition. rewrite Hdata.
  destruct (GetPosition symbol "LONG") as [p| |msg] eqn:Hpos;
    [| |by destruct (Hread msg)].
  - destruct (Engine.isOpen (Some p)) eqn:Hopen.
    + rewrite Hai. simpl.
      destruct (Engine.executeSellOrder now PlaceOrder symbol _ p _)
        as [[e1 sold] err1] eqn:Hex. simpl.
      eexists _, _, _. split; [done|].
      by apply executeSellOrder_effect in Hex as (_ & _ & _ & ->).
    + simpl. rewrite Hai. simpl.
      destruct (RiskManager.ValidateOrder now _ _) as [rm approved]. simpl.
      destruct approved; simpl.
      * destruct (Engine.executeBuyOrder now PlaceOrder symbol _ _)
          as [[e4 bought] err4] eqn:Hex. simpl.
        eexists _, _, _. split; [done|].
        apply (executeBuyOrder_effect now PlaceOrder symbol _
                 (OrderInfo.mk symbol "BUY" 0 0)) in Hex
          as (_ & _ & _ & _ & _ & Hplaced).
        unfold placedOrders in *. simpl. exact Hplaced.
      * eexists _, _, _. split; done.
  - simpl. rewrite Hai. simpl.
    destruct (RiskManager.ValidateOrder now _ _) as [rm approved]. simpl.
    destruct approved; simpl.
    + destruct (Engine.executeBuyOrder now PlaceOrder symbol _ _)
        as [[e4 bought] err4] eqn:Hex. simpl.
      eexists _, _, _. split; [done|].
      apply (executeBuyOrder_effect now PlaceOrder symbol _
               (OrderInfo.mk symbol "BUY" 0 0)) in Hex
        as (_ & _ & _ & _ & _ & Hplaced).
      unfold placedOrders in *. simpl. exact Hplaced.
    + eexists _, _, _. split; done.
Qed.

Lemma X28_ai_engine_orders_witness :
  let e :=
    Engine.mk Scenario.config true (AI AIStrategy.NewAIStrategy)
      Scenario.riskManager (Engine.marketData Scenario.engine) 0 0 0 0 in
  Engine.strategy e = AI AIStrategy.NewAIStrategy
  ∧ Engine.getMarketData e "BTCUSDT" = Some (MarketData.mk "BTCUSDT" 97 12 0)
  ∧ (∀ msg, Scenario.GetPosition "BTCUSDT" "LONG" ≠ PositionError msg)
  ∧ ∃ e' events err,
      Engine.processSymbolSignals Scenario.today Scenario.GetPosition
        Scenario.PlaceOrder "BTCUSDT" e = Some (e', events, err)
      ∧ placedOrders events = [Scenario.sellRequest].
Proof.
  intros e.
  assert (Hdata : Engine.getMarketData e "BTCUSDT"
                  = Some (MarketData.mk "BTCUSDT" 97 12 0)) by reflexivity.
  assert (Hread : ∀ msg, Scenario.GetPosition "BTCUSDT" "LONG" ≠ PositionError msg)
    by (intros msg H; vm_compute in H; discriminate).
  split; [reflexivity|]. split; [exact Hdata|]. split; [exact Hread|].
  destruct (X28_ai_engine_orders Scenario.today Scenario.GetPosition
              Scenario.PlaceOrder "BTCUSDT" e AIStrategy.NewAIStrategy _
              eq_refl Hdata Hread) as (e' & events & err & Hrun & Hplaced).
  exists e', events, err. split; [exact Hrun | exact Hplaced].
Defined.

(** ** Strategies: when an evaluation panics *)

Section Panics.
Lemma SMA_update_panics symbol price s :
  SMAStrategy.updatePriceHistory symbol price s = None
  ↔ (SMAStrategy.maxLength s < 0)%Z.
Proof.
  split.
  - intros Hnone. destruct (Z.lt_ge_cases (SMAStrategy.maxLength s) 0) as [|Hge];
      [done|]. rewrite SMA_update_spec in Hnone by done. done.
  - intros Hneg. unfold SMAStrategy.updatePriceHistory.
    pose proof (len_nonneg (SMAStrategy.history s symbol ++ [price])).
    destruct (Z.gtb_spec (len (SMAStrategy.history s symbol ++ [price]))
                (SMAStrategy.maxLength s)); [|lia].
    by destruct (Z.ltb_spec (SMAStrategy.maxLength s) 0); [|lia].
Qed.

Lemma RSI_update_panics symbol price r :
  RSIStrategy.updatePriceHistory symbol price r = None
  ↔ (RSIStrategy.maxLength r < 0)%Z.
Proof.
  split.
  - intros Hnone. destruct (Z.lt_ge_cases (RSIStrategy.maxLength r) 0) as [|Hge];
      [done|]. rewrite RSI_update_spec in Hnone by done. done.
  - intros Hneg. unfold RSIStrategy.updatePriceHistory.
    pose proof (len_nonneg (RSIStrategy.history r symbol ++ [price])).
    destruct (Z.gtb_spec (len (RSIStrategy.history r symbol ++ [price]))
                (RSIStrategy.maxLength r)); [|lia].
    by destruct (Z.ltb_spec (RSIStrategy.maxLength r) 0); [|lia].
Qed.

Lemma fmap_fst_None {A B} (x : option (A * B)) : fst <$> x = None ↔ x = None.
Proof. by destruct x. Qed.

(** The body of [GridStrategy.ShouldBuy] after the layout always returns:
    the level is read inside the bounds just checked. *)
Lemma Grid_ShouldBuy_returns symbol data g g' :
  (if F64.eqb (GridStrategy.basePrice g) 0
   then GridStrategy.initializeGrid symbol (MarketData.Price data)
          (GridStrategy.setBasePrice g (MarketData.Price data))
   else Some g) = Some g' →
  is_Some (GridStrategy.ShouldBuy symbol data g).
Proof.
  intros Hlay. unfold GridStrategy.ShouldBuy. rewrite Hlay. simpl.
  set (gridLevel := GridStrategy.findGridLevel (MarketData.Price data) g').
  destruct (Z.ltb_spec gridLevel 0) as [Hneg|Hpos]; simpl; [done|].
  destruct (Z.geb_spec gridLevel (len (GridStrategy.levels g' symbol))) as [Hge|Hlt];
    [done|].
  assert (Hsome : is_Some (GridStrategy.levels g' symbol !! Z.to_nat gridLevel)).
  { apply lookup_lt_is_Some_2. unfold len in Hlt. lia. }
  destruct Hsome as [level Hlevel]. rewrite Hlevel. simpl.
  by destruct (F64.leb _ _ && negb _).
Qed.
End Panics.

(** X29. When an evaluation panics.  For the SMA and the RSI variant,
    [ShouldBuy] and [ShouldSell] panic exactly when the history cap
    (longPeriod + 10, respectively period + 20) is negative: trimming the
    history then slices out of range, at the first evaluation already.  For
    the Grid variant, [ShouldBuy] panics exactly when no base price is set
    yet and numGrids is negative (the layout allocates a slice of negative
    length), and [ShouldSell] never panics. *)
Theorem X29_evaluation_panics_iff (symbol : string) (data : MarketData.t)
    (position : Position.t) (s : SMAStrategy.t) (r : RSIStrategy.t)
    (g : GridStrategy.t) :
  (SMAStrategy.ShouldBuy symbol data s = None ↔ (SMAStrategy.maxLength s < 0)%Z)
  ∧ (SMAStrategy.ShouldSell symbol data position s = None
     ↔ (SMAStrategy.maxLength s < 0)%Z)
  ∧ (RSIStrategy.ShouldBuy symbol data r = None ↔ (RSIStrategy.maxLength r < 0)%Z)
  ∧ (RSIStrategy.ShouldSell symbol data position r = None
     ↔ (RSIStrategy.maxLength r < 0)%Z)
  ∧ (GridStrategy.ShouldBuy symbol data g = None
     ↔ (GridStrategy.basePrice g == 0)%Q ∧ (GridStrategy.numGrids g < 0)%Z)
  ∧ GridStrategy.ShouldSell symbol data position g ≠ None.
Proof.
  destruct (SMA_evaluation_updates symbol data position s) as [Hsb Hss].
  destruct (RSI_evaluation_updates symbol data position r) as [Hrb Hrs].
  split; [by rewrite <- fmap_fst_None, Hsb, SMA_update_panics|].
  split; [by rewrite <- fmap_fst_None, Hss, SMA_update_panics|].
  split; [by rewrite <- fmap_fst_None, Hrb, RSI_update_panics|].
  split; [by rewrite <- fmap_fst_None, Hrs, RSI_update_panics|].
  split.
  - destruct (F64.eqb (GridStrategy.basePrice g) 0) eqn:Hbase.
    + pose proof Hbase as Hzero. apply eqb_eq in Hzero.
      destruct (Z.ltb_spec (GridStrategy.numGrids g) 0) as [Hneg|Hpos].
      * split; [done|]. intros _. unfold GridStrategy.ShouldBuy.
        rewrite Hbase. unfold GridStrategy.initializeGrid. simpl.
        by destruct (Z.ltb_spec (GridStrategy.numGrids g) 0); [|lia].
      * split; [|intros [_ ?]; lia]. intros Hnone. exfalso.
        destruct (Grid_ShouldBuy_returns symbol data g
                    (GridStrategy.mk (GridStrategy.name g) (GridStrategy.gridSize g)
                       (GridStrategy.numGrids g) (MarketData.Price data)
                       (<[symbol := GridStrategy.gridLevelAt
                                      (GridStrategy.setBasePrice g (MarketData.Price data))
                                      (MarketData.Price data)
                                    <$> seqZ 0 (GridStrategy.numGrids g)]>
                          (GridStrategy.positions g))
                       (GridStrategy.minConfidence g))) as [x Hx].
        { rewrite Hbase. unfold GridStrategy.initializeGrid. simpl.
          by destruct (Z.ltb_spec (GridStrategy.numGrids g) 0); [lia|]. }
        congruence.
    + apply eqb_neq in Hbase. split; [|intros [? _]; done].
      intros Hnone. destruct (Grid_ShouldBuy_laid_out symbol data g Hbase)
        as (sig & Hsig & _). congruence.
  - destruct (Grid_ShouldSell_state symbol data position g) as (sig & ->). done.
Qed.
